(** * k8s-kost: rightsizing recommender, cost simulation and circuit breaker

    A shallow embedding of

    - [backend/internal/analyzer/rightsizing.go]
        ([calculateConfidence], [calculateCPURecommendation],
         [calculateMemoryRecommendation], [getCurrentResources],
         [AnalyzeNamespace], [GetOptimizationSummary]),
    - [backend/internal/api/handlers.go] (the arithmetic of [SimulateCosts],
        [GetRecommendations] with [generateResourcePatches],
        [formatResourceValue] and [calculateOverallConfidence],
        [ApplyRecommendation], [GetResourceUsage]),
    - [backend/pkg/resilience/circuit_breaker.go]
        ([canExecute], [recordResult], [Execute]),
    - the retry file of the same package
        ([calculateDelay], [Retry], [RetryWithResult]),

    followed by the properties the design document states about them.

    Numbers.  The Go code computes on [float64].  Two embeddings of it
    are used.

    - Bit for bit (module [Binary64]): IEEE-754 binary64 as specified by
      the library's [SpecFloat], every operation rounded to the nearest
      value, with signed zeros, infinities and NaN.  The CPU
      recommendation and the cost simulation are embedded in it (modules
      [Analyzer64] and [Api64]): the worked example of the design
      document and the figures of a simulation are stated there, with
      the values the compiled code returns.

    - Idealised (module [Float64]): a finite [float64] is an exact
      rational ([Q]), and equalities between computed values are stated
      with [==] ([Qeq]).  Rounding error, overflow and NaN or infinite
      inputs are outside this model, and so are [int(x)] and
      [time.Duration(x)] for an [x] beyond 64 bits.  It is used for
      what does not depend on how a result is rounded: gates, floors,
      clamps, the order of values, counts and the shape of the answers.
      The one place where the code itself leaves the finite numbers is a
      division by zero, which Go evaluates by the IEEE-754 rules instead
      of trapping; the result of a division is therefore kept in the
      type [quotient], which has the two infinities and NaN next to the
      finite values.

    Go's [int] is [Z]; the counters of the circuit breaker wrap at 64
    bits. *)

From Stdlib Require Import QArith Qround Qminmax Qabs Lqa ZArith Lia String List Bool.
From Stdlib Require Import Qpower DecimalString SpecFloat.
Import ListNotations.

Open Scope Q_scope.

(* ================================================================== *)
(** ** Idealised [float64] *)
(* ================================================================== *)

Module Float64.

(** [x < y] and [x > y] as Go evaluates them on finite values. *)
Definition ltb (x y : Q) : bool := negb (Qle_bool y x).
Definition gtb (x y : Q) : bool := ltb y x.

(** [math.Min] and [math.Max] on finite, non-zero-signed arguments. *)
Definition math_Min (x y : Q) : Q := if ltb x y then x else y.
Definition math_Max (x y : Q) : Q := if gtb x y then x else y.

(** [math.Ceil]: the least integer not below [x], again as a float. *)
Definition math_Ceil (x : Q) : Q := inject_Z (Qceiling x).

(** The value of a [float64] division.  With a divisor of zero Go does
    not panic: a positive numerator gives [+Inf], a negative one [-Inf]
    and [0/0] gives NaN (the divisors met in this code are read from the
    database or are products of such values, so the zero is [+0]). *)
Inductive quotient : Type :=
| Finite (q : Q)
| PosInf
| NegInf
| NaN.

Definition fdiv (a b : Q) : quotient :=
  if Qeq_bool b 0 then
    match a ?= 0 with
    | Gt => PosInf
    | Lt => NegInf
    | Eq => NaN
    end
  else Finite (a / b).

(** [x < y] for a quotient [x] and a finite [y]: every comparison with
    NaN is false. *)
Definition quotient_ltb (x : quotient) (y : Q) : bool :=
  match x with
  | Finite q => ltb q y
  | NegInf => true
  | PosInf | NaN => false
  end.

(** [x * k] for a quotient [x] and a finite [k]. *)
Definition quotient_mul (x : quotient) (k : Q) : quotient :=
  match x with
  | Finite q => Finite (q * k)
  | NaN => NaN
  | PosInf =>
      match k ?= 0 with Gt => PosInf | Lt => NegInf | Eq => NaN end
  | NegInf =>
      match k ?= 0 with Gt => NegInf | Lt => PosInf | Eq => NaN end
  end.

Definition is_finite (x : quotient) : bool :=
  match x with Finite _ => true | _ => false end.

(** Equality of quotients up to [Qeq] on the finite part. *)
Definition quotient_eq (x y : quotient) : Prop :=
  match x, y with
  | Finite p, Finite q => p == q
  | PosInf, PosInf | NegInf, NegInf | NaN, NaN => True
  | _, _ => False
  end.

End Float64.

Import Float64.

(* ================================================================== *)
(** ** [analyzer]: the rightsizing recommender *)
(* ================================================================== *)

(** Over the idealised numbers; the CPU function is embedded bit for bit
    in [Analyzer64] below. *)
Module Analyzer.

Open Scope string_scope.

(** [time.Duration] and [time.Time] are counted in nanoseconds. *)
Definition Hour : Z := 3600 * 1000000000.

Record RightsizingAnalyzer : Type := {
  wasteThreshold  : Q;
  analysisWindow  : Z;
  minDataPoints   : Z;
  confidenceLevel : Q
}.

Record Recommendation : Type := {
  Namespace          : string;
  PodName            : string;
  ContainerName      : string;
  ResourceType       : string;
  CurrentRequest     : Q;
  CurrentLimit       : Q;
  RecommendedRequest : Q;
  RecommendedLimit   : Q;
  P50Usage           : Q;
  P95Usage           : Q;
  P99Usage           : Q;
  MaxUsage           : Q;
  PotentialSavings   : Q;
  Confidence         : Q;
  Reasoning          : string;
  RiskLevel          : string;
  LastUpdated        : Z
}.

Definition NewRightsizingAnalyzer : RightsizingAnalyzer := {|
  wasteThreshold  := 0.30;
  analysisWindow  := 7 * 24 * Hour;
  minDataPoints   := 100;
  confidenceLevel := 0.7
|}.

(** [calculateConfidence(dataPoints, cv)]. *)
Definition calculateConfidence (dataPoints : Z) (cv : Q) : Q :=
  let baseConfidence := math_Min (inject_Z dataPoints / 1000.0) 1.0 in
  let variabilityFactor := 1.0 - (cv * 0.5) in
  let variabilityFactor :=
    if ltb variabilityFactor 0.3 then 0.3 else variabilityFactor in
  let confidence := baseConfidence * variabilityFactor in
  let confidence := if ltb confidence 0.1 then 0.1 else confidence in
  let confidence := if gtb confidence 0.95 then 0.95 else confidence in
  confidence.

(** [cv := stddev / avg; if avg == 0 { cv = 0 }], exactly as written: the
    division is evaluated first, and its result is discarded when the
    mean is zero. *)
Definition guarded_cv (stddev avg : Q) : quotient :=
  let cv := fdiv stddev avg in
  if Qeq_bool avg 0 then Finite 0 else cv.

(** The finite number [guarded_cv] always holds (lemma
    [guarded_cv_finite] below), which is what the rest of the function
    computes with. *)
Definition coefficient_of_variation (stddev avg : Q) : Q :=
  if Qeq_bool avg 0 then 0 else stddev / avg.

(** [waste := (currentRequest - p95) / currentRequest]. *)
Definition waste (currentRequest p95 : Q) : quotient :=
  fdiv (currentRequest - p95) currentRequest.

(** [waste < ra.wasteThreshold && confidence > 0.7]: the condition under
    which both functions return [nil]. *)
Definition suppressed (ra : RightsizingAnalyzer)
    (currentRequest p95 confidence : Q) : bool :=
  quotient_ltb (waste currentRequest p95) (wasteThreshold ra)
  && gtb confidence 0.7.

(** The limit tier of the CPU branch: limit, reasoning and risk level. *)
Definition cpu_tier (cv p99 max : Q) : Q * string * string :=
  if ltb cv 0.3 then
    (p99 * 1.2,
     "Low variability workload, using P99 + 20% for limit", "LOW")
  else if ltb cv 0.6 then
    (math_Max (p99 * 1.5) max,
     "Medium variability workload, using max(P99*1.5, max) for limit",
     "MEDIUM")
  else
    (max * 1.3,
     "High variability workload, using max + 30% for limit", "HIGH").

Definition calculateCPURecommendation (ra : RightsizingAnalyzer)
    (currentRequest currentLimit p50 p95 p99 max avg stddev : Q)
    (dataPoints : Z) : option Recommendation :=
  let cv := coefficient_of_variation stddev avg in
  let confidence := calculateConfidence dataPoints cv in
  let safetyMargin := 1.15 in
  let recommendedRequest := p95 * safetyMargin in
  let '(recommendedLimit, reasoning, riskLevel) := cpu_tier cv p99 max in
  if suppressed ra currentRequest p95 confidence then None
  else
    let costPerMillicore := 0.00001 in
    let hourlyCurrentCost := currentRequest * costPerMillicore in
    let hourlyRecommendedCost := recommendedRequest * costPerMillicore in
    let monthlySavings :=
      (hourlyCurrentCost - hourlyRecommendedCost) * 24 * 30 in
    let '(recommendedRequest, reasoning) :=
      if ltb recommendedRequest 10 then
        (10, reasoning ++ " (adjusted to minimum 10m CPU)")
      else (recommendedRequest, reasoning) in
    let '(recommendedLimit, reasoning) :=
      if ltb recommendedLimit (recommendedRequest * 1.5) then
        (recommendedRequest * 1.5,
         reasoning ++ " (adjusted limit to 1.5x request)")
      else (recommendedLimit, reasoning) in
    Some {|
      Namespace          := "";
      PodName            := "";
      ContainerName      := "";
      ResourceType       := "CPU";
      CurrentRequest     := currentRequest;
      CurrentLimit       := currentLimit;
      RecommendedRequest := recommendedRequest;
      RecommendedLimit   := recommendedLimit;
      P50Usage           := p50;
      P95Usage           := p95;
      P99Usage           := p99;
      MaxUsage           := max;
      PotentialSavings   := monthlySavings;
      Confidence         := confidence;
      Reasoning          := reasoning;
      RiskLevel          := riskLevel;
      LastUpdated        := 0%Z
    |}.

Definition memory_risk (cv : Q) : string :=
  if ltb cv 0.3 then "LOW"
  else if ltb cv 0.6 then "MEDIUM"
  else "HIGH".

Definition calculateMemoryRecommendation (ra : RightsizingAnalyzer)
    (currentRequest currentLimit p50 p95 p99 max avg stddev : Q)
    (dataPoints : Z) : option Recommendation :=
  let cv := coefficient_of_variation stddev avg in
  let confidence := calculateConfidence dataPoints cv in
  let oomBuffer := 1.2 in
  let recommendedRequest := p95 * 1.1 in
  let recommendedLimit := max * oomBuffer in
  let recommendedRequest :=
    math_Ceil (recommendedRequest / 1048576) * 1048576 in
  let recommendedLimit :=
    math_Ceil (recommendedLimit / 1048576) * 1048576 in
  if suppressed ra currentRequest p95 confidence then None
  else
    let costPerByte := 0.00000001 in
    let hourlyCurrentCost := currentRequest * costPerByte in
    let hourlyRecommendedCost := recommendedRequest * costPerByte in
    let monthlySavings :=
      (hourlyCurrentCost - hourlyRecommendedCost) * 24 * 30 in
    let riskLevel := memory_risk cv in
    let recommendedRequest :=
      if ltb recommendedRequest (64 * 1024 * 1024) then 64 * 1024 * 1024
      else recommendedRequest in
    let recommendedLimit :=
      if ltb recommendedLimit (recommendedRequest * 1.5) then
        recommendedRequest * 1.5
      else recommendedLimit in
    Some {|
      Namespace          := "";
      PodName            := "";
      ContainerName      := "";
      ResourceType       := "Memory";
      CurrentRequest     := currentRequest;
      CurrentLimit       := currentLimit;
      RecommendedRequest := recommendedRequest;
      RecommendedLimit   := recommendedLimit;
      P50Usage           := p50;
      P95Usage           := p95;
      P99Usage           := p99;
      MaxUsage           := max;
      PotentialSavings   := monthlySavings;
      Confidence         := confidence;
      Reasoning          := "Memory recommendation with OOM prevention buffer";
      RiskLevel          := riskLevel;
      LastUpdated        := 0%Z
    |}.

(** The formula of the design document for the confidence, written with
    the library's [Qmin] and [Qmax]; [clamp x lo hi] brings [x] into
    [[lo, hi]]. *)
Definition clamp (x lo hi : Q) : Q := Qmin (Qmax x lo) hi.

Definition confidence_spec (sampleCount : Z) (cv : Q) : Q :=
  clamp (Qmin (inject_Z sampleCount / 1000) 1 * Qmax (1 - cv * 0.5) 0.3)
        0.1 0.95.

(** One mebibyte, in bytes. *)
Definition MiB : Q := 1048576.

(** [x] is a whole number of mebibytes. *)
Definition whole_MiB (x : Q) : Prop := exists k : Z, x == inject_Z k * MiB.

(** The configured unit costs (dollars per unit and hour) and the hours
    of a month the savings are computed with. *)
Definition costPerMillicore : Q := 0.00001.
Definition costPerByte : Q := 0.00000001.
Definition hoursPerMonth : Q := 720.

(** [note] occurs in the string [s]. *)
Definition mentions (s note : string) : Prop :=
  exists before after, s = before ++ note ++ after.

End Analyzer.

(* ================================================================== *)
(** ** [api]: the cost simulation of [SimulateCosts] *)
(* ================================================================== *)

(** Over the idealised numbers, for what a simulation reads of a
    request; its figures are those of [Api64] below. *)
Module Api.

Open Scope string_scope.

(** One entry of the [changes] array of the request body. *)
Record Change : Type := {
  PodName       : string;
  ContainerName : string;
  CPURequest    : Q;
  CPULimit      : Q;
  MemoryRequest : Q;
  MemoryLimit   : Q;
  Replicas      : Z
}.

Record SimulateRequest : Type := {
  Namespace : string;
  Changes   : list Change;
  Period    : string
}.

(** A row of [resource_requests]. *)
Record AllocationRow : Type := {
  cpu_request    : Q;
  cpu_limit      : Q;
  memory_request : Q;
  memory_limit   : Q
}.

(** What the handler reads from the database: the summed cost of the
    namespace over the trailing hour and the latest allocation row of a
    container; [None] is a failed query or scan. *)
Record Database : Type := {
  namespace_cost    : string -> option Q;
  latest_allocation : string -> string -> string -> option AllocationRow
}.

(** A [map[string]float64]; indexing with an absent key gives [0]. *)
Definition float_map : Type := list (string * Q).

Fixpoint index (m : float_map) (key : string) : Q :=
  match m with
  | [] => 0
  | (k, v) :: rest => if String.eqb k key then v else index rest key
  end.

Definition getCurrentCosts (db : Database) (namespace : string) : Q :=
  match namespace_cost db namespace with
  | None => 0
  | Some totalCost => totalCost
  end.

Definition getCurrentAllocation (db : Database)
    (namespace podName containerName : string) : float_map :=
  match latest_allocation db namespace podName containerName with
  | None =>
      [("cpu_request", 0); ("cpu_limit", 0);
       ("memory_request", 0); ("memory_limit", 0)]
  | Some row =>
      [("cpu_request", cpu_request row); ("cpu_limit", cpu_limit row);
       ("memory_request", memory_request row);
       ("memory_limit", memory_limit row)]
  end.

Record Breakdown : Type := {
  compute : Q;
  storage : Q;
  network : Q;
  other   : Q
}.

(** The JSON object the handler answers with. *)
Record SimulateResponse : Type := {
  current_cost    : Q;
  projected_cost  : Q;
  cost_difference : Q;
  savings         : Q;
  savings_percent : quotient;
  breakdown       : Breakdown
}.

(** One round of the loop over [request.Changes]. *)
Definition change_delta (db : Database) (namespace : string)
    (change : Change) : Q :=
  let current :=
    getCurrentAllocation db namespace (PodName change) (ContainerName change) in
  let cpuDelta :=
    (CPURequest change - index current "cpu_request") * 0.00001
    * inject_Z (Replicas change) in
  let memoryDelta :=
    (MemoryRequest change - index current "memory_request") * 0.00000001
    * inject_Z (Replicas change) in
  cpuDelta + memoryDelta.

Definition period_multiplier (period : string) : Q :=
  if String.eqb period "daily" then 24
  else if String.eqb period "monthly" then 24 * 30
  else if String.eqb period "yearly" then 24 * 365
  else 24 * 30.

(** [SimulateCosts] after the request body has been decoded. *)
Definition SimulateCosts (db : Database) (request : SimulateRequest)
    : SimulateResponse :=
  let currentCosts := getCurrentCosts db (Namespace request) in
  let costDelta :=
    fold_left
      (fun costDelta change =>
         costDelta + change_delta db (Namespace request) change)
      (Changes request) 0.0 in
  let multiplier := period_multiplier (Period request) in
  let projectedCost := (currentCosts + costDelta) * multiplier in
  let savings := currentCosts * multiplier - projectedCost in
  {|
    current_cost    := currentCosts * multiplier;
    projected_cost  := projectedCost;
    cost_difference := costDelta * multiplier;
    savings         := savings;
    savings_percent :=
      quotient_mul (fdiv savings (currentCosts * multiplier)) 100;
    breakdown := {|
      compute := projectedCost * 0.6;
      storage := projectedCost * 0.2;
      network := projectedCost * 0.15;
      other   := projectedCost * 0.05
    |}
  |}.

(** A namespace that costs 10 an hour, every container of which requests
    1000 millicores and 1 GiB; the request halves the CPU request of one
    container and asks for the monthly figures. *)
Definition example_db : Database := {|
  namespace_cost := fun _ => Some 10;
  latest_allocation := fun _ _ _ =>
    Some {| cpu_request := 1000; cpu_limit := 2000;
            memory_request := 1073741824; memory_limit := 2147483648 |}
|}.

Definition example_request : SimulateRequest := {|
  Namespace := "shop";
  Changes :=
    [ {| PodName := "web"; ContainerName := "app";
         CPURequest := 500; CPULimit := 1000;
         MemoryRequest := 1073741824; MemoryLimit := 2147483648;
         Replicas := 1 |} ];
  Period := "monthly"
|}.

End Api.

(* ================================================================== *)
(** ** [resilience]: the circuit breaker *)
(* ================================================================== *)

Module Resilience.

Open Scope Z_scope.

(** The three states, numbered by [iota]. *)
Definition StateClosed : Z := 0.
Definition StateOpen : Z := 1.
Definition StateHalfOpen : Z := 2.

(** Go's [int] on a 64-bit platform: [++] wraps around. *)
Definition wrap64 (z : Z) : Z := (z + 2 ^ 63) mod 2 ^ 64 - 2 ^ 63.

Definition max_int : Z := 2 ^ 63 - 1.

(** The fields of the struct other than the lock.  [timeout] is a
    [time.Duration] and [lastFailure] an instant, both in nanoseconds. *)
Record CircuitBreaker : Type := {
  state            : Z;
  failures         : Z;
  threshold        : Z;
  timeout          : Z;
  lastFailure      : Z;
  successes        : Z;
  successThreshold : Z
}.

Definition NewCircuitBreaker (threshold timeout : Z) : CircuitBreaker := {|
  state            := StateClosed;
  failures         := 0;
  threshold        := threshold;
  timeout          := timeout;
  lastFailure      := 0;
  successes        := 0;
  successThreshold := 3
|}.

Definition set_state (cb : CircuitBreaker) (s : Z) : CircuitBreaker := {|
  state            := s;
  failures         := failures cb;
  threshold        := threshold cb;
  timeout          := timeout cb;
  lastFailure      := lastFailure cb;
  successes        := successes cb;
  successThreshold := successThreshold cb
|}.

(** [time.Since(t)] when the clock reads [now]. *)
Definition Since (now t : Z) : Z := now - t.

(** [canExecute], run when the clock reads [now]: the breaker it leaves
    behind (an open breaker whose cooldown is over becomes half-open)
    and its answer. *)
Definition canExecute (cb : CircuitBreaker) (now : Z)
    : CircuitBreaker * bool :=
  if state cb =? StateClosed then (cb, true)
  else if state cb =? StateOpen then
    if Since now (lastFailure cb) >? timeout cb then
      (set_state cb StateHalfOpen, true)
    else (cb, false)
  else if state cb =? StateHalfOpen then (cb, true)
  else (cb, false).

(** [recordResult(err)], run when the clock reads [now]; [err] is [None]
    for [nil]. *)
Definition recordResult (cb : CircuitBreaker) (now : Z)
    (err : option string) : CircuitBreaker :=
  match err with
  | Some _ =>
      let failures' := wrap64 (failures cb + 1) in
      let state' :=
        if (state cb =? StateClosed) && (failures' >=? threshold cb) then
          StateOpen
        else if state cb =? StateHalfOpen then StateOpen
        else state cb in
      {| state            := state';
         failures         := failures';
         threshold        := threshold cb;
         timeout          := timeout cb;
         lastFailure      := now;
         successes        := 0;
         successThreshold := successThreshold cb |}
  | None =>
      let successes' := wrap64 (successes cb + 1) in
      let state' :=
        if (state cb =? StateHalfOpen)
           && (successes' >=? successThreshold cb) then StateClosed
        else state cb in
      {| state            := state';
         failures         := 0;
         threshold        := threshold cb;
         timeout          := timeout cb;
         lastFailure      := lastFailure cb;
         successes        := successes';
         successThreshold := successThreshold cb |}
  end.

(** The wrapped function acts on some outside world [W] and returns an
    error or [nil]. *)
Definition action (W : Type) : Type := W -> W * option string.

(** [Execute(ctx, fn)].  [now] is the clock at the check of [canExecute] and
    [elapsed] the (non-negative) time [fn] takes, so that the result is
    recorded at [now + elapsed].  The answer is the breaker, the world
    and the returned error. *)
Definition Execute {W : Type} (cb : CircuitBreaker) (now elapsed : Z)
    (fn : action W) (w : W) : CircuitBreaker * W * option string :=
  let '(cb, allowed) := canExecute cb now in
  if negb allowed then (cb, w, Some "circuit breaker is open"%string)
  else
    let '(w, err) := fn w in
    let cb := recordResult cb (now + elapsed) err in
    (cb, w, err).

(** A world that only counts how often the wrapped function ran. *)
Definition counting (err : option string) : action nat :=
  fun calls => (S calls, err).

(** One call of [Execute]: the clock at the check, the duration of the
    wrapped function, and its result. *)
Record call : Type := {
  at_time : Z;
  took    : Z;
  result  : option string
}.

(** A sequence of calls on one breaker, oldest first. *)
Fixpoint run (cb : CircuitBreaker) (calls : list call) : CircuitBreaker :=
  match calls with
  | [] => cb
  | c :: rest =>
      let '(cb', _, _) :=
        Execute cb (at_time c) (took c) (counting (result c)) O in
      run cb' rest
  end.

Definition failed (c : call) : Prop := result c <> None.
Definition succeeded (c : call) : Prop := result c = None.

(** One step of [run]. *)
Definition step (cb : CircuitBreaker) (c : call) : CircuitBreaker :=
  fst (fst (Execute cb (at_time c) (took c) (counting (result c)) O)).

(** What holds of every breaker made by [NewCircuitBreaker] and used
    through [Execute] only: the success threshold is 3; a closed breaker
    has counted fewer failures than its threshold (or none); an open one
    has no successes counted; a half-open one fewer than 3. *)
Definition well_formed (cb : CircuitBreaker) : Prop :=
  successThreshold cb = 3
  /\ - 2 ^ 63 <= threshold cb <= max_int
  /\ ((state cb = StateClosed
       /\ 0 <= failures cb
       /\ (failures cb < threshold cb \/ failures cb = 0))
      \/ (state cb = StateOpen /\ successes cb = 0)
      \/ (state cb = StateHalfOpen /\ 0 <= successes cb < 3)).

End Resilience.


(* ================================================================== *)
(** ** [analyzer]: a run over a namespace and its summary *)
(* ================================================================== *)

Module AnalyzerRun.

Import Analyzer.
Open Scope string_scope.

(** A value or an [error], the latter kept as its message. *)
Inductive result (A : Type) : Type :=
| Ok (a : A)
| Failed (msg : string).

Arguments Ok {A} a.
Arguments Failed {A} msg.

Record ResourceAllocation : Type := {
  CPURequest    : Q;
  CPULimit      : Q;
  MemoryRequest : Q;
  MemoryLimit   : Q
}.

(** One row of the statistics query of [AnalyzeNamespace], as scanned. *)
Record MetricsRow : Type := {
  podName       : string;
  containerName : string;
  p50CPU        : Q;
  p95CPU        : Q;
  p99CPU        : Q;
  maxCPU        : Q;
  avgCPU        : Q;
  stddevCPU     : Q;
  dataPoints    : Z;
  p50Mem        : Q;
  p95Mem        : Q;
  p99Mem        : Q;
  maxMem        : Q;
  avgMem        : Q;
  stddevMem     : Q
}.

(** What the analyzer reads.  [query_metrics namespace minDataPoints] is
    the statistics query: it fails as a whole, or gives rows each of
    which scans or fails to scan.  [query_resources] is the latest row of
    [resource_requests] of a container, or the error of the query. *)
Record Database : Type := {
  query_metrics   : string -> Z -> result (list (result MetricsRow));
  query_resources : string -> string -> string -> result Api.AllocationRow
}.

(** [getCurrentResources]: the requests, and a second value holding the
    limits in its request fields as well as in its limit fields. *)
Definition getCurrentResources (db : Database)
    (namespace podName containerName : string)
    : result (ResourceAllocation * ResourceAllocation) :=
  match query_resources db namespace podName containerName with
  | Failed msg => Failed ("getting current resources: " ++ msg)
  | Ok row =>
      let cpuRequest := Api.cpu_request row in
      let cpuLimit := Api.cpu_limit row in
      let memoryRequest := Api.memory_request row in
      let memoryLimit := Api.memory_limit row in
      let requests := {|
        CPURequest    := cpuRequest;
        CPULimit      := cpuLimit;
        MemoryRequest := memoryRequest;
        MemoryLimit   := memoryLimit |} in
      let limits := {|
        CPURequest    := cpuLimit;
        CPULimit      := cpuLimit;
        MemoryRequest := memoryLimit;
        MemoryLimit   := memoryLimit |} in
      Ok (requests, limits)
  end.

(** The four assignments made to an emitted recommendation. *)
Definition stamp (rec : Recommendation)
    (namespace podName containerName : string) (now : Z) : Recommendation := {|
  Namespace          := namespace;
  PodName            := podName;
  ContainerName      := containerName;
  ResourceType       := ResourceType rec;
  CurrentRequest     := CurrentRequest rec;
  CurrentLimit       := CurrentLimit rec;
  RecommendedRequest := RecommendedRequest rec;
  RecommendedLimit   := RecommendedLimit rec;
  P50Usage           := P50Usage rec;
  P95Usage           := P95Usage rec;
  P99Usage           := P99Usage rec;
  MaxUsage           := MaxUsage rec;
  PotentialSavings   := PotentialSavings rec;
  Confidence         := Confidence rec;
  Reasoning          := Reasoning rec;
  RiskLevel          := RiskLevel rec;
  LastUpdated        := now
|}.

(** The loop of [AnalyzeNamespace] carries the slice of recommendations
    and the number of times the clock has been read; [clock k] is the
    [k]-th reading of [time.Now()]. *)
Definition run_state : Type := (list Recommendation * nat)%type.

Definition emit (clock : nat -> Z) (namespace podName containerName : string)
    (st : run_state) (rec : option Recommendation) : run_state :=
  match rec with
  | Some rec =>
      ((fst st ++ [stamp rec namespace podName containerName (clock (snd st))])%list,
       S (snd st))
  | None => st
  end.

(** One round of the loop over the rows. *)
Definition analyze_row (ra : RightsizingAnalyzer) (db : Database)
    (clock : nat -> Z) (namespace : string)
    (st : run_state) (row : result MetricsRow) : run_state :=
  match row with
  | Failed _ => st
  | Ok m =>
      match getCurrentResources db namespace (podName m) (containerName m) with
      | Failed _ => st
      | Ok (currentRequests, currentLimits) =>
          let cpuRec :=
            calculateCPURecommendation ra
              (CPURequest currentRequests) (CPULimit currentLimits)
              (p50CPU m) (p95CPU m) (p99CPU m) (maxCPU m) (avgCPU m)
              (stddevCPU m) (dataPoints m) in
          let st := emit clock namespace (podName m) (containerName m)
                      st cpuRec in
          let memRec :=
            calculateMemoryRecommendation ra
              (MemoryRequest currentRequests) (MemoryLimit currentLimits)
              (p50Mem m) (p95Mem m) (p99Mem m) (maxMem m) (avgMem m)
              (stddevMem m) (dataPoints m) in
          emit clock namespace (podName m) (containerName m) st memRec
      end
  end.

Definition AnalyzeNamespace (ra : RightsizingAnalyzer) (db : Database)
    (clock : nat -> Z) (namespace : string) : result (list Recommendation) :=
  match query_metrics db namespace (minDataPoints ra) with
  | Failed msg => Failed ("querying metrics: " ++ msg)
  | Ok rows =>
      Ok (fst (fold_left (analyze_row ra db clock namespace) rows
                 ([], O)))
  end.

(** The object [GetOptimizationSummary] returns. *)
Record Summary : Type := {
  total_recommendations  : Z;
  total_savings          : Q;
  annual_savings         : Q;
  cpu_savings            : Q;
  memory_savings         : Q;
  confidence_high        : Z;
  confidence_medium      : Z;
  confidence_low         : Z;
  risk_low               : Z;
  risk_medium            : Z;
  risk_high              : Z;
  optimization_potential : Q
}.

(** The variables of its loop. *)
Record tally : Type := {
  totalSavings          : Q;
  cpuSavings            : Q;
  memorySavings         : Q;
  highConfidenceCount   : Z;
  mediumConfidenceCount : Z;
  lowConfidenceCount    : Z;
  highRiskCount         : Z;
  mediumRiskCount       : Z;
  lowRiskCount          : Z
}.

Definition empty_tally : tally := {|
  totalSavings := 0; cpuSavings := 0; memorySavings := 0;
  highConfidenceCount := 0; mediumConfidenceCount := 0;
  lowConfidenceCount := 0;
  highRiskCount := 0; mediumRiskCount := 0; lowRiskCount := 0
|}.

(** [n++] on an [int]. *)
Definition incr (n : Z) : Z := Resilience.wrap64 (n + 1).

Definition count (t : tally) (rec : Recommendation) : tally :=
  let isCPU := String.eqb (ResourceType rec) "CPU" in
  let high := Qle_bool 0.8 (Confidence rec) in
  let medium := Qle_bool 0.6 (Confidence rec) in
  {|
    totalSavings := totalSavings t + PotentialSavings rec;
    cpuSavings :=
      if isCPU then cpuSavings t + PotentialSavings rec else cpuSavings t;
    memorySavings :=
      if isCPU then memorySavings t
      else memorySavings t + PotentialSavings rec;
    highConfidenceCount :=
      if high then incr (highConfidenceCount t) else highConfidenceCount t;
    mediumConfidenceCount :=
      if high then mediumConfidenceCount t
      else if medium then incr (mediumConfidenceCount t)
      else mediumConfidenceCount t;
    lowConfidenceCount :=
      if high then lowConfidenceCount t
      else if medium then lowConfidenceCount t
      else incr (lowConfidenceCount t);
    highRiskCount :=
      if String.eqb (RiskLevel rec) "LOW" then highRiskCount t
      else if String.eqb (RiskLevel rec) "MEDIUM" then highRiskCount t
      else if String.eqb (RiskLevel rec) "HIGH" then incr (highRiskCount t)
      else highRiskCount t;
    mediumRiskCount :=
      if String.eqb (RiskLevel rec) "LOW" then mediumRiskCount t
      else if String.eqb (RiskLevel rec) "MEDIUM" then
        incr (mediumRiskCount t)
      else mediumRiskCount t;
    lowRiskCount :=
      if String.eqb (RiskLevel rec) "LOW" then incr (lowRiskCount t)
      else lowRiskCount t
  |}.

Definition summarize (recommendations : list Recommendation) : Summary :=
  let t := fold_left count recommendations empty_tally in
  {|
    total_recommendations  := Z.of_nat (length recommendations);
    total_savings          := totalSavings t;
    annual_savings         := totalSavings t * 12;
    cpu_savings            := cpuSavings t;
    memory_savings         := memorySavings t;
    confidence_high        := highConfidenceCount t;
    confidence_medium      := mediumConfidenceCount t;
    confidence_low         := lowConfidenceCount t;
    risk_low               := lowRiskCount t;
    risk_medium            := mediumRiskCount t;
    risk_high              := highRiskCount t;
    optimization_potential := (totalSavings t / 1000) * 100
  |}.

(** The savings of some recommendations, added up from zero in the
    order of the list. *)
Definition sum_savings (recommendations : list Recommendation) : Q :=
  fold_left (fun total rec => total + PotentialSavings rec)
    recommendations 0.

Definition is_cpu (rec : Recommendation) : bool :=
  String.eqb (ResourceType rec) "CPU".

Definition GetOptimizationSummary (ra : RightsizingAnalyzer) (db : Database)
    (clock : nat -> Z) (namespace : string) : result Summary :=
  match AnalyzeNamespace ra db clock namespace with
  | Failed msg => Failed msg
  | Ok recommendations => Ok (summarize recommendations)
  end.

(** The rows of a query that scan and whose container has a row of
    current resources. *)
Definition usable (db : Database) (namespace : string)
    (row : result MetricsRow) : bool :=
  match row with
  | Failed _ => false
  | Ok m =>
      match query_resources db namespace (podName m) (containerName m) with
      | Ok _ => true
      | Failed _ => false
      end
  end.

(** Replaces the statistics query of a database by a given answer. *)
Definition with_rows (db : Database) (rows : list (result MetricsRow))
    : Database := {|
  query_metrics   := fun _ _ => Ok rows;
  query_resources := query_resources db
|}.

(** [r] was computed from a scanned row [m] of [rows] and the row of
    current resources of its container: it names that container and
    holds the request and the limit of its resource kind. *)
Definition from_row (db : Database) (namespace : string)
    (rows : list (result MetricsRow)) (r : Recommendation) : Prop :=
  exists m row,
    In (Ok m) rows
    /\ query_resources db namespace (podName m) (containerName m) = Ok row
    /\ PodName r = podName m
    /\ ContainerName r = containerName m
    /\ ((ResourceType r = "CPU"
         /\ CurrentRequest r = Api.cpu_request row
         /\ CurrentLimit r = Api.cpu_limit row
         /\ P95Usage r = p95CPU m)
        \/ (ResourceType r = "Memory"
            /\ CurrentRequest r = Api.memory_request row
            /\ CurrentLimit r = Api.memory_limit row
            /\ P95Usage r = p95Mem m)).

Definition known_risk (r : Recommendation) : Prop :=
  RiskLevel r = "LOW" \/ RiskLevel r = "MEDIUM" \/ RiskLevel r = "HIGH".

(** What holds of each recommendation of a run over [rows]. *)
Definition sound_for (db : Database) (ns : string)
    (rows : list (result MetricsRow)) (r : Recommendation) : Prop :=
  Namespace r = ns
  /\ from_row db ns rows r
  /\ known_risk r
  /\ 0.1 <= Confidence r <= 0.95.

(** What the loop keeps true of its state. *)
Definition run_invariant (db : Database) (ns : string)
    (rows : list (result MetricsRow)) (clock : nat -> Z)
    (st : run_state) : Prop :=
  snd st = length (fst st)
  /\ Forall (sound_for db ns rows) (fst st)
  /\ map LastUpdated (fst st) = map clock (seq 0 (length (fst st))).

(** A namespace with three rows of statistics: a container with the
    resources of the worked example, a row that does not scan, and a
    container without a row of current resources. *)
Definition example_row (pod container : string) : MetricsRow := {|
  podName := pod; containerName := container;
  p50CPU := 100; p95CPU := 180; p99CPU := 220; maxCPU := 250;
  avgCPU := 120; stddevCPU := 30;
  dataPoints := 500;
  p50Mem := 50000000; p95Mem := 65011712; p99Mem := 70000000;
  maxMem := 73400320; avgMem := 60000000; stddevMem := 3000000
|}.

Definition example_database : Database := {|
  query_metrics := fun namespace _ =>
    if String.eqb namespace "shop" then
      Ok [ Ok (example_row "web" "app");
           Failed "sql: Scan error";
           Ok (example_row "db" "postgres") ]
    else Failed "pq: connection refused";
  query_resources := fun _ podName _ =>
    if String.eqb podName "web" then
      Ok {| Api.cpu_request := 400; Api.cpu_limit := 800;
            Api.memory_request := 268435456;
            Api.memory_limit := 536870912 |}
    else Failed "sql: no rows in result set"
|}.

(** A clock that advances by a millisecond from one reading to the
    next. *)
Definition example_clock (k : nat) : Z := 1700000000000000000 + Z.of_nat k * 1000000.

End AnalyzerRun.

(* ================================================================== *)
(** ** [api]: what a simulated change is read for *)
(* ================================================================== *)

Module Changes.

Import Api.

(** Two changes name the same container and propose the same requests
    and replicas; their limits may differ. *)
Definition same_requests (c d : Change) : Prop :=
  PodName c = PodName d
  /\ ContainerName c = ContainerName d
  /\ CPURequest c = CPURequest d
  /\ MemoryRequest c = MemoryRequest d
  /\ Replicas c = Replicas d.

(** The change [c] with other limits. *)
Definition with_limits (c : Change) (cpuLimit memoryLimit : Q) : Change := {|
  PodName       := PodName c;
  ContainerName := ContainerName c;
  CPURequest    := CPURequest c;
  CPULimit      := cpuLimit;
  MemoryRequest := MemoryRequest c;
  MemoryLimit   := memoryLimit;
  Replicas      := Replicas c
|}.

End Changes.

(* ================================================================== *)
(** ** [api]: the handlers of the recommendations *)
(* ================================================================== *)

Module Handlers.

Import AnalyzerRun.
Open Scope string_scope.

(** What a handler writes: a JSON body, or the status and text given to
    [http.Error]. *)
Inductive http (A : Type) : Type :=
| Json (body : A)
| HttpError (status : Z) (message : string).

Arguments Json {A} body.
Arguments HttpError {A} status message.

Definition StatusNotFound : Z := 404.
Definition StatusInternalServerError : Z := 500.

(** [int(x)] for a [float64] whose whole part fits an [int]: the
    fraction is dropped.  (What the conversion gives beyond 64 bits is
    not modelled.) *)
Definition int_of_float (x : Q) : Z :=
  if Qle_bool 0 x then Qfloor x else Qceiling x.

(** [%d] of [fmt.Sprintf]. *)
Definition Sprintf_d (n : Z) : string :=
  NilZero.string_of_int (Z.to_int n).

Definition formatResourceValue (resourceType : string) (value : Q) : string :=
  if String.eqb resourceType "CPU" then
    Sprintf_d (int_of_float value) ++ "m"
  else
    Sprintf_d (int_of_float (value / 1024 / 1024)) ++ "Mi".

Definition newline : string := String (Ascii.ascii_of_nat 10) "".

(** The text of one patch. *)
Definition patch_of (rec : Analyzer.Recommendation) : string :=
  newline
  ++ "apiVersion: v1" ++ newline
  ++ "kind: Pod" ++ newline
  ++ "metadata:" ++ newline
  ++ "  name: " ++ Analyzer.PodName rec ++ newline
  ++ "  namespace: " ++ Analyzer.Namespace rec ++ newline
  ++ "spec:" ++ newline
  ++ "  containers:" ++ newline
  ++ "  - name: " ++ Analyzer.ContainerName rec ++ newline
  ++ "    resources:" ++ newline
  ++ "      requests:" ++ newline
  ++ "        " ++ Analyzer.ResourceType rec ++ ": "
  ++ formatResourceValue (Analyzer.ResourceType rec)
       (Analyzer.RecommendedRequest rec) ++ newline
  ++ "      limits:" ++ newline
  ++ "        " ++ Analyzer.ResourceType rec ++ ": "
  ++ formatResourceValue (Analyzer.ResourceType rec)
       (Analyzer.RecommendedLimit rec) ++ newline.

Definition generateResourcePatches
    (recommendations : list Analyzer.Recommendation) : list string :=
  fold_left (fun patches rec => (patches ++ [patch_of rec])%list)
    recommendations [].

Definition calculateOverallConfidence
    (recommendations : list Analyzer.Recommendation) : Q :=
  if (Z.of_nat (length recommendations) =? 0)%Z then 0
  else
    let totalConfidence :=
      fold_left (fun total rec => total + Analyzer.Confidence rec)
        recommendations 0.0 in
    totalConfidence / inject_Z (Z.of_nat (length recommendations)).

(** A [map[string][]Recommendation]: indexing with an absent key gives
    the nil slice, assigning replaces the entry of the key or adds one. *)
Definition pod_map : Type := list (string * list Analyzer.Recommendation).

Fixpoint lookup (m : pod_map) (key : string)
    : list Analyzer.Recommendation :=
  match m with
  | [] => []
  | (k, v) :: rest => if String.eqb k key then v else lookup rest key
  end.

Fixpoint assign (m : pod_map) (key : string)
    (value : list Analyzer.Recommendation) : pod_map :=
  match m with
  | [] => [(key, value)]
  | (k, v) :: rest =>
      if String.eqb k key then (k, value) :: rest
      else (k, v) :: assign rest key value
  end.

(** The loop of [GetRecommendations] that groups by pod and sums the
    savings. *)
Definition group_by_pod (recommendations : list Analyzer.Recommendation)
    : pod_map * Q :=
  fold_left
    (fun '(podRecommendations, totalSavings) rec =>
       (assign podRecommendations (Analyzer.PodName rec)
          (lookup podRecommendations (Analyzer.PodName rec) ++ [rec])%list,
        totalSavings + Analyzer.PotentialSavings rec))
    recommendations ([], 0.0).

Record RecommendationsResponse : Type := {
  namespace        : string;
  recommendations  : pod_map;
  total_savings    : Q;
  annual_savings   : Q;
  patches          : list string;
  apply_command    : string;
  confidence_score : Q
}.

Definition GetRecommendations (ra : Analyzer.RightsizingAnalyzer)
    (db : Database) (clock : nat -> Z) (namespace : string)
    : http RecommendationsResponse :=
  match AnalyzeNamespace ra db clock namespace with
  | Failed _ => HttpError StatusInternalServerError "Analysis failed"
  | Ok recommendations =>
      let '(podRecommendations, totalSavings) :=
        group_by_pod recommendations in
      let patches := generateResourcePatches recommendations in
      Json {|
        namespace        := namespace;
        recommendations  := podRecommendations;
        total_savings    := totalSavings;
        annual_savings   := totalSavings * 12;
        patches          := patches;
        apply_command    :=
          "kubectl apply -f recommendations-" ++ namespace ++ ".yaml";
        confidence_score := calculateOverallConfidence recommendations
      |}
  end.

(** The integer a formatted value is printed from. *)
Definition quantity (resourceType : string) (value : Q) : Z :=
  if String.eqb resourceType "CPU" then int_of_float value
  else int_of_float (value / 1024 / 1024).

Definition unit_of (resourceType : string) : string :=
  if String.eqb resourceType "CPU" then "m" else "Mi".

End Handlers.

Module ApplyHandler.

Import AnalyzerRun Handlers.
Open Scope string_scope.

(** The decoded body of the request. *)
Record ApplyRequest : Type := {
  Namespace     : string;
  PodName       : string;
  ContainerName : string;
  ResourceType  : string;
  Action        : string
}.

(** The row given to the [INSERT INTO recommendation_actions]. *)
Record ActionRow : Type := {
  row_namespace : string;
  row_pod       : string;
  row_container : string;
  row_resource  : string;
  row_action    : string;
  applied_at    : Z
}.

Record ApplyResponse : Type := {
  status  : string;
  action  : string;
  message : string
}.

Definition matches (request : ApplyRequest) (rec : Analyzer.Recommendation)
    : bool :=
  String.eqb (Analyzer.PodName rec) (PodName request)
  && String.eqb (Analyzer.ContainerName rec) (ContainerName request)
  && String.eqb (Analyzer.ResourceType rec) (ResourceType request).

(** [ApplyRecommendation] after the request body has been decoded.
    [now] is the clock at the insertion.  The second component is the
    row the handler asks the database to insert, if it gets that far;
    whether the insertion succeeds has no influence on the answer. *)
Definition ApplyRecommendation (ra : Analyzer.RightsizingAnalyzer)
    (db : Database) (clock : nat -> Z) (now : Z) (request : ApplyRequest)
    : http ApplyResponse * option ActionRow :=
  match AnalyzeNamespace ra db clock (Namespace request) with
  | Failed _ =>
      (HttpError StatusInternalServerError "Failed to get recommendations",
       None)
  | Ok recommendations =>
      match find (matches request) recommendations with
      | None => (HttpError StatusNotFound "Recommendation not found", None)
      | Some _ =>
          (Json {|
             status  := "success";
             action  := Action request;
             message :=
               "Recommendation " ++ Action request ++ " for "
               ++ Namespace request ++ "/" ++ PodName request ++ "/"
               ++ ContainerName request
           |},
           Some {|
             row_namespace := Namespace request;
             row_pod       := PodName request;
             row_container := ContainerName request;
             row_resource  := ResourceType request;
             row_action    := Action request;
             applied_at    := now
           |})
      end
  end.

(** Two requests on the example namespace: one for the CPU of the
    container that has a recommendation, one that writes the resource
    type in lower case. *)
Definition example_apply (resourceType : string) : ApplyRequest := {|
  Namespace := "shop"; PodName := "web"; ContainerName := "app";
  ResourceType := resourceType; Action := "apply"
|}.

End ApplyHandler.

Module UsageHandler.

Import AnalyzerRun Handlers.
Open Scope string_scope.

(** An element of the [usage] array; a scanned row has the two
    utilizations at zero. *)
Record ResourceUsage : Type := {
  PodName           : string;
  ContainerName     : string;
  AvgCPU            : Q;
  MaxCPU            : Q;
  AvgMemory         : Q;
  MaxMemory         : Q;
  CPURequest        : Q;
  CPULimit          : Q;
  MemoryRequest     : Q;
  MemoryLimit       : Q;
  CPUUtilization    : Q;
  MemoryUtilization : Q
}.

(** [if request > 0 { utilization = (avg / request) * 100 }]. *)
Definition utilization (avg request old : Q) : Q :=
  if gtb request 0 then (avg / request) * 100 else old.

Definition with_utilization (res : ResourceUsage) : ResourceUsage := {|
  PodName           := PodName res;
  ContainerName     := ContainerName res;
  AvgCPU            := AvgCPU res;
  MaxCPU            := MaxCPU res;
  AvgMemory         := AvgMemory res;
  MaxMemory         := MaxMemory res;
  CPURequest        := CPURequest res;
  CPULimit          := CPULimit res;
  MemoryRequest     := MemoryRequest res;
  MemoryLimit       := MemoryLimit res;
  CPUUtilization    :=
    utilization (AvgCPU res) (CPURequest res) (CPUUtilization res);
  MemoryUtilization :=
    utilization (AvgMemory res) (MemoryRequest res) (MemoryUtilization res)
|}.

(** A row as [rows.Scan] fills it: the ten columns, the rest zero. *)
Record UsageRow : Type := {
  pod_name       : string;
  container_name : string;
  avg_cpu        : Q;
  max_cpu        : Q;
  avg_memory     : Q;
  max_memory     : Q;
  cpu_request    : Q;
  cpu_limit      : Q;
  memory_request : Q;
  memory_limit   : Q
}.

Definition scanned (row : UsageRow) : ResourceUsage := {|
  PodName           := pod_name row;
  ContainerName     := container_name row;
  AvgCPU            := avg_cpu row;
  MaxCPU            := max_cpu row;
  AvgMemory         := avg_memory row;
  MaxMemory         := max_memory row;
  CPURequest        := cpu_request row;
  CPULimit          := cpu_limit row;
  MemoryRequest     := memory_request row;
  MemoryLimit       := memory_limit row;
  CPUUtilization    := 0;
  MemoryUtilization := 0
|}.

Record UsageResponse : Type := {
  namespace : string;
  usage     : list ResourceUsage;
  timestamp : Z
}.

(** [GetResourceUsage]: [query namespace] is the answer of the database
    to the usage query, a failure or rows that scan or do not. *)
Definition GetResourceUsage
    (query : string -> result (list (result UsageRow)))
    (now : Z) (namespace : string) : http UsageResponse :=
  match query namespace with
  | Failed _ => HttpError StatusInternalServerError "Database error"
  | Ok rows =>
      Json {|
        namespace := namespace;
        usage :=
          fold_left
            (fun usage row =>
               match row with
               | Failed _ => usage
               | Ok row => (usage ++ [with_utilization (scanned row)])%list
               end)
            rows [];
        timestamp := now
      |}
  end.

(** What holds of the utilization [u] computed from an average usage
    and a request. *)
Definition guarded_utilization (avg request u : Q) : Prop :=
  (request <= 0 -> u = 0)
  /\ (0 < request ->
      fdiv avg request = Finite (avg / request)
      /\ u == avg / request * 100
      /\ (0 <= avg <= request -> 0 <= u <= 100)).

Definition scans (row : result UsageRow) : bool :=
  match row with Ok _ => true | Failed _ => false end.

(** A usage query with three rows: a container within its requests, one
    without requests, and a row that does not scan. *)
Definition example_usage (namespace : string)
    : result (list (result UsageRow)) :=
  Ok [ Ok {| pod_name := "web"; container_name := "app";
             avg_cpu := 120; max_cpu := 250;
             avg_memory := 60000000; max_memory := 73400320;
             cpu_request := 400; cpu_limit := 800;
             memory_request := 268435456; memory_limit := 536870912 |};
       Ok {| pod_name := "job"; container_name := "run";
             avg_cpu := 50; max_cpu := 90;
             avg_memory := 1000000; max_memory := 2000000;
             cpu_request := 0; cpu_limit := 0;
             memory_request := 0; memory_limit := 0 |};
       Failed "sql: Scan error" ].

End UsageHandler.

(* ================================================================== *)
(** ** [resilience]: sequences of calls, and retries *)
(* ================================================================== *)

Module Streaks.

Import Resilience.
Open Scope Z_scope.

(** No run of consecutive failures in [calls], counted on from a run of
    [streak] failures already seen, reaches [limit]. *)
Fixpoint stays_below (limit streak : Z) (calls : list call) : bool :=
  match calls with
  | [] => true
  | c :: rest =>
      match result c with
      | None => stays_below limit 0 rest
      | Some _ => (streak + 1 <? limit) && stays_below limit (streak + 1) rest
      end
  end.

(** The call comes while no more than the cooldown has passed since the
    last failure of [cb]. *)
Definition within_cooldown (cb : CircuitBreaker) (c : call) : Prop :=
  Since (at_time c) (lastFailure cb) <= timeout cb.

(** The three settings of a breaker. *)
Definition settings (cb : CircuitBreaker) : Z * Z * Z :=
  (threshold cb, timeout cb, successThreshold cb).

(** [Execute] rejected the call: the answer it gives without running
    the function. *)
Definition rejects (cb : CircuitBreaker) (now : Z) : bool :=
  negb (snd (canExecute cb now)).

End Streaks.

Module Retry.

Import Resilience.
Open Scope Z_scope.

Definition Second : Z := 1000000000.

Record RetryConfig : Type := {
  MaxAttempts       : Z;
  InitialDelay      : Z;
  MaxDelay          : Z;
  BackoffMultiplier : Q;
  Jitter            : bool
}.

Definition DefaultRetryConfig : RetryConfig := {|
  MaxAttempts       := 3;
  InitialDelay      := Second;
  MaxDelay          := 30 * Second;
  BackoffMultiplier := 2.0;
  Jitter            := true
|}.

(** The delay before jitter and cap:
    [float64(rc.InitialDelay) * math.Pow(rc.BackoffMultiplier,
    float64(attempt))]. *)
Definition backoff (rc : RetryConfig) (attempt : Z) : Q :=
  (inject_Z (InitialDelay rc) * Qpower (BackoffMultiplier rc) attempt)%Q.

(** [calculateDelay(attempt)]; [random] is the number [rand.Float64()]
    returns, which is read only when jitter is on.  The arithmetic is
    the idealised one: no rounding, [float64(rc.MaxDelay)] is [MaxDelay]
    itself and the conversion to a [time.Duration] only drops the
    fraction.  What is proved of [Retry] below does not depend on the
    value of a delay. *)
Definition calculateDelay (rc : RetryConfig) (attempt : Z) (random : Q) : Z :=
  let delay := backoff rc attempt in
  let delay :=
    if Jitter rc then
      let jitter := (random * 0.1 * delay)%Q in
      (delay + jitter)%Q
    else delay in
  let delay :=
    if gtb delay (inject_Z (MaxDelay rc)) then inject_Z (MaxDelay rc)
    else delay in
  Handlers.int_of_float delay.

(** What surrounds a call of [Retry]: [done k] is what the [k]-th look
    at [ctx.Done()] finds, the error of the context if it is done;
    [random attempt] is the number drawn for the delay after that
    attempt. *)
Record surroundings : Type := {
  done   : nat -> option string;
  random : Z -> Q
}.

(** What a call of [Retry] leaves: the world, the delays it slept, and
    the error it returns. *)
Record outcome (W : Type) : Type := {
  world    : W;
  slept    : list Z;
  returned : option string
}.

Arguments world {W} o.
Arguments slept {W} o.
Arguments returned {W} o.

(** The loop of [Retry], with at most [rounds] rounds left to go;
    [looks] counts the looks at the context so far. *)
Fixpoint retry_loop {W : Type} (config : RetryConfig) (env : surroundings)
    (fn : action W) (rounds : nat) (attempt : Z) (looks : nat)
    (w : W) (naps : list Z) (lastErr : option string) : outcome W :=
  match rounds with
  | O => {| world := w; slept := naps; returned := lastErr |}
  | S rounds =>
      if attempt <? MaxAttempts config then
        match done env looks with
        | Some ctxErr =>
            {| world := w; slept := naps; returned := Some ctxErr |}
        | None =>
            let '(w, err) := fn w in
            match err with
            | None => {| world := w; slept := naps; returned := None |}
            | Some e =>
                let lastErr := Some e in
                if attempt =? MaxAttempts config - 1 then
                  {| world := w; slept := naps; returned := lastErr |}
                else
                  let delay :=
                    calculateDelay config attempt (random env attempt) in
                  match done env (S looks) with
                  | Some ctxErr =>
                      {| world := w; slept := naps;
                         returned := Some ctxErr |}
                  | None =>
                      retry_loop config env fn rounds
                        (wrap64 (attempt + 1)) (S (S looks))
                        w (naps ++ [delay]) lastErr
                  end
            end
        end
      else {| world := w; slept := naps; returned := lastErr |}
  end.

Definition Retry {W : Type} (config : RetryConfig) (env : surroundings)
    (fn : action W) (w : W) : outcome W :=
  retry_loop config env fn (Z.to_nat (MaxAttempts config)) 0 O w [] None.

(** A function that returns a result next to the error. *)
Definition producer (W T : Type) : Type := W -> W * (T * option string).

Record produced (W T : Type) : Type := {
  final   : outcome W;
  value   : T
}.

Arguments final {W T} p.
Arguments value {W T} p.

(** The loop of [RetryWithResult]; [zero] is the zero value of [T]. *)
Fixpoint retry_result_loop {W T : Type} (zero : T) (config : RetryConfig)
    (env : surroundings) (fn : producer W T) (rounds : nat) (attempt : Z)
    (looks : nat) (w : W) (naps : list Z) (lastErr : option string)
    : produced W T :=
  let leave w err v :=
    {| final := {| world := w; slept := naps; returned := err |};
       value := v |} in
  match rounds with
  | O => leave w lastErr zero
  | S rounds =>
      if attempt <? MaxAttempts config then
        match done env looks with
        | Some ctxErr => leave w (Some ctxErr) zero
        | None =>
            let '(w, (result, err)) := fn w in
            match err with
            | None => leave w None result
            | Some e =>
                let lastErr := Some e in
                if attempt =? MaxAttempts config - 1 then
                  leave w lastErr zero
                else
                  let delay :=
                    calculateDelay config attempt (random env attempt) in
                  match done env (S looks) with
                  | Some ctxErr => leave w (Some ctxErr) zero
                  | None =>
                      retry_result_loop zero config env fn rounds
                        (wrap64 (attempt + 1)) (S (S looks))
                        w (naps ++ [delay]) lastErr
                  end
            end
        end
      else leave w lastErr zero
  end.

Definition RetryWithResult {W T : Type} (zero : T) (config : RetryConfig)
    (env : surroundings) (fn : producer W T) (w : W) : produced W T :=
  retry_result_loop zero config env fn (Z.to_nat (MaxAttempts config))
    0 O w [] None.

(** A function whose [k]-th call returns [outcomes k]; the world counts
    the calls. *)
Definition scripted (outcomes : nat -> option string) : action nat :=
  fun calls => (S calls, outcomes calls).

(** A context that is never done. *)
Definition background (random : Z -> Q) : surroundings :=
  {| done := fun _ => None; random := random |}.

(** The first of the calls [from], [from + 1], ..., [from + n - 1] that
    succeeds. *)
Fixpoint first_success (outcomes : nat -> option string) (from n : nat)
    : option nat :=
  match n with
  | O => None
  | S n =>
      match outcomes from with
      | None => Some from
      | Some _ => first_success outcomes (S from) n
      end
  end.

(** The function [fn] with its result dropped. *)
Definition forget {W T : Type} (fn : producer W T) : action W :=
  fun w => let '(w, (_, err)) := fn w in (w, err).

(** A producer whose [k]-th call returns [values k] and [outcomes k]. *)
Definition scripted_producer {T : Type} (values : nat -> T)
    (outcomes : nat -> option string) : producer nat T :=
  fun calls => (S calls, (values calls, outcomes calls)).

(** The outcome of a call that ran nothing and returns [err]. *)
Definition untouched {W : Type} (w : W) (err : option string) : outcome W :=
  {| world := w; slept := []; returned := err |}.

End Retry.

(* ================================================================== *)
(** ** [float64] bit for bit *)
(* ================================================================== *)

(** IEEE-754 binary64 as the library specifies it: 53 bits of precision,
    every operation rounded to the nearest value with ties to even, and
    signed zeros, infinities and NaN as values.  This is the arithmetic
    of the compiled program (each operation rounded on its own, as the
    Go compiler emits it for amd64). *)
Module Binary64.

Definition float64 : Type := spec_float.

Definition prec : Z := 53.
Definition emax : Z := 1024.

Definition add : float64 -> float64 -> float64 := SFadd prec emax.
Definition sub : float64 -> float64 -> float64 := SFsub prec emax.
Definition mul : float64 -> float64 -> float64 := SFmul prec emax.
Definition div : float64 -> float64 -> float64 := SFdiv prec emax.

(** [x < y], [x > y] and [x == y]: false when either side is NaN. *)
Definition ltb (x y : float64) : bool := SFltb x y.
Definition gtb (x y : float64) : bool := SFltb y x.
Definition eqb (x y : float64) : bool := SFeqb x y.

(** [float64(n)] for an [int]. *)
Definition of_int (n : Z) : float64 := binary_normalize prec emax n 0 false.

(** The value of a decimal constant of the source: the [float64] nearest
    to it. *)
Definition nearest (q : Q) : float64 :=
  match Qnum q with
  | Z0 => S754_zero false
  | Zpos n =>
      let '(m, e, l) :=
        SFdiv_core_binary prec emax (Zpos n) 0 (Zpos (Qden q)) 0 in
      binary_round_aux prec emax false m e l
  | Zneg n =>
      let '(m, e, l) :=
        SFdiv_core_binary prec emax (Zpos n) 0 (Zpos (Qden q)) 0 in
      binary_round_aux prec emax true m e l
  end.

Definition zero : float64 := S754_zero false.

Definition is_nan (x : float64) : bool :=
  match x with S754_nan => true | _ => false end.

Definition is_zero (x : float64) : bool :=
  match x with S754_zero _ => true | _ => false end.

(** Neither NaN nor an infinity. *)
Definition is_finite (x : float64) : bool :=
  match x with
  | S754_zero _ | S754_finite _ _ _ => true
  | S754_infinity _ | S754_nan => false
  end.

(** [math.IsInf(x, 1)] and [math.IsInf(x, -1)]. *)
Definition is_pos_inf (x : float64) : bool :=
  match x with S754_infinity false => true | _ => false end.
Definition is_neg_inf (x : float64) : bool :=
  match x with S754_infinity true => true | _ => false end.

(** [math.Signbit]. *)
Definition Signbit (x : float64) : bool :=
  match x with
  | S754_zero s | S754_infinity s | S754_finite s _ _ => s
  | S754_nan => false
  end.

(** [math.Min] and [math.Max], with the special cases of the library
    in the order it tests them. *)
Definition math_Min (x y : float64) : float64 :=
  if is_neg_inf x || is_neg_inf y then S754_infinity true
  else if is_nan x || is_nan y then S754_nan
  else if eqb x zero && eqb x y then (if Signbit x then x else y)
  else if ltb x y then x
  else y.

Definition math_Max (x y : float64) : float64 :=
  if is_pos_inf x || is_pos_inf y then S754_infinity false
  else if is_nan x || is_nan y then S754_nan
  else if eqb x zero && eqb x y then (if Signbit x then y else x)
  else if gtb x y then x
  else y.

(** The rational number a finite [float64] stands for. *)
Definition exact (x : float64) : option Q :=
  match x with
  | S754_zero _ => Some 0
  | S754_finite s m e =>
      let v := inject_Z (Zpos m) * (2 # 1) ^ e in
      Some (if s then - v else v)
  | S754_infinity _ | S754_nan => None
  end.

(** [x] is a [float64] in normal form that stands for a rational at
    most half a unit in its last place away from [q]. *)
Definition close_to (q : Q) (x : float64) : bool :=
  valid_binary prec emax x
  && match x, exact x with
     | S754_finite _ _ e, Some v =>
         Qle_bool (Qabs (v - q)) ((2 # 1) ^ e / 2)
     | _, _ => false
     end.

(** [x] is finite and stands for the rational [q]. *)
Definition has_value (x : float64) (q : Q) : Prop :=
  match exact x with
  | Some v => v == q
  | None => False
  end.

End Binary64.

(* ================================================================== *)
(** ** [analyzer] in binary64: the CPU recommendation *)
(* ================================================================== *)

Module Analyzer64.

Import Binary64.
Open Scope string_scope.

Record RightsizingAnalyzer : Type := {
  wasteThreshold  : float64;
  analysisWindow  : Z;
  minDataPoints   : Z;
  confidenceLevel : float64
}.

Record Recommendation : Type := {
  Namespace          : string;
  PodName            : string;
  ContainerName      : string;
  ResourceType       : string;
  CurrentRequest     : float64;
  CurrentLimit       : float64;
  RecommendedRequest : float64;
  RecommendedLimit   : float64;
  P50Usage           : float64;
  P95Usage           : float64;
  P99Usage           : float64;
  MaxUsage           : float64;
  PotentialSavings   : float64;
  Confidence         : float64;
  Reasoning          : string;
  RiskLevel          : string;
  LastUpdated        : Z
}.

Definition NewRightsizingAnalyzer : RightsizingAnalyzer := {|
  wasteThreshold  := nearest 0.30;
  analysisWindow  := 7 * 24 * Analyzer.Hour;
  minDataPoints   := 100;
  confidenceLevel := nearest 0.7
|}.

Definition calculateConfidence (dataPoints : Z) (cv : float64) : float64 :=
  let baseConfidence :=
    math_Min (div (of_int dataPoints) (nearest 1000.0)) (nearest 1.0) in
  let variabilityFactor := sub (nearest 1.0) (mul cv (nearest 0.5)) in
  let variabilityFactor :=
    if ltb variabilityFactor (nearest 0.3) then nearest 0.3
    else variabilityFactor in
  let confidence := mul baseConfidence variabilityFactor in
  let confidence :=
    if ltb confidence (nearest 0.1) then nearest 0.1 else confidence in
  let confidence :=
    if gtb confidence (nearest 0.95) then nearest 0.95 else confidence in
  confidence.

(** [cv := stddev / avg; if avg == 0 { cv = 0 }]. *)
Definition coefficient_of_variation (stddev avg : float64) : float64 :=
  let cv := div stddev avg in
  if eqb avg zero then zero else cv.

(** [waste := (currentRequest - p95) / currentRequest]. *)
Definition waste (currentRequest p95 : float64) : float64 :=
  div (sub currentRequest p95) currentRequest.

Definition cpu_tier (cv p99 max : float64) : float64 * string * string :=
  if ltb cv (nearest 0.3) then
    (mul p99 (nearest 1.2),
     "Low variability workload, using P99 + 20% for limit", "LOW")
  else if ltb cv (nearest 0.6) then
    (math_Max (mul p99 (nearest 1.5)) max,
     "Medium variability workload, using max(P99*1.5, max) for limit",
     "MEDIUM")
  else
    (mul max (nearest 1.3),
     "High variability workload, using max + 30% for limit", "HIGH").

Definition calculateCPURecommendation (ra : RightsizingAnalyzer)
    (currentRequest currentLimit p50 p95 p99 max avg stddev : float64)
    (dataPoints : Z) : option Recommendation :=
  let cv := coefficient_of_variation stddev avg in
  let confidence := calculateConfidence dataPoints cv in
  let safetyMargin := nearest 1.15 in
  let recommendedRequest := mul p95 safetyMargin in
  let '(recommendedLimit, reasoning, riskLevel) := cpu_tier cv p99 max in
  let waste := waste currentRequest p95 in
  if ltb waste (wasteThreshold ra) && gtb confidence (nearest 0.7) then None
  else
    let costPerMillicore := nearest 0.00001 in
    let hourlyCurrentCost := mul currentRequest costPerMillicore in
    let hourlyRecommendedCost := mul recommendedRequest costPerMillicore in
    let monthlySavings :=
      mul (mul (sub hourlyCurrentCost hourlyRecommendedCost) (nearest 24))
          (nearest 30) in
    let '(recommendedRequest, reasoning) :=
      if ltb recommendedRequest (nearest 10) then
        (nearest 10, reasoning ++ " (adjusted to minimum 10m CPU)")
      else (recommendedRequest, reasoning) in
    let '(recommendedLimit, reasoning) :=
      if ltb recommendedLimit (mul recommendedRequest (nearest 1.5)) then
        (mul recommendedRequest (nearest 1.5),
         reasoning ++ " (adjusted limit to 1.5x request)")
      else (recommendedLimit, reasoning) in
    Some {|
      Namespace          := "";
      PodName            := "";
      ContainerName      := "";
      ResourceType       := "CPU";
      CurrentRequest     := currentRequest;
      CurrentLimit       := currentLimit;
      RecommendedRequest := recommendedRequest;
      RecommendedLimit   := recommendedLimit;
      P50Usage           := p50;
      P95Usage           := p95;
      P99Usage           := p99;
      MaxUsage           := max;
      PotentialSavings   := monthlySavings;
      Confidence         := confidence;
      Reasoning          := reasoning;
      RiskLevel          := riskLevel;
      LastUpdated        := 0%Z
    |}.

End Analyzer64.

(* ================================================================== *)
(** ** [api] in binary64: the cost simulation *)
(* ================================================================== *)

Module Api64.

Import Binary64.
Open Scope string_scope.

Record Change : Type := {
  PodName       : string;
  ContainerName : string;
  CPURequest    : float64;
  CPULimit      : float64;
  MemoryRequest : float64;
  MemoryLimit   : float64;
  Replicas      : Z
}.

Record SimulateRequest : Type := {
  Namespace : string;
  Changes   : list Change;
  Period    : string
}.

Record AllocationRow : Type := {
  cpu_request    : float64;
  cpu_limit      : float64;
  memory_request : float64;
  memory_limit   : float64
}.

(** The two queries of the handler; [None] is a failed query or scan
    (an empty sum is NULL, which does not scan into a [float64]). *)
Record Database : Type := {
  namespace_cost    : string -> option float64;
  latest_allocation : string -> string -> string -> option AllocationRow
}.

(** A [map[string]float64]; indexing with an absent key gives [0]. *)
Definition float_map : Type := list (string * float64).

Fixpoint index (m : float_map) (key : string) : float64 :=
  match m with
  | [] => zero
  | (k, v) :: rest => if String.eqb k key then v else index rest key
  end.

Definition getCurrentCosts (db : Database) (namespace : string) : float64 :=
  match namespace_cost db namespace with
  | None => zero
  | Some totalCost => totalCost
  end.

Definition getCurrentAllocation (db : Database)
    (namespace podName containerName : string) : float_map :=
  match latest_allocation db namespace podName containerName with
  | None =>
      [("cpu_request", zero); ("cpu_limit", zero);
       ("memory_request", zero); ("memory_limit", zero)]
  | Some row =>
      [("cpu_request", cpu_request row); ("cpu_limit", cpu_limit row);
       ("memory_request", memory_request row);
       ("memory_limit", memory_limit row)]
  end.

Record Breakdown : Type := {
  compute : float64;
  storage : float64;
  network : float64;
  other   : float64
}.

(** The map the handler hands to the JSON encoder. *)
Record SimulateResponse : Type := {
  current_cost    : float64;
  projected_cost  : float64;
  cost_difference : float64;
  savings         : float64;
  savings_percent : float64;
  breakdown       : Breakdown
}.

(** One round of the loop over [request.Changes]. *)
Definition change_delta (db : Database) (namespace : string)
    (change : Change) : float64 :=
  let current :=
    getCurrentAllocation db namespace (PodName change) (ContainerName change) in
  let cpuDelta :=
    mul (mul (sub (CPURequest change) (index current "cpu_request"))
             (nearest 0.00001))
        (of_int (Replicas change)) in
  let memoryDelta :=
    mul (mul (sub (MemoryRequest change) (index current "memory_request"))
             (nearest 0.00000001))
        (of_int (Replicas change)) in
  add cpuDelta memoryDelta.

Definition period_multiplier (period : string) : float64 :=
  if String.eqb period "daily" then nearest 24
  else if String.eqb period "monthly" then nearest (24 * 30)
  else if String.eqb period "yearly" then nearest (24 * 365)
  else nearest (24 * 30).

(** [SimulateCosts] from the decoded request to the response map. *)
Definition SimulateCosts (db : Database) (request : SimulateRequest)
    : SimulateResponse :=
  let currentCosts := getCurrentCosts db (Namespace request) in
  let costDelta :=
    fold_left
      (fun costDelta change =>
         add costDelta (change_delta db (Namespace request) change))
      (Changes request) (nearest 0.0) in
  let multiplier := period_multiplier (Period request) in
  let projectedCost := mul (add currentCosts costDelta) multiplier in
  let savings := sub (mul currentCosts multiplier) projectedCost in
  {|
    current_cost    := mul currentCosts multiplier;
    projected_cost  := projectedCost;
    cost_difference := mul costDelta multiplier;
    savings         := savings;
    savings_percent :=
      mul (div savings (mul currentCosts multiplier)) (nearest 100);
    breakdown := {|
      compute := mul projectedCost (nearest 0.6);
      storage := mul projectedCost (nearest 0.2);
      network := mul projectedCost (nearest 0.15);
      other   := mul projectedCost (nearest 0.05)
    |}
  |}.

(** [json.NewEncoder(w).Encode(response)]: the encoder refuses a number
    that is NaN or infinite, and then nothing is written ([None]; the
    handler ignores the error). *)
Definition encodable (r : SimulateResponse) : bool :=
  forallb is_finite
    [ current_cost r; projected_cost r; cost_difference r; savings r;
      savings_percent r;
      compute (breakdown r); storage (breakdown r);
      network (breakdown r); other (breakdown r) ].

Definition Encode (r : SimulateResponse) : option SimulateResponse :=
  if encodable r then Some r else None.

(** The quantities of the design document. *)

(** [delta] of one change, with the current allocation of its workload. *)
Definition spec_delta (proposed : Change) (current : AllocationRow)
    : float64 :=
  add (mul (mul (sub (CPURequest proposed) (cpu_request current))
                (nearest 0.00001))
           (of_int (Replicas proposed)))
      (mul (mul (sub (MemoryRequest proposed) (memory_request current))
                (nearest 0.00000001))
           (of_int (Replicas proposed))).

(** The allocation a change is compared with: the latest row, or all
    zeros when there is none. *)
Definition current_of (db : Database) (namespace : string)
    (change : Change) : AllocationRow :=
  match latest_allocation db namespace (PodName change)
          (ContainerName change) with
  | Some row => row
  | None => {| cpu_request := zero; cpu_limit := zero;
               memory_request := zero; memory_limit := zero |}
  end.

(** The deltas of the changes, added up from zero in the order of the
    request. *)
Definition spec_sum_delta (db : Database) (namespace : string)
    (changes : list Change) : float64 :=
  fold_left add
    (map (fun change => spec_delta change (current_of db namespace change))
         changes)
    zero.

(** A namespace that costs 10 an hour, every container of which requests
    1000 millicores and 1 GiB; the request halves the CPU request of one
    container and asks for the monthly figures. *)
Definition example_db : Database := {|
  namespace_cost := fun _ => Some (nearest 10);
  latest_allocation := fun _ _ _ =>
    Some {| cpu_request := nearest 1000; cpu_limit := nearest 2000;
            memory_request := nearest 1073741824;
            memory_limit := nearest 2147483648 |}
|}.

Definition example_request : SimulateRequest := {|
  Namespace := "shop";
  Changes :=
    [ {| PodName := "web"; ContainerName := "app";
         CPURequest := nearest 500; CPULimit := nearest 1000;
         MemoryRequest := nearest 1073741824;
         MemoryLimit := nearest 2147483648;
         Replicas := 1 |} ];
  Period := "monthly"
|}.

(** The same namespace without cost rows. *)
Definition example_db_without_costs : Database := {|
  namespace_cost    := fun _ => None;
  latest_allocation := latest_allocation example_db
|}.

(** A database without rows, and three changes of 10, 70 and -80
    millicores: added up exactly they cost nothing. *)
Definition empty_db : Database := {|
  namespace_cost    := fun _ => None;
  latest_allocation := fun _ _ _ => None
|}.

Definition millicores (container : string) (cpu : float64) : Change := {|
  PodName := "web"; ContainerName := container;
  CPURequest := cpu; CPULimit := zero;
  MemoryRequest := zero; MemoryLimit := zero;
  Replicas := 1
|}.

Definition cancelling_request : SimulateRequest := {|
  Namespace := "shop";
  Changes :=
    [ millicores "a" (nearest 10); millicores "b" (nearest 70);
      millicores "c" (nearest (-80)) ];
  Period := "monthly"
|}.

End Api64.

(* ================================================================== *)
(** ** [analyzer]: the recommender with every quotient checked *)
(* ================================================================== *)

(** Go evaluates a [float64] division by zero to an infinity or NaN and
    goes on.  Below are [calculateConfidence] and the two recommendation
    functions once more, line by line, with one difference: a quotient
    counts as a number only if its divisor was not zero.  A quotient that
    is no number may be overwritten, as [cv] is for a mean of zero; as
    soon as it is computed or compared with, the function ends without an
    answer ([None]).  An answer [Some None] is the [nil] of the source,
    [Some (Some r)] a recommendation. *)
Module Checked.

Import Analyzer.
Open Scope string_scope.

(** The number a quotient holds, if any. *)
Definition number (x : quotient) : option Q :=
  match x with
  | Finite q => Some q
  | PosInf | NegInf | NaN => None
  end.

Definition bind {A B : Type} (x : option A) (f : A -> option B) : option B :=
  match x with
  | Some a => f a
  | None => None
  end.

Notation "x <- e ;; k" := (bind e (fun x => k))
  (at level 61, e at next level, right associativity).

Definition calculateConfidence (dataPoints : Z) (cv : Q) : option Q :=
  ratio <- number (fdiv (inject_Z dataPoints) 1000.0) ;;
  let baseConfidence := math_Min ratio 1.0 in
  let variabilityFactor := 1.0 - (cv * 0.5) in
  let variabilityFactor :=
    if ltb variabilityFactor 0.3 then 0.3 else variabilityFactor in
  let confidence := baseConfidence * variabilityFactor in
  let confidence := if ltb confidence 0.1 then 0.1 else confidence in
  let confidence := if gtb confidence 0.95 then 0.95 else confidence in
  Some confidence.

Definition calculateCPURecommendation (ra : RightsizingAnalyzer)
    (currentRequest currentLimit p50 p95 p99 max avg stddev : Q)
    (dataPoints : Z) : option (option Recommendation) :=
  let cv := fdiv stddev avg in
  let cv := if Qeq_bool avg 0 then Finite 0 else cv in
  cv <- number cv ;;
  confidence <- calculateConfidence dataPoints cv ;;
  let safetyMargin := 1.15 in
  let recommendedRequest := p95 * safetyMargin in
  let '(recommendedLimit, reasoning, riskLevel) := cpu_tier cv p99 max in
  waste <- number (fdiv (currentRequest - p95) currentRequest) ;;
  if ltb waste (wasteThreshold ra) && gtb confidence 0.7 then Some None
  else
    let costPerMillicore := 0.00001 in
    let hourlyCurrentCost := currentRequest * costPerMillicore in
    let hourlyRecommendedCost := recommendedRequest * costPerMillicore in
    let monthlySavings :=
      (hourlyCurrentCost - hourlyRecommendedCost) * 24 * 30 in
    let '(recommendedRequest, reasoning) :=
      if ltb recommendedRequest 10 then
        (10, reasoning ++ " (adjusted to minimum 10m CPU)")
      else (recommendedRequest, reasoning) in
    let '(recommendedLimit, reasoning) :=
      if ltb recommendedLimit (recommendedRequest * 1.5) then
        (recommendedRequest * 1.5,
         reasoning ++ " (adjusted limit to 1.5x request)")
      else (recommendedLimit, reasoning) in
    Some (Some {|
      Namespace          := "";
      PodName            := "";
      ContainerName      := "";
      ResourceType       := "CPU";
      CurrentRequest     := currentRequest;
      CurrentLimit       := currentLimit;
      RecommendedRequest := recommendedRequest;
      RecommendedLimit   := recommendedLimit;
      P50Usage           := p50;
      P95Usage           := p95;
      P99Usage           := p99;
      MaxUsage           := max;
      PotentialSavings   := monthlySavings;
      Confidence         := confidence;
      Reasoning          := reasoning;
      RiskLevel          := riskLevel;
      LastUpdated        := 0%Z
    |}).

Definition calculateMemoryRecommendation (ra : RightsizingAnalyzer)
    (currentRequest currentLimit p50 p95 p99 max avg stddev : Q)
    (dataPoints : Z) : option (option Recommendation) :=
  let cv := fdiv stddev avg in
  let cv := if Qeq_bool avg 0 then Finite 0 else cv in
  cv <- number cv ;;
  confidence <- calculateConfidence dataPoints cv ;;
  let oomBuffer := 1.2 in
  let recommendedRequest := p95 * 1.1 in
  let recommendedLimit := max * oomBuffer in
  requestMiB <- number (fdiv recommendedRequest 1048576) ;;
  let recommendedRequest := math_Ceil requestMiB * 1048576 in
  limitMiB <- number (fdiv recommendedLimit 1048576) ;;
  let recommendedLimit := math_Ceil limitMiB * 1048576 in
  waste <- number (fdiv (currentRequest - p95) currentRequest) ;;
  if ltb waste (wasteThreshold ra) && gtb confidence 0.7 then Some None
  else
    let costPerByte := 0.00000001 in
    let hourlyCurrentCost := currentRequest * costPerByte in
    let hourlyRecommendedCost := recommendedRequest * costPerByte in
    let monthlySavings :=
      (hourlyCurrentCost - hourlyRecommendedCost) * 24 * 30 in
    let riskLevel := memory_risk cv in
    let recommendedRequest :=
      if ltb recommendedRequest (64 * 1024 * 1024) then 64 * 1024 * 1024
      else recommendedRequest in
    let recommendedLimit :=
      if ltb recommendedLimit (recommendedRequest * 1.5) then
        recommendedRequest * 1.5
      else recommendedLimit in
    Some (Some {|
      Namespace          := "";
      PodName            := "";
      ContainerName      := "";
      ResourceType       := "Memory";
      CurrentRequest     := currentRequest;
      CurrentLimit       := currentLimit;
      RecommendedRequest := recommendedRequest;
      RecommendedLimit   := recommendedLimit;
      P50Usage           := p50;
      P95Usage           := p95;
      P99Usage           := p99;
      MaxUsage           := max;
      PotentialSavings   := monthlySavings;
      Confidence         := confidence;
      Reasoning          := "Memory recommendation with OOM prevention buffer";
      RiskLevel          := riskLevel;
      LastUpdated        := 0%Z
    |}).

End Checked.

(* ================================================================== *)
(** ** Facts about the idealised floats *)
(* ================================================================== *)

Section Float64Facts.

Local Open Scope Q_scope.

Lemma ltb_lt (x y : Q) : ltb x y = true <-> x < y.
Proof.
  unfold ltb. rewrite negb_true_iff.
  split; intro H.
  - apply Qnot_le_lt. intro Hle. apply Qle_bool_iff in Hle. congruence.
  - destruct (Qle_bool y x) eqn:E; [|reflexivity].
    apply Qle_bool_iff in E. exfalso. apply (Qlt_not_le _ _ H E).
Qed.

Lemma ltb_ge (x y : Q) : ltb x y = false <-> y <= x.
Proof.
  unfold ltb. rewrite negb_false_iff. apply Qle_bool_iff.
Qed.

Lemma gtb_gt (x y : Q) : gtb x y = true <-> y < x.
Proof. apply ltb_lt. Qed.

Lemma gtb_le (x y : Q) : gtb x y = false <-> x <= y.
Proof. apply ltb_ge. Qed.

Lemma math_Min_Qmin (x y : Q) : math_Min x y == Qmin x y.
Proof.
  unfold math_Min. destruct (ltb x y) eqn:E.
  - apply ltb_lt in E. symmetry. apply Q.min_l. lra.
  - apply ltb_ge in E. symmetry. apply Q.min_r. exact E.
Qed.

Lemma math_Max_Qmax (x y : Q) : math_Max x y == Qmax x y.
Proof.
  unfold math_Max. destruct (gtb x y) eqn:E.
  - apply gtb_gt in E. symmetry. apply Q.max_l. lra.
  - apply gtb_le in E. symmetry. apply Q.max_r. exact E.
Qed.

Lemma math_Ceil_ge (x : Q) : x <= math_Ceil x.
Proof. apply Qle_ceiling. Qed.

Lemma fdiv_nonzero (a b : Q) : ~ b == 0 -> fdiv a b = Finite (a / b).
Proof.
  intro H. unfold fdiv. destruct (Qeq_bool b 0) eqn:E; [|reflexivity].
  apply Qeq_bool_iff in E. contradiction.
Qed.

Lemma fdiv_zero (a b : Q) : b == 0 -> is_finite (fdiv a b) = false.
Proof.
  intro H. unfold fdiv. apply Qeq_bool_iff in H. rewrite H.
  destruct (a ?= 0); reflexivity.
Qed.

(** The [if x < c { x = c }] idiom is a maximum, [if x > c { x = c }] a
    minimum. *)
Lemma raise_to_Qmax (x c : Q) : (if ltb x c then c else x) == Qmax x c.
Proof.
  destruct (ltb x c) eqn:E.
  - apply ltb_lt in E. symmetry. apply Q.max_r. lra.
  - apply ltb_ge in E. symmetry. apply Q.max_l. exact E.
Qed.

Lemma lower_to_Qmin (x c : Q) : (if gtb x c then c else x) == Qmin x c.
Proof.
  destruct (gtb x c) eqn:E.
  - apply gtb_gt in E. symmetry. apply Q.min_r. lra.
  - apply gtb_le in E. symmetry. apply Q.min_l. exact E.
Qed.

Lemma raise_ge (x c : Q) :
  c <= (if ltb x c then c else x) /\ x <= (if ltb x c then c else x).
Proof.
  destruct (ltb x c) eqn:E.
  - apply ltb_lt in E. lra.
  - apply ltb_ge in E. lra.
Qed.

(** Rounding up to a multiple of a positive unit does not go below the
    value rounded. *)
Lemma ceil_unit_ge (x u : Q) : 0 < u -> x <= math_Ceil (x / u) * u.
Proof.
  intro Hu.
  assert (Hx : x == x / u * u) by (field; lra).
  rewrite Hx at 1.
  apply Qmult_le_compat_r; [apply math_Ceil_ge | lra].
Qed.

End Float64Facts.

(* ================================================================== *)
(** ** The rightsizing recommender *)
(* ================================================================== *)

Section AnalyzerFacts.

Import Analyzer.
Local Open Scope Q_scope.
Local Open Scope string_scope.

(** Splits the conditionals of a recommendation function, keeping the
    comparison each branch was taken under. *)
Ltac split_branches :=
  repeat match goal with
  | |- context [if ?b then _ else _] =>
      let E := fresh "E" in destruct b eqn:E
  | |- context [let '(_, _) := ?p in _] => destruct p
  end.

Lemma suppressed_iff (ra : RightsizingAnalyzer) (cur p95 conf : Q) :
  suppressed ra cur p95 conf = true <->
  quotient_ltb (waste cur p95) (wasteThreshold ra) = true /\ 0.7 < conf.
Proof.
  unfold suppressed. rewrite andb_true_iff, gtb_gt. reflexivity.
Qed.

Lemma cpu_none_iff ra cur lim p50 p95 p99 max avg stddev n :
  calculateCPURecommendation ra cur lim p50 p95 p99 max avg stddev n = None
  <-> suppressed ra cur p95
        (calculateConfidence n (coefficient_of_variation stddev avg)) = true.
Proof.
  unfold calculateCPURecommendation.
  destruct (cpu_tier _ p99 max) as [[limit reasoning] risk].
  destruct (suppressed _ _ _ _).
  - split; reflexivity.
  - split; [|discriminate].
    split_branches; discriminate.
Qed.

Lemma memory_none_iff ra cur lim p50 p95 p99 max avg stddev n :
  calculateMemoryRecommendation ra cur lim p50 p95 p99 max avg stddev n = None
  <-> suppressed ra cur p95
        (calculateConfidence n (coefficient_of_variation stddev avg)) = true.
Proof.
  unfold calculateMemoryRecommendation.
  destruct (suppressed _ _ _ _).
  - split; reflexivity.
  - split; discriminate.
Qed.

Lemma waste_finite (cur p95 : Q) :
  ~ cur == 0 -> waste cur p95 = Finite ((cur - p95) / cur).
Proof. apply fdiv_nonzero. Qed.

(** C1.  Either recommendation function returns nothing exactly when the
    waste is below the analyzer's threshold and the confidence is above
    0.7; for a current request other than zero the waste is the number
    [(currentRequest - p95) / currentRequest].  The threshold of a new
    analyzer is 0.30.  With [currentRequest = 1000], [p95 = 800] (waste
    0.20) and a confidence of 0.5, both functions emit a recommendation,
    whatever the other statistics are. *)
Theorem waste_gate_conjunctive :
  (forall ra cur lim p50 p95 p99 max avg stddev n,
      let confidence :=
        calculateConfidence n (coefficient_of_variation stddev avg) in
      let low_waste :=
        quotient_ltb (waste cur p95) (wasteThreshold ra) = true in
      (calculateCPURecommendation ra cur lim p50 p95 p99 max avg stddev n
         = None <-> low_waste /\ 0.7 < confidence)
      /\ (calculateMemoryRecommendation ra cur lim p50 p95 p99 max avg
            stddev n = None <-> low_waste /\ 0.7 < confidence)
      /\ (~ cur == 0 ->
          (low_waste <-> (cur - p95) / cur < wasteThreshold ra)))
  /\ wasteThreshold NewRightsizingAnalyzer == 0.30
  /\ (forall lim p50 p99 max avg stddev n,
      calculateConfidence n (coefficient_of_variation stddev avg) == 0.5 ->
      waste 1000 800 = Finite ((1000 - 800) / 1000)
      /\ (1000 - 800) / 1000 == 0.20
      /\ (exists r,
           calculateCPURecommendation NewRightsizingAnalyzer
             1000 lim p50 800 p99 max avg stddev n = Some r)
      /\ (exists r,
           calculateMemoryRecommendation NewRightsizingAnalyzer
             1000 lim p50 800 p99 max avg stddev n = Some r)).
Proof.
  split; [|split].
  - intros ra cur lim p50 p95 p99 max avg stddev n confidence low_waste.
    split; [|split].
    + rewrite cpu_none_iff. apply suppressed_iff.
    + rewrite memory_none_iff. apply suppressed_iff.
    + intro Hcur. unfold low_waste. rewrite (waste_finite _ _ Hcur).
      simpl. apply ltb_lt.
  - reflexivity.
  - intros lim p50 p99 max avg stddev n Hconf.
    assert (Hnot : suppressed NewRightsizingAnalyzer 1000 800
              (calculateConfidence n (coefficient_of_variation stddev avg))
            <> true).
    { rewrite suppressed_iff. intros [_ H]. rewrite Hconf in H.
      revert H. apply Qle_not_lt. discriminate. }
    split; [reflexivity|]. split; [reflexivity|]. split.
    + destruct (calculateCPURecommendation NewRightsizingAnalyzer
                  1000 lim p50 800 p99 max avg stddev n) as [r|] eqn:E.
      * exists r. reflexivity.
      * apply cpu_none_iff in E. contradiction.
    + destruct (calculateMemoryRecommendation NewRightsizingAnalyzer
                  1000 lim p50 800 p99 max avg stddev n) as [r|] eqn:E.
      * exists r. reflexivity.
      * apply memory_none_iff in E. contradiction.
Qed.

(** The gate at the inputs of scenario B, with 500 samples of a constant
    usage: the confidence is 0.5 and a recommendation comes out. *)
Lemma waste_gate_conjunctive_witness :
  (calculateCPURecommendation NewRightsizingAnalyzer
     1000 2000 700 800 900 950 750 0 500 = None
   <-> quotient_ltb (waste 1000 800) (wasteThreshold NewRightsizingAnalyzer)
       = true
       /\ 0.7 < calculateConfidence 500 (coefficient_of_variation 0 750))
  /\ (quotient_ltb (waste 1000 800) (wasteThreshold NewRightsizingAnalyzer)
      = true <-> (1000 - 800) / 1000 < wasteThreshold NewRightsizingAnalyzer)
  /\ exists r,
      calculateCPURecommendation NewRightsizingAnalyzer
        1000 2000 700 800 900 950 750 0 500 = Some r.
Proof.
  destruct waste_gate_conjunctive as [Hiff [_ Hb]].
  destruct (Hiff NewRightsizingAnalyzer 1000 2000 700 800 900 950 750 0
              500%Z) as [Hcpu [_ Hfin]].
  split; [exact Hcpu|]. split.
  - apply Hfin. discriminate.
  - apply (Hb 2000 700 900 950 750 0 500%Z). reflexivity.
Defined.

(** The confidence is the clamped product of the design document. *)
Lemma calculateConfidence_spec (n : Z) (cv : Q) :
  calculateConfidence n cv == confidence_spec n cv.
Proof.
  unfold calculateConfidence, confidence_spec, clamp.
  rewrite lower_to_Qmin, raise_to_Qmax, raise_to_Qmax, math_Min_Qmin.
  assert (Hbase : Qmin (inject_Z n / 1000.0) 1.0 == Qmin (inject_Z n / 1000) 1).
  { apply Q.min_compat; [field | reflexivity]. }
  assert (Hvar : Qmax (1.0 - cv * 0.5) 0.3 == Qmax (1 - cv * 0.5) 0.3).
  { apply Q.max_compat; [ring | reflexivity]. }
  rewrite Hbase, Hvar. reflexivity.
Qed.

Lemma calculateConfidence_bounds (n : Z) (cv : Q) :
  0.1 <= calculateConfidence n cv <= 0.95.
Proof.
  unfold calculateConfidence.
  set (c := math_Min _ _ * _).
  destruct (raise_ge c 0.1) as [Hlo _].
  destruct (gtb (if ltb c 0.1 then 0.1 else c) 0.95) eqn:E.
  - split; discriminate.
  - apply gtb_le in E. split; assumption.
Qed.

Lemma cpu_confidence ra cur lim p50 p95 p99 max avg stddev n r :
  calculateCPURecommendation ra cur lim p50 p95 p99 max avg stddev n = Some r
  -> Confidence r
     = calculateConfidence n (coefficient_of_variation stddev avg).
Proof.
  unfold calculateCPURecommendation.
  destruct (cpu_tier _ p99 max) as [[limit reasoning] risk].
  split_branches; intro H; inversion H; reflexivity.
Qed.

Lemma memory_confidence ra cur lim p50 p95 p99 max avg stddev n r :
  calculateMemoryRecommendation ra cur lim p50 p95 p99 max avg stddev n
  = Some r
  -> Confidence r
     = calculateConfidence n (coefficient_of_variation stddev avg).
Proof.
  unfold calculateMemoryRecommendation.
  destruct (suppressed _ _ _ _); intro H; inversion H; reflexivity.
Qed.

(** C3.  For every sample count and coefficient of variation (negative
    ones included) the confidence computed by [calculateConfidence] is
    [clamp (min (n/1000) 1 * max (1 - cv*0.5) 0.3) 0.1 0.95] and lies in
    [[0.1, 0.95]]; every recommendation either function emits carries
    that confidence, hence one in [[0.1, 0.95]]. *)
Theorem confidence_clamped :
  (forall (n : Z) (cv : Q),
      calculateConfidence n cv
      == clamp (Qmin (inject_Z n / 1000) 1 * Qmax (1 - cv * 0.5) 0.3)
               0.1 0.95
      /\ 0.1 <= calculateConfidence n cv <= 0.95)
  /\ (forall ra cur lim p50 p95 p99 max avg stddev n r,
      calculateCPURecommendation ra cur lim p50 p95 p99 max avg stddev n
        = Some r
      \/ calculateMemoryRecommendation ra cur lim p50 p95 p99 max avg
           stddev n = Some r ->
      Confidence r
        == confidence_spec n (coefficient_of_variation stddev avg)
      /\ 0.1 <= Confidence r <= 0.95).
Proof.
  split.
  - intros n cv. split.
    + apply calculateConfidence_spec.
    + apply calculateConfidence_bounds.
  - intros ra cur lim p50 p95 p99 max avg stddev n r [H | H].
    + rewrite (cpu_confidence _ _ _ _ _ _ _ _ _ _ _ H). split.
      * apply calculateConfidence_spec.
      * apply calculateConfidence_bounds.
    + rewrite (memory_confidence _ _ _ _ _ _ _ _ _ _ _ H). split.
      * apply calculateConfidence_spec.
      * apply calculateConfidence_bounds.
Qed.

(** The recommendation of the worked example has the confidence 0.4375,
    inside the interval. *)
Lemma confidence_clamped_witness :
  exists r,
    calculateCPURecommendation NewRightsizingAnalyzer
      400 800 100 180 220 250 120 30 500 = Some r
    /\ Confidence r == confidence_spec 500 (coefficient_of_variation 30 120)
    /\ 0.1 <= Confidence r <= 0.95.
Proof.
  eexists. split; [reflexivity|].
  apply (proj2 confidence_clamped NewRightsizingAnalyzer
           400 800 100 180 220 250 120 30 500%Z).
  left. reflexivity.
Defined.


Lemma mentions_suffix (s note : string) : mentions (s ++ note) note.
Proof.
  exists s, "". f_equal. clear s.
  induction note as [|c note IH]; simpl; [reflexivity | f_equal; exact IH].
Qed.

Lemma append_assoc (a b c : string) : (a ++ b) ++ c = a ++ (b ++ c).
Proof.
  induction a as [|x a IH]; simpl; [reflexivity | f_equal; exact IH].
Qed.

Lemma mentions_append (s note tail : string) :
  mentions s note -> mentions (s ++ tail) note.
Proof.
  intros [before [after H]]. exists before, (after ++ tail).
  rewrite H, !append_assoc. reflexivity.
Qed.

Lemma append_empty_r (s : string) : s ++ "" = s.
Proof.
  induction s as [|c s IH]; simpl; [reflexivity | f_equal; exact IH].
Qed.

(** Closes one conjunct of the floor theorem in one of its four cases. *)
Ltac cpu_floor_case :=
  first
    [ lra
    | intros _;
      first [ apply mentions_suffix
            | apply mentions_append, mentions_suffix ]
    | eexists;
      first [ reflexivity
            | rewrite append_assoc; reflexivity
            | symmetry; apply append_empty_r ] ].

(** C4.  Every CPU recommendation emitted has a request of at least 10
    and a limit of at least 1.5 times that request, for all statistics
    and allocations.  When the request was raised above [p95 * 1.15] the
    reasoning mentions the 10m minimum, and when the limit was raised
    above the limit of its variability tier the reasoning mentions the
    1.5x adjustment; in both cases the text of the tier comes first. *)
Theorem cpu_floors :
  forall ra cur lim p50 p95 p99 max avg stddev n r,
    calculateCPURecommendation ra cur lim p50 p95 p99 max avg stddev n
      = Some r ->
    let tier := cpu_tier (coefficient_of_variation stddev avg) p99 max in
    10 <= RecommendedRequest r
    /\ 1.5 * RecommendedRequest r <= RecommendedLimit r
    /\ p95 * 1.15 <= RecommendedRequest r
    /\ fst (fst tier) <= RecommendedLimit r
    /\ (p95 * 1.15 < RecommendedRequest r ->
        mentions (Reasoning r) " (adjusted to minimum 10m CPU)")
    /\ (fst (fst tier) < RecommendedLimit r ->
        mentions (Reasoning r) " (adjusted limit to 1.5x request)")
    /\ (exists notes, Reasoning r = snd (fst tier) ++ notes).
Proof.
  intros ra cur lim p50 p95 p99 max avg stddev n r.
  unfold calculateCPURecommendation.
  destruct (cpu_tier _ p99 max) as [[limit reasoning] risk].
  cbv zeta. simpl fst. simpl snd.
  destruct (suppressed _ _ _ _); [discriminate|].
  destruct (ltb (p95 * 1.15) 10) eqn:Ereq;
    [apply ltb_lt in Ereq | apply ltb_ge in Ereq];
    match goal with
    | |- context [ltb limit ?b] =>
        destruct (ltb limit b) eqn:Elim;
        [apply ltb_lt in Elim | apply ltb_ge in Elim]
    end;
    intro H; inversion H; simpl;
    repeat split; cpu_floor_case.
Qed.

(** A container using 4 millicores at p95: both floors raise a value and
    both are noted. *)
Lemma cpu_floors_witness :
  exists r,
    calculateCPURecommendation NewRightsizingAnalyzer
      100 200 2 4 5 6 3 1 500 = Some r
    /\ 10 <= RecommendedRequest r
    /\ 1.5 * RecommendedRequest r <= RecommendedLimit r
    /\ mentions (Reasoning r) " (adjusted to minimum 10m CPU)"
    /\ mentions (Reasoning r) " (adjusted limit to 1.5x request)".
Proof.
  eexists. split; [reflexivity|].
  destruct (cpu_floors NewRightsizingAnalyzer 100 200 2 4 5 6 3 1 500%Z
              _ eq_refl) as [H1 [H2 [_ [_ [H5 [H6 _]]]]]].
  split; [exact H1|]. split; [exact H2|]. split.
  - apply H5. reflexivity.
  - apply H6. reflexivity.
Defined.

(** C5.  Every memory recommendation emitted has a limit of at least 1.20
    times the highest usage observed, for all statistics: the limit
    starts at [max * 1.2], and neither the rounding up to whole MiB nor
    the floor of 1.5 times the request lowers it. *)
Theorem memory_limit_covers_peak :
  forall ra cur lim p50 p95 p99 max avg stddev n r,
    calculateMemoryRecommendation ra cur lim p50 p95 p99 max avg stddev n
      = Some r ->
    MaxUsage r = max
    /\ MaxUsage r * 1.20 <= RecommendedLimit r
    /\ max * 1.2 <= math_Ceil (max * 1.2 / 1048576) * 1048576
    /\ math_Ceil (max * 1.2 / 1048576) * 1048576 <= RecommendedLimit r.
Proof.
  intros ra cur lim p50 p95 p99 max avg stddev n r.
  unfold calculateMemoryRecommendation. cbv zeta.
  destruct (suppressed _ _ _ _); [discriminate|].
  intro H. inversion H; clear H. simpl.
  assert (Hceil : max * 1.2 <= math_Ceil (max * 1.2 / 1048576) * 1048576).
  { apply ceil_unit_ge. reflexivity. }
  match goal with
  | |- context [if ltb ?a ?b then ?b else ?a] =>
      destruct (raise_ge a b) as [_ Hraise]
  end.
  repeat split; try assumption.
  eapply Qle_trans; [|exact Hraise].
  eapply Qle_trans; [|exact Hceil]. lra.
Qed.

(** A container whose peak is 70 MiB. *)
Lemma memory_limit_covers_peak_witness :
  exists r,
    calculateMemoryRecommendation NewRightsizingAnalyzer
      268435456 536870912 50000000 65011712 70000000 73400320
      60000000 3000000 500 = Some r
    /\ 73400320 * 1.20 <= RecommendedLimit r.
Proof.
  eexists. split; [reflexivity|].
  destruct (memory_limit_covers_peak NewRightsizingAnalyzer
              268435456 536870912 50000000 65011712 70000000 73400320
              60000000 3000000 500%Z _ eq_refl) as [_ [H _]].
  exact H.
Defined.

(** *** Granularity of the memory recommendation *)

Lemma whole_MiB_ceil (x : Q) : whole_MiB (math_Ceil (x / 1048576) * 1048576).
Proof. exists (Qceiling (x / 1048576)). reflexivity. Qed.

(** The request of a memory recommendation is always a whole number of
    MiB: it is a rounded value or the minimum of 64 MiB. *)
Lemma memory_request_whole_MiB ra cur lim p50 p95 p99 max avg stddev n r :
  calculateMemoryRecommendation ra cur lim p50 p95 p99 max avg stddev n
    = Some r ->
  whole_MiB (RecommendedRequest r) /\ 64 * MiB <= RecommendedRequest r.
Proof.
  unfold calculateMemoryRecommendation. cbv zeta.
  destruct (suppressed _ _ _ _); [discriminate|].
  intro H. inversion H; clear H. simpl.
  match goal with
  | |- context [if ltb ?a ?b then _ else _] =>
      destruct (ltb a b) eqn:E
  end.
  - split; [exists 64%Z; reflexivity | discriminate].
  - apply ltb_ge in E. split; [apply whole_MiB_ceil | exact E].
Qed.

(** The limit is the rounded [max * 1.2] unless the floor of 1.5 times
    the request applies, and then it is that product, which is not
    rounded again. *)
Lemma memory_limit_cases ra cur lim p50 p95 p99 max avg stddev n r :
  calculateMemoryRecommendation ra cur lim p50 p95 p99 max avg stddev n
    = Some r ->
  RecommendedLimit r = math_Ceil (max * 1.2 / 1048576) * 1048576
  \/ RecommendedLimit r = RecommendedRequest r * 1.5.
Proof.
  unfold calculateMemoryRecommendation. cbv zeta.
  destruct (suppressed _ _ _ _); [discriminate|].
  intro H. inversion H; clear H. simpl.
  match goal with
  | |- context [if ltb ?a ?b then ?b else ?a] => destruct (ltb a b)
  end; [right | left]; reflexivity.
Qed.

(** C6 fails on the limit.  With p95 = 62 MiB and max = 70 MiB (current
    request 256 MiB, 500 samples) the request is rounded to 69 MiB and the
    limit to 84 MiB; the floor then sets the limit to 1.5 * 69 = 103.5 MiB,
    which is not a whole number of MiB. *)
Theorem memory_limit_fractional_MiB :
  exists r,
    calculateMemoryRecommendation NewRightsizingAnalyzer
      268435456 536870912 50000000 65011712 70000000 73400320
      60000000 3000000 500 = Some r
    /\ RecommendedRequest r == 69 * MiB
    /\ math_Ceil (73400320 * 1.2 / 1048576) * 1048576 == 84 * MiB
    /\ RecommendedLimit r == 103.5 * MiB
    /\ whole_MiB (RecommendedRequest r)
    /\ ~ whole_MiB (RecommendedLimit r).
Proof.
  eexists. split; [reflexivity|].
  split; [reflexivity|]. split; [reflexivity|]. split; [reflexivity|].
  split.
  - exists 69%Z. reflexivity.
  - intros [k Hk].
    assert (H : 108527616 == inject_Z k * MiB).
    { rewrite <- Hk. reflexivity. }
    unfold Qeq, MiB in H. simpl in H. lia.
Qed.

(** *** The savings estimate *)

(** The savings of a CPU recommendation are computed from [p95 * 1.15],
    the request before the minimum of 10 is applied. *)
Lemma cpu_savings_formula ra cur lim p50 p95 p99 max avg stddev n r :
  calculateCPURecommendation ra cur lim p50 p95 p99 max avg stddev n
    = Some r ->
  CurrentRequest r = cur
  /\ PotentialSavings r
     == (cur - p95 * 1.15) * costPerMillicore * hoursPerMonth
  /\ (10 <= p95 * 1.15 -> RecommendedRequest r = p95 * 1.15).
Proof.
  unfold calculateCPURecommendation.
  destruct (cpu_tier _ p99 max) as [[limit reasoning] risk]. cbv zeta.
  destruct (suppressed _ _ _ _); [discriminate|].
  destruct (ltb (p95 * 1.15) 10) eqn:Ereq;
    match goal with
    | |- context [ltb limit ?b] => destruct (ltb limit b)
    end;
    intro H; inversion H; simpl;
    (split; [reflexivity|]);
    (split; [unfold costPerMillicore, hoursPerMonth; ring|]);
    intro Hge;
    try reflexivity;
    apply ltb_lt in Ereq; lra.
Qed.

(** The savings of a memory recommendation are computed from the rounded
    request, before the minimum of 64 MiB is applied. *)
Lemma memory_savings_formula ra cur lim p50 p95 p99 max avg stddev n r :
  calculateMemoryRecommendation ra cur lim p50 p95 p99 max avg stddev n
    = Some r ->
  let rounded := math_Ceil (p95 * 1.1 / 1048576) * 1048576 in
  CurrentRequest r = cur
  /\ PotentialSavings r == (cur - rounded) * costPerByte * hoursPerMonth
  /\ (64 * MiB <= rounded -> RecommendedRequest r = rounded).
Proof.
  unfold calculateMemoryRecommendation. cbv zeta.
  destruct (suppressed _ _ _ _); [discriminate|].
  intro H. inversion H; clear H. simpl.
  split; [reflexivity|].
  split; [unfold costPerByte, hoursPerMonth; ring|].
  intro Hge.
  match goal with
  | |- (if ltb ?a ?b then _ else _) = _ => destruct (ltb a b) eqn:E
  end; [|reflexivity].
  apply ltb_lt in E. unfold MiB in Hge. lra.
Qed.

(** C7 fails when the minimum request applies.  A container with a CPU
    request of 100 millicores that uses 4 at p95 is recommended the
    minimum of 10, yet its savings are those of a request of 4.6: 0.68688
    a month instead of (100 - 10) * 0.00001 * 720 = 0.648. *)
Theorem cpu_savings_ignore_minimum :
  exists r,
    calculateCPURecommendation NewRightsizingAnalyzer
      100 200 2 4 5 6 3 1 500 = Some r
    /\ RecommendedRequest r == 10
    /\ PotentialSavings r == 0.68688
    /\ (CurrentRequest r - RecommendedRequest r)
         * costPerMillicore * hoursPerMonth == 0.648
    /\ ~ PotentialSavings r
         == (CurrentRequest r - RecommendedRequest r)
              * costPerMillicore * hoursPerMonth.
Proof.
  eexists. split; [reflexivity|].
  split; [reflexivity|]. split; [reflexivity|]. split; [reflexivity|].
  discriminate.
Qed.

(** The same on the memory side: 8 MiB used at p95 of a request of
    256 MiB gives the minimum request of 64 MiB with the savings of a
    request of 9 MiB. *)
Lemma memory_savings_ignore_minimum :
  exists r,
    calculateMemoryRecommendation NewRightsizingAnalyzer
      268435456 536870912 6000000 8388608 9000000 10485760
      7000000 500000 500 = Some r
    /\ RecommendedRequest r == 64 * MiB
    /\ PotentialSavings r
       == (CurrentRequest r - 9 * MiB) * costPerByte * hoursPerMonth
    /\ ~ PotentialSavings r
         == (CurrentRequest r - RecommendedRequest r)
              * costPerByte * hoursPerMonth.
Proof.
  eexists. split; [reflexivity|].
  split; [reflexivity|]. split; [reflexivity|].
  discriminate.
Qed.

(** *** Divisions *)


Lemma guarded_cv_finite (stddev avg : Q) :
  guarded_cv stddev avg = Finite (coefficient_of_variation stddev avg).
Proof.
  unfold guarded_cv, coefficient_of_variation, fdiv.
  destruct (Qeq_bool avg 0); reflexivity.
Qed.

(** The checked confidence is the confidence: it divides by the
    constant 1000. *)
Lemma checked_confidence (n : Z) (cv : Q) :
  Checked.calculateConfidence n cv = Some (calculateConfidence n cv).
Proof. reflexivity. Qed.

(** The checked coefficient of variation is a number whatever the mean
    is. *)
Lemma checked_cv (stddev avg : Q) :
  Checked.number (if Qeq_bool avg 0 then Finite 0 else fdiv stddev avg)
  = Some (coefficient_of_variation stddev avg).
Proof.
  unfold coefficient_of_variation, fdiv.
  destruct (Qeq_bool avg 0); reflexivity.
Qed.

Lemma checked_waste (cur p95 : Q) :
  ~ cur == 0 ->
  Checked.number (fdiv (cur - p95) cur) = Some ((cur - p95) / cur).
Proof. intro H. rewrite (fdiv_nonzero _ _ H). reflexivity. Qed.

Lemma unchecked_waste (cur p95 : Q) :
  cur == 0 -> Checked.number (fdiv (cur - p95) cur) = None.
Proof.
  intro H. pose proof (fdiv_zero (cur - p95) cur H) as Hf.
  destruct (fdiv (cur - p95) cur); [discriminate | reflexivity..].
Qed.

Lemma checked_cpu ra cur lim p50 p95 p99 max avg stddev n :
  ~ cur == 0 ->
  Checked.calculateCPURecommendation ra cur lim p50 p95 p99 max avg stddev n
  = Some (calculateCPURecommendation ra cur lim p50 p95 p99 max avg stddev n).
Proof.
  intro Hcur.
  unfold Checked.calculateCPURecommendation, calculateCPURecommendation.
  rewrite checked_cv. cbn [Checked.bind].
  rewrite checked_confidence. cbn [Checked.bind].
  unfold suppressed. rewrite (waste_finite _ _ Hcur).
  destruct (cpu_tier _ p99 max) as [[limit reasoning] risk].
  rewrite (checked_waste _ _ Hcur). cbn [Checked.bind quotient_ltb].
  split_branches; reflexivity.
Qed.

Lemma checked_memory ra cur lim p50 p95 p99 max avg stddev n :
  ~ cur == 0 ->
  Checked.calculateMemoryRecommendation ra cur lim p50 p95 p99 max avg
    stddev n
  = Some (calculateMemoryRecommendation ra cur lim p50 p95 p99 max avg
            stddev n).
Proof.
  intro Hcur.
  unfold Checked.calculateMemoryRecommendation, calculateMemoryRecommendation.
  rewrite checked_cv. cbn [Checked.bind].
  rewrite checked_confidence. cbn [Checked.bind].
  assert (HMiB : ~ 1048576 == 0) by discriminate.
  rewrite !(fdiv_nonzero _ _ HMiB). cbn [Checked.number Checked.bind].
  unfold suppressed. rewrite (waste_finite _ _ Hcur).
  rewrite (checked_waste _ _ Hcur). cbn [Checked.bind quotient_ltb].
  destruct (ltb _ (wasteThreshold ra) && _); reflexivity.
Qed.

Lemma unchecked_cpu ra cur lim p50 p95 p99 max avg stddev n :
  cur == 0 ->
  Checked.calculateCPURecommendation ra cur lim p50 p95 p99 max avg stddev n
  = None.
Proof.
  intro Hcur. unfold Checked.calculateCPURecommendation.
  rewrite checked_cv. cbn [Checked.bind].
  rewrite checked_confidence. cbn [Checked.bind].
  destruct (cpu_tier _ p99 max) as [[limit reasoning] risk].
  rewrite (unchecked_waste _ _ Hcur). reflexivity.
Qed.

Lemma unchecked_memory ra cur lim p50 p95 p99 max avg stddev n :
  cur == 0 ->
  Checked.calculateMemoryRecommendation ra cur lim p50 p95 p99 max avg
    stddev n
  = None.
Proof.
  intro Hcur. unfold Checked.calculateMemoryRecommendation.
  rewrite checked_cv. cbn [Checked.bind].
  rewrite checked_confidence. cbn [Checked.bind].
  assert (HMiB : ~ 1048576 == 0) by discriminate.
  rewrite !(fdiv_nonzero _ _ HMiB). cbn [Checked.number Checked.bind].
  rewrite (unchecked_waste _ _ Hcur). reflexivity.
Qed.

(** The same two places in binary64: for a mean of zero the coefficient
    of variation is [+0], whatever the division gave; for a current
    request of zero the waste is an infinity or NaN. *)
Lemma zero_mean_binary64 (stddev avg : Binary64.float64) :
  Binary64.eqb avg Binary64.zero = true ->
  Analyzer64.coefficient_of_variation stddev avg = Binary64.zero.
Proof.
  intro H. unfold Analyzer64.coefficient_of_variation. rewrite H.
  reflexivity.
Qed.

Lemma zero_request_binary64 (cur p95 : Binary64.float64) :
  Binary64.is_zero cur = true ->
  Binary64.is_finite (Analyzer64.waste cur p95) = false.
Proof.
  destruct cur as [s | | |]; try discriminate; intros _.
  destruct s; destruct p95 as [[|] | [|] | | [|] m e]; reflexivity.
Qed.

(** C10.  Run with every quotient checked, [calculateCPURecommendation]
    and [calculateMemoryRecommendation] meet no division by zero whose
    result they use, and answer as they do unchecked, whenever the
    current request is not zero: the mean may be zero, since [cv], then
    the quotient of a division by zero, is overwritten with 0 before it
    is used, and the other divisors are constants.  With a current
    request of zero both functions use the quotient of a division by
    zero, the waste, there being no guard: it is infinite or NaN, and for
    a positive p95 it counts as below every threshold.  In binary64 too
    the coefficient of variation of a zero mean is 0 and the waste of a
    zero request is an infinity or NaN. *)
Theorem recommendation_divisions_defined :
  forall ra cur lim p50 p95 p99 max avg stddev n,
    (~ cur == 0 ->
     Checked.calculateCPURecommendation ra cur lim p50 p95 p99 max avg
       stddev n
     = Some (calculateCPURecommendation ra cur lim p50 p95 p99 max avg
               stddev n)
     /\ Checked.calculateMemoryRecommendation ra cur lim p50 p95 p99 max
          avg stddev n
        = Some (calculateMemoryRecommendation ra cur lim p50 p95 p99 max
                  avg stddev n))
    /\ (avg == 0 ->
        Checked.number (fdiv stddev avg) = None
        /\ Checked.number (guarded_cv stddev avg) = Some 0
        /\ coefficient_of_variation stddev avg = 0)
    /\ (cur == 0 ->
        Checked.calculateCPURecommendation ra cur lim p50 p95 p99 max avg
          stddev n = None
        /\ Checked.calculateMemoryRecommendation ra cur lim p50 p95 p99
             max avg stddev n = None
        /\ is_finite (waste cur p95) = false
        /\ (0 < p95 -> forall threshold,
              quotient_ltb (waste cur p95) threshold = true))
    /\ (forall stddev64 avg64,
        Binary64.eqb avg64 Binary64.zero = true ->
        Analyzer64.coefficient_of_variation stddev64 avg64 = Binary64.zero)
    /\ (forall cur64 p95_64,
        Binary64.is_zero cur64 = true ->
        Binary64.is_finite (Analyzer64.waste cur64 p95_64) = false).
Proof.
  intros ra cur lim p50 p95 p99 max avg stddev n.
  split; [|split; [|split; [|split;
    [exact zero_mean_binary64 | exact zero_request_binary64]]]].
  - intro Hcur. split; [apply checked_cpu | apply checked_memory]; exact Hcur.
  - intro Havg.
    assert (Hcv : coefficient_of_variation stddev avg = 0).
    { unfold coefficient_of_variation.
      apply Qeq_bool_iff in Havg. rewrite Havg. reflexivity. }
    split; [|split; [|exact Hcv]].
    + pose proof (fdiv_zero stddev avg Havg) as Hf.
      destruct (fdiv stddev avg); [discriminate | reflexivity..].
    + rewrite guarded_cv_finite, Hcv. reflexivity.
  - intro Hcur.
    split; [apply unchecked_cpu; exact Hcur|].
    split; [apply unchecked_memory; exact Hcur|].
    split; [apply fdiv_zero; exact Hcur|].
    intros Hp threshold. unfold waste, fdiv.
    apply Qeq_bool_iff in Hcur as Hb. rewrite Hb.
    assert (Hneg : cur - p95 < 0) by lra.
    rewrite Qlt_alt in Hneg. rewrite Hneg. reflexivity.
Qed.

(** The worked example has a current request of 400; with a mean of
    zero it is still answered, and with a current request of zero and a
    usage of 180 it is not, the waste being minus infinity. *)
Lemma recommendation_divisions_defined_witness :
  Checked.calculateCPURecommendation NewRightsizingAnalyzer
    400 800 100 180 220 250 120 30 500
  = Some (calculateCPURecommendation NewRightsizingAnalyzer
            400 800 100 180 220 250 120 30 500)
  /\ Checked.calculateMemoryRecommendation NewRightsizingAnalyzer
       400 800 100 180 220 250 0 30 500
     = Some (calculateMemoryRecommendation NewRightsizingAnalyzer
               400 800 100 180 220 250 0 30 500)
  /\ Checked.number (guarded_cv 30 0) = Some 0
  /\ Checked.calculateCPURecommendation NewRightsizingAnalyzer
       0 800 100 180 220 250 120 30 500 = None
  /\ waste 0 180 = NegInf.
Proof.
  destruct (recommendation_divisions_defined NewRightsizingAnalyzer
              400 800 100 180 220 250 120 30 500%Z) as [Hcpu _].
  destruct (recommendation_divisions_defined NewRightsizingAnalyzer
              400 800 100 180 220 250 0 30 500%Z) as [Hmem [Hcv _]].
  destruct (recommendation_divisions_defined NewRightsizingAnalyzer
              0 800 100 180 220 250 120 30 500%Z) as [_ [_ [Hzero _]]].
  split; [apply Hcpu; discriminate|].
  split; [apply Hmem; discriminate|].
  split; [apply Hcv; reflexivity|].
  split; [apply Hzero; reflexivity | reflexivity].
Defined.
End AnalyzerFacts.

(* ================================================================== *)
(** ** The circuit breaker *)
(* ================================================================== *)

Section ResilienceFacts.

Import Resilience.
Local Open Scope Z_scope.

Lemma wrap64_in_range (z : Z) : - 2 ^ 63 <= z <= max_int -> wrap64 z = z.
Proof.
  unfold wrap64, max_int. intro H.
  rewrite Z.mod_small; lia.
Qed.

(** Evaluates the tests on the state once the state is known. *)
Ltac known_state H :=
  unfold Execute, canExecute, recordResult;
  rewrite ?H; unfold StateClosed, StateOpen, StateHalfOpen in *;
  rewrite ?H; cbn [Z.eqb Pos.eqb andb negb].

(** *** Single calls *)

(** An open breaker whose cooldown is not over rejects the call: the
    wrapped function is not applied, the breaker and the world stay as
    they are. *)
Lemma execute_rejected {W : Type} (cb : CircuitBreaker) (now elapsed : Z)
    (fn : action W) (w : W) :
  state cb = StateOpen ->
  Since now (lastFailure cb) <= timeout cb ->
  Execute cb now elapsed fn w
  = (cb, w, Some "circuit breaker is open"%string).
Proof.
  intros Hs Ht. known_state Hs.
  destruct (Since now (lastFailure cb) >? timeout cb) eqn:E.
  - apply Z.gtb_lt in E. lia.
  - reflexivity.
Qed.

(** Once the cooldown is over the check of [canExecute] turns the breaker
    half-open and lets the call through. *)
Lemma open_becomes_half_open (cb : CircuitBreaker) (now : Z) :
  state cb = StateOpen ->
  Since now (lastFailure cb) > timeout cb ->
  canExecute cb now = (set_state cb StateHalfOpen, true).
Proof.
  intros Hs Ht. known_state Hs.
  destruct (Since now (lastFailure cb) >? timeout cb) eqn:E.
  - reflexivity.
  - rewrite Z.gtb_ltb, Z.ltb_ge in E. lia.
Qed.

(** A failure recorded by a closed breaker. *)
Lemma closed_failure (cb : CircuitBreaker) (now : Z) (e : string) :
  state cb = StateClosed ->
  let cb' := recordResult cb now (Some e) in
  failures cb' = wrap64 (failures cb + 1)
  /\ successes cb' = 0
  /\ lastFailure cb' = now
  /\ state cb' =
     if failures cb' >=? threshold cb then StateOpen else StateClosed.
Proof.
  intro Hs. known_state Hs. simpl.
  destruct (wrap64 (failures cb + 1) >=? threshold cb); repeat split.
Qed.

(** Any failure recorded by a half-open breaker opens it again. *)
Lemma half_open_failure (cb : CircuitBreaker) (now : Z) (e : string) :
  state cb = StateHalfOpen ->
  state (recordResult cb now (Some e)) = StateOpen
  /\ lastFailure (recordResult cb now (Some e)) = now
  /\ successes (recordResult cb now (Some e)) = 0.
Proof.
  intro Hs. known_state Hs. simpl. repeat split.
Qed.

(** A success recorded by a half-open breaker. *)
Lemma half_open_success (cb : CircuitBreaker) (now : Z) :
  state cb = StateHalfOpen ->
  let cb' := recordResult cb now None in
  successes cb' = wrap64 (successes cb + 1)
  /\ failures cb' = 0
  /\ state cb' =
     if successes cb' >=? successThreshold cb then StateClosed
     else StateHalfOpen.
Proof.
  intro Hs. known_state Hs. simpl.
  destruct (wrap64 (successes cb + 1) >=? successThreshold cb);
    repeat split.
Qed.

(** A call that is let through applies the function once and records
    its result when it returns. *)
Lemma execute_allowed {W : Type} (cb cb1 : CircuitBreaker)
    (now elapsed : Z) (fn : action W) (w : W) :
  canExecute cb now = (cb1, true) ->
  Execute cb now elapsed fn w
  = (recordResult cb1 (now + elapsed) (snd (fn w)), fst (fn w), snd (fn w)).
Proof.
  intro H. unfold Execute. rewrite H. simpl.
  destruct (fn w) as [w' err]. reflexivity.
Qed.

Lemma closed_allows (cb : CircuitBreaker) (now : Z) :
  state cb = StateClosed -> canExecute cb now = (cb, true).
Proof. intro Hs. known_state Hs. reflexivity. Qed.

Lemma half_open_allows (cb : CircuitBreaker) (now : Z) :
  state cb = StateHalfOpen -> canExecute cb now = (cb, true).
Proof. intro Hs. known_state Hs. reflexivity. Qed.


Lemma run_cons (cb : CircuitBreaker) (c : call) (rest : list call) :
  run cb (c :: rest) = run (step cb c) rest.
Proof.
  unfold step. simpl.
  destruct (Execute cb (at_time c) (took c) (counting (result c)) 0%nat)
    as [[cb' w] e].
  reflexivity.
Qed.

Lemma run_app (calls more : list call) :
  forall cb, run cb (calls ++ more) = run (run cb calls) more.
Proof.
  induction calls as [|c rest IH]; intro cb.
  - reflexivity.
  - rewrite <- app_comm_cons, !run_cons. apply IH.
Qed.

Lemma step_closed (cb : CircuitBreaker) (c : call) :
  state cb = StateClosed ->
  step cb c = recordResult cb (at_time c + took c) (result c).
Proof.
  intro Hs. unfold step.
  rewrite (execute_allowed cb cb _ _ _ _ (closed_allows cb _ Hs)).
  reflexivity.
Qed.

Lemma step_half_open (cb : CircuitBreaker) (c : call) :
  state cb = StateHalfOpen ->
  step cb c = recordResult cb (at_time c + took c) (result c).
Proof.
  intro Hs. unfold step.
  rewrite (execute_allowed cb cb _ _ _ _ (half_open_allows cb _ Hs)).
  reflexivity.
Qed.

Lemma step_open_cooled (cb : CircuitBreaker) (c : call) :
  state cb = StateOpen ->
  Since (at_time c) (lastFailure cb) > timeout cb ->
  step cb c
  = recordResult (set_state cb StateHalfOpen) (at_time c + took c) (result c).
Proof.
  intros Hs Ht. unfold step.
  rewrite (execute_allowed cb _ _ _ _ _ (open_becomes_half_open cb _ Hs Ht)).
  reflexivity.
Qed.

Lemma step_open_rejected (cb : CircuitBreaker) (c : call) :
  state cb = StateOpen ->
  Since (at_time c) (lastFailure cb) <= timeout cb ->
  step cb c = cb.
Proof.
  intros Hs Ht. unfold step. rewrite execute_rejected by assumption.
  reflexivity.
Qed.

(** The breaker [Execute] leaves behind depends on the wrapped function
    only through the error it returns. *)
Lemma execute_breaker {W : Type} (cb : CircuitBreaker) (now elapsed : Z)
    (fn : action W) (w : W) :
  fst (fst (Execute cb now elapsed fn w))
  = step cb {| at_time := now; took := elapsed; result := snd (fn w) |}.
Proof.
  unfold step, Execute. cbn [at_time took result].
  destruct (canExecute cb now) as [cb1 [|]]; cbn [negb].
  - unfold counting. destruct (fn w) as [w' err]. reflexivity.
  - reflexivity.
Qed.

(** *** Sequences of calls *)

Lemma failed_result (c : call) : failed c -> exists e, result c = Some e.
Proof.
  unfold failed. destruct (result c) as [e|]; [eauto | congruence].
Qed.

Lemma closed_success (cb : CircuitBreaker) (now : Z) :
  state cb = StateClosed ->
  state (recordResult cb now None) = StateClosed
  /\ failures (recordResult cb now None) = 0.
Proof.
  intro Hs. known_state Hs. simpl. split; reflexivity.
Qed.

(** Failures short of the threshold leave a closed breaker closed and
    are counted one by one. *)
Lemma closed_failures_counted (calls : list call) :
  forall cb,
    Forall failed calls ->
    state cb = StateClosed ->
    0 <= failures cb ->
    failures cb + Z.of_nat (length calls) < threshold cb ->
    threshold cb <= max_int ->
    state (run cb calls) = StateClosed
    /\ failures (run cb calls) = failures cb + Z.of_nat (length calls)
    /\ threshold (run cb calls) = threshold cb.
Proof.
  induction calls as [|c rest IH]; intros cb Hall Hs Hf Hlt Hmax.
  - simpl. repeat split; lia.
  - inversion Hall as [|? ? Hc Hrest]; subst.
    destruct (failed_result c Hc) as [e He].
    rewrite run_cons, (step_closed _ _ Hs), He.
    cbn [length] in Hlt. rewrite Nat2Z.inj_succ in Hlt.
    destruct (closed_failure cb (at_time c + took c) e Hs)
      as [Hf' [_ [_ Hs']]].
    assert (Hw : wrap64 (failures cb + 1) = failures cb + 1).
    { apply wrap64_in_range. unfold max_int in *. lia. }
    rewrite Hw in Hf'. rewrite Hf' in Hs'.
    destruct (failures cb + 1 >=? threshold cb) eqn:E;
      [apply Z.geb_le in E; lia|].
    destruct (IH (recordResult cb (at_time c + took c) (Some e)))
      as [H1 [H2 H3]]; try assumption; try (rewrite Hf'; lia);
      try (simpl; lia).
    repeat split; try assumption.
    rewrite H2, Hf'. cbn [length]. lia.
Qed.

(** The failure that brings the count to the threshold opens the
    breaker. *)
Lemma closed_opens_at_threshold (cb : CircuitBreaker) (c : call) :
  failed c ->
  state cb = StateClosed ->
  0 <= failures cb < max_int ->
  threshold cb <= failures cb + 1 ->
  state (step cb c) = StateOpen.
Proof.
  intros Hc Hs Hf Hth.
  destruct (failed_result c Hc) as [e He].
  rewrite (step_closed _ _ Hs), He.
  destruct (closed_failure cb (at_time c + took c) e Hs)
    as [Hf' [_ [_ Hs']]].
  rewrite Hs', Hf', wrap64_in_range by (unfold max_int in *; lia).
  destruct (failures cb + 1 >=? threshold cb) eqn:E; [reflexivity|].
  rewrite Z.geb_leb, Z.leb_gt in E. lia.
Qed.

(** Successes short of the success threshold leave a half-open breaker
    half-open and are counted one by one. *)
Lemma half_open_successes_counted (calls : list call) :
  forall cb,
    Forall succeeded calls ->
    state cb = StateHalfOpen ->
    0 <= successes cb ->
    successes cb + Z.of_nat (length calls) < successThreshold cb ->
    successThreshold cb <= max_int ->
    state (run cb calls) = StateHalfOpen
    /\ successes (run cb calls) = successes cb + Z.of_nat (length calls)
    /\ successThreshold (run cb calls) = successThreshold cb.
Proof.
  induction calls as [|c rest IH]; intros cb Hall Hs Hf Hlt Hmax.
  - simpl. repeat split; lia.
  - inversion Hall as [|? ? Hc Hrest]; subst.
    unfold succeeded in Hc.
    rewrite run_cons, (step_half_open _ _ Hs), Hc.
    cbn [length] in Hlt. rewrite Nat2Z.inj_succ in Hlt.
    destruct (half_open_success cb (at_time c + took c) Hs)
      as [Hf' [_ Hs']].
    assert (Hw : wrap64 (successes cb + 1) = successes cb + 1).
    { apply wrap64_in_range. unfold max_int in *. lia. }
    rewrite Hw in Hf'. rewrite Hf' in Hs'.
    destruct (successes cb + 1 >=? successThreshold cb) eqn:E;
      [apply Z.geb_le in E; lia|].
    destruct (IH (recordResult cb (at_time c + took c) None))
      as [H1 [H2 H3]]; try assumption; try (rewrite Hf'; lia);
      try (simpl; lia).
    repeat split; try assumption.
    rewrite H2, Hf'. cbn [length]. lia.
Qed.

(** The success that brings the count to the success threshold closes
    the breaker. *)
Lemma half_open_closes_at_threshold (cb : CircuitBreaker) (c : call) :
  succeeded c ->
  state cb = StateHalfOpen ->
  0 <= successes cb < max_int ->
  successThreshold cb <= successes cb + 1 ->
  state (step cb c) = StateClosed /\ failures (step cb c) = 0.
Proof.
  intros Hc Hs Hf Hth. unfold succeeded in Hc.
  rewrite (step_half_open _ _ Hs), Hc.
  destruct (half_open_success cb (at_time c + took c) Hs)
    as [Hf' [Hz Hs']].
  split; [|exact Hz].
  rewrite Hs', Hf', wrap64_in_range by (unfold max_int in *; lia).
  destruct (successes cb + 1 >=? successThreshold cb) eqn:E; [reflexivity|].
  rewrite Z.geb_leb, Z.leb_gt in E. lia.
Qed.

(** *** Breakers in use *)

Lemma new_well_formed (threshold timeout : Z) :
  - 2 ^ 63 <= threshold <= max_int ->
  well_formed (NewCircuitBreaker threshold timeout).
Proof.
  intro H. unfold well_formed, NewCircuitBreaker. simpl.
  split; [reflexivity|]. split; [exact H|].
  left. split; [reflexivity|]. split; lia.
Qed.

Lemma record_well_formed (cb : CircuitBreaker) (now : Z)
    (err : option string) :
  well_formed cb ->
  state cb = StateClosed \/ state cb = StateHalfOpen ->
  well_formed (recordResult cb now err).
Proof.
  intros [Hst [Hth Hcases]] Hs.
  unfold well_formed.
  assert (Hst' : successThreshold (recordResult cb now err) = 3)
    by (destruct err; exact Hst).
  assert (Hth' : threshold (recordResult cb now err) = threshold cb)
    by (destruct err; reflexivity).
  rewrite Hst', Hth'. split; [reflexivity|]. split; [exact Hth|].
  unfold max_int in *.
  destruct Hcases as [[Hc [Hf Hlt]] | [[Ho Hz] | [Hh Hsuc]]].
  - (* closed *)
    destruct err as [e|].
    + destruct (closed_failure cb now e Hc) as [Hf' [Hz' [_ Hs']]].
      rewrite wrap64_in_range in Hf' by (unfold max_int; lia).
      rewrite Hs', Hf'.
      destruct (failures cb + 1 >=? threshold cb) eqn:E.
      * right. left. split; [reflexivity | exact Hz'].
      * rewrite Z.geb_leb, Z.leb_gt in E.
        left. split; [reflexivity|]. rewrite ?Hf'. lia.
    + destruct (closed_success cb now Hc) as [Hs' Hf'].
      left. split; [exact Hs'|]. rewrite Hf'. lia.
  - (* open: excluded *)
    unfold StateOpen, StateClosed, StateHalfOpen in *.
    destruct Hs; congruence.
  - (* half-open *)
    destruct err as [e|].
    + destruct (half_open_failure cb now e Hh) as [Hs' [_ Hz']].
      right. left. split; assumption.
    + destruct (half_open_success cb now Hh) as [Hsc' [Hf' Hs']].
      rewrite wrap64_in_range in Hsc' by (unfold max_int; lia).
      rewrite Hs', Hsc', Hst.
      destruct (successes cb + 1 >=? 3) eqn:E.
      * left. split; [reflexivity|]. rewrite Hf'. lia.
      * rewrite Z.geb_leb, Z.leb_gt in E.
        right. right. split; [reflexivity|]. rewrite ?Hsc'. lia.
Qed.

Lemma set_half_open_well_formed (cb : CircuitBreaker) :
  well_formed cb -> state cb = StateOpen ->
  well_formed (set_state cb StateHalfOpen)
  /\ successes (set_state cb StateHalfOpen) = 0.
Proof.
  intros [Hst [Hth Hcases]] Ho.
  assert (Hz : successes cb = 0).
  { unfold StateOpen, StateClosed, StateHalfOpen in *.
    destruct Hcases as [[Hc _] | [[_ Hz] | [Hh _]]];
      [congruence | exact Hz | congruence]. }
  split; [|exact Hz].
  unfold well_formed. simpl.
  split; [exact Hst|]. split; [exact Hth|].
  right. right. split; [reflexivity | lia].
Qed.

Lemma well_formed_state (cb : CircuitBreaker) :
  well_formed cb ->
  state cb = StateClosed \/ state cb = StateOpen \/ state cb = StateHalfOpen.
Proof.
  intros [_ [_ [[H _] | [[H _] | [H _]]]]]; auto.
Qed.

Lemma step_well_formed (cb : CircuitBreaker) (c : call) :
  well_formed cb -> well_formed (step cb c).
Proof.
  intro Hwf.
  destruct (well_formed_state cb Hwf) as [Hs | [Hs | Hs]].
  - rewrite (step_closed _ _ Hs). apply record_well_formed; auto.
  - destruct (Z_le_gt_dec (Since (at_time c) (lastFailure cb)) (timeout cb))
      as [Hle | Hgt].
    + rewrite (step_open_rejected _ _ Hs Hle). exact Hwf.
    + rewrite (step_open_cooled _ _ Hs Hgt).
      apply record_well_formed.
      * apply set_half_open_well_formed; assumption.
      * right. reflexivity.
  - rewrite (step_half_open _ _ Hs). apply record_well_formed; auto.
Qed.

Lemma run_well_formed (calls : list call) :
  forall cb, well_formed cb -> well_formed (run cb calls).
Proof.
  induction calls as [|c rest IH]; intros cb Hwf.
  - exact Hwf.
  - rewrite run_cons. apply IH, step_well_formed, Hwf.
Qed.

Lemma Forall_snoc {A : Type} (P : A -> Prop) (l : list A) (x : A) :
  Forall P (l ++ [x]) -> Forall P l /\ P x.
Proof.
  intro H. apply Forall_app in H. destruct H as [Hl Hx].
  split; [exact Hl | inversion Hx; assumption].
Qed.

Lemma length_snoc {A : Type} (l : list A) (x : A) :
  Z.of_nat (length (l ++ [x])) = Z.of_nat (length l) + 1.
Proof. rewrite length_app. simpl. lia. Qed.

(** A closed breaker without failures counted stays closed through
    [threshold - 1] consecutive failures and opens at the next. *)
Lemma closed_to_open (cb : CircuitBreaker) (calls : list call) (c : call) :
  state cb = StateClosed ->
  failures cb = 0 ->
  1 <= threshold cb <= max_int ->
  Forall failed (calls ++ [c]) ->
  Z.of_nat (length (calls ++ [c])) = threshold cb ->
  state (run cb calls) = StateClosed
  /\ state (run cb (calls ++ [c])) = StateOpen.
Proof.
  intros Hs Hf Hth Hall Hlen.
  apply Forall_snoc in Hall. destruct Hall as [Hcalls Hc].
  rewrite length_snoc in Hlen.
  destruct (closed_failures_counted calls cb Hcalls Hs) as [H1 [H2 H3]];
    try lia.
  split; [exact H1|].
  rewrite run_app, run_cons. cbn [run].
  apply closed_opens_at_threshold; try assumption; unfold max_int in *; lia.
Qed.

(** A half-open breaker without successes counted stays half-open
    through [successThreshold - 1] consecutive successes and closes at
    the next. *)
Lemma half_open_to_closed (cb : CircuitBreaker) (calls : list call)
    (c : call) :
  state cb = StateHalfOpen ->
  successes cb = 0 ->
  1 <= successThreshold cb <= max_int ->
  Forall succeeded (calls ++ [c]) ->
  Z.of_nat (length (calls ++ [c])) = successThreshold cb ->
  state (run cb calls) = StateHalfOpen
  /\ state (run cb (calls ++ [c])) = StateClosed.
Proof.
  intros Hs Hf Hth Hall Hlen.
  apply Forall_snoc in Hall. destruct Hall as [Hcalls Hc].
  rewrite length_snoc in Hlen.
  destruct (half_open_successes_counted calls cb Hcalls Hs)
    as [H1 [H2 H3]]; try lia.
  split; [exact H1|].
  rewrite run_app, run_cons. cbn [run].
  apply half_open_closes_at_threshold; try assumption;
    unfold max_int in *; lia.
Qed.

(** The first call after the cooldown runs on the half-open breaker. *)
Lemma run_open_cooled (cb : CircuitBreaker) (c : call) (rest : list call) :
  state cb = StateOpen ->
  Since (at_time c) (lastFailure cb) > timeout cb ->
  run cb (c :: rest) = run (set_state cb StateHalfOpen) (c :: rest).
Proof.
  intros Hs Ht. rewrite !run_cons, (step_open_cooled _ _ Hs Ht).
  rewrite step_half_open by reflexivity. reflexivity.
Qed.

(** C9.  The breaker as a state machine driven by calls of [Execute].

    - An open breaker for which no more than the cooldown has passed
      since the last failure (less than it, or exactly it) returns the
      error "circuit breaker is open" without applying the wrapped
      function: the world and the breaker are unchanged.
    - A closed breaker that has counted no failure stays closed through
      [threshold - 1] consecutive failures and is open after the
      [threshold]-th; a success in between sets the count back to zero.
    - Once more than the cooldown has passed, the check of [canExecute] turns
      an open breaker half-open and lets the call through.
    - A failure of a call on a half-open breaker opens it.
    - A half-open breaker entered with no successes counted, and the
      success threshold of 3, is still half-open after one and two
      consecutive successes and closed after the third.
    - Every breaker made by [NewCircuitBreaker] has the success
      threshold 3 and, however it is used, counts no successes while it
      is open, so that the half-open state is always entered with a
      count of zero: after the cooldown, three successful calls in a
      row close it. *)
Theorem circuit_breaker_state_machine :
  (forall (W : Type) (cb : CircuitBreaker) (now elapsed : Z)
          (fn : action W) (w : W),
      state cb = StateOpen ->
      Since now (lastFailure cb) <= timeout cb ->
      Execute cb now elapsed fn w
      = (cb, w, Some "circuit breaker is open"%string))
  /\ (forall cb calls c,
      state cb = StateClosed ->
      failures cb = 0 ->
      1 <= threshold cb <= max_int ->
      Forall failed (calls ++ [c]) ->
      Z.of_nat (length (calls ++ [c])) = threshold cb ->
      state (run cb calls) = StateClosed
      /\ state (run cb (calls ++ [c])) = StateOpen)
  /\ (forall cb now,
      state cb = StateClosed ->
      state (recordResult cb now None) = StateClosed
      /\ failures (recordResult cb now None) = 0)
  /\ (forall cb now,
      state cb = StateOpen ->
      Since now (lastFailure cb) > timeout cb ->
      canExecute cb now = (set_state cb StateHalfOpen, true))
  /\ (forall cb c,
      state cb = StateHalfOpen ->
      failed c ->
      state (step cb c) = StateOpen)
  /\ (forall cb c1 c2 c3,
      state cb = StateHalfOpen ->
      successes cb = 0 ->
      successThreshold cb = 3 ->
      succeeded c1 -> succeeded c2 -> succeeded c3 ->
      state (run cb [c1]) = StateHalfOpen
      /\ state (run cb [c1; c2]) = StateHalfOpen
      /\ state (run cb [c1; c2; c3]) = StateClosed)
  /\ (forall threshold timeout history c1 c2 c3,
      - 2 ^ 63 <= threshold <= max_int ->
      let cb := run (NewCircuitBreaker threshold timeout) history in
      successThreshold cb = 3
      /\ (state cb = StateOpen ->
          successes cb = 0
          /\ (Since (at_time c1) (lastFailure cb) > Resilience.timeout cb ->
              succeeded c1 -> succeeded c2 -> succeeded c3 ->
              state (run cb [c1]) = StateHalfOpen
              /\ state (run cb [c1; c2]) = StateHalfOpen
              /\ state (run cb [c1; c2; c3]) = StateClosed))).
Proof.
  assert (Hthree : forall cb c1 c2 c3,
      state cb = StateHalfOpen ->
      successes cb = 0 ->
      successThreshold cb = 3 ->
      succeeded c1 -> succeeded c2 -> succeeded c3 ->
      state (run cb [c1]) = StateHalfOpen
      /\ state (run cb [c1; c2]) = StateHalfOpen
      /\ state (run cb [c1; c2; c3]) = StateClosed).
  { intros cb c1 c2 c3 Hs Hz Hst H1 H2 H3.
    destruct (half_open_successes_counted [c1] cb) as [Ha _];
      try assumption; try (simpl; lia);
      [repeat constructor; assumption | unfold max_int; lia |].
    destruct (half_open_to_closed cb [c1; c2] c3) as [Hb Hc];
      try assumption; try (simpl; lia);
      [unfold max_int; lia | repeat constructor; assumption |].
    auto. }
  split; [intros; apply execute_rejected; assumption|].
  split; [intros; apply closed_to_open; assumption|].
  split; [intros; apply closed_success; assumption|].
  split; [intros; apply open_becomes_half_open; assumption|].
  split.
  { intros cb c Hs Hc. destruct (failed_result c Hc) as [e He].
    rewrite (step_half_open _ _ Hs), He.
    apply (half_open_failure cb _ e Hs). }
  split; [exact Hthree|].
  intros threshold timeout history c1 c2 c3 Hth cb.
  assert (Hwf : well_formed cb)
    by (apply run_well_formed, new_well_formed, Hth).
  split; [apply Hwf|].
  intro Ho.
  destruct (set_half_open_well_formed cb Hwf Ho) as [Hwf' Hz].
  split; [exact Hz|].
  intros Ht H1 H2 H3.
  rewrite !(run_open_cooled cb c1 _ Ho Ht).
  apply Hthree; try assumption; try reflexivity.
  apply Hwf'.
Qed.

(** A breaker with threshold 2 and a cooldown of 30 s.  Two failures
    open it; a call 10 s later is rejected without running the
    function; calls from 31 s on are let through, and the third success
    closes the breaker. *)
Lemma circuit_breaker_state_machine_witness :
  let second := 1000000000 in
  let failure := Some "boom"%string in
  let cb0 := NewCircuitBreaker 2 (30 * second) in
  let f1 := {| at_time := 0; took := 1; result := failure |} in
  let f2 := {| at_time := second; took := 1; result := failure |} in
  let s1 := {| at_time := 32 * second; took := 1; result := None |} in
  let s2 := {| at_time := 33 * second; took := 1; result := None |} in
  let s3 := {| at_time := 34 * second; took := 1; result := None |} in
  let opened := run cb0 [f1; f2] in
  (state (run cb0 [f1]) = StateClosed /\ state opened = StateOpen)
  /\ Execute opened (10 * second) 1 (counting None) 7%nat
     = (opened, 7%nat, Some "circuit breaker is open"%string)
  /\ canExecute opened (32 * second)
     = (set_state opened StateHalfOpen, true)
  /\ state (step (set_state opened StateHalfOpen) f1) = StateOpen
  /\ (state (run opened [s1]) = StateHalfOpen
      /\ state (run opened [s1; s2]) = StateHalfOpen
      /\ state (run opened [s1; s2; s3]) = StateClosed).
Proof.
  intros second failure cb0 f1 f2 s1 s2 s3 opened.
  destruct circuit_breaker_state_machine
    as [Hrej [Hopen [_ [Hhalf [Hfail [_ Hnew]]]]]].
  split.
  { apply (Hopen cb0 [f1] f2); try reflexivity.
    - unfold max_int. simpl. lia.
    - repeat constructor; discriminate. }
  split.
  { apply Hrej; [reflexivity | vm_compute; discriminate]. }
  split.
  { apply Hhalf; [reflexivity | reflexivity]. }
  split.
  { apply Hfail; [reflexivity | discriminate]. }
  destruct (Hnew 2 (30 * second) [f1; f2] s1 s2 s3) as [_ Hclose].
  { unfold max_int. lia. }
  destruct (Hclose eq_refl) as [_ Hclose'].
  apply Hclose'; reflexivity.
Defined.
End ResilienceFacts.

(* ================================================================== *)
(** ** More on the recommendation functions *)
(* ================================================================== *)

Section RecommendationFacts.

Import Analyzer.
Local Open Scope Q_scope.
Local Open Scope string_scope.

(** The fields of an emitted CPU recommendation that do not depend on a
    floor. *)
Lemma cpu_fields ra cur lim p50 p95 p99 max avg stddev n r :
  calculateCPURecommendation ra cur lim p50 p95 p99 max avg stddev n = Some r
  -> ResourceType r = "CPU"
     /\ CurrentRequest r = cur
     /\ CurrentLimit r = lim
     /\ P95Usage r = p95
     /\ MaxUsage r = max
     /\ RiskLevel r
        = snd (cpu_tier (coefficient_of_variation stddev avg) p99 max)
     /\ RecommendedRequest r
        = (if ltb (p95 * 1.15) 10 then 10 else p95 * 1.15)
     /\ PotentialSavings r
        = (cur * 0.00001 - p95 * 1.15 * 0.00001) * 24 * 30.
Proof.
  unfold calculateCPURecommendation.
  destruct (cpu_tier _ p99 max) as [[limit reasoning] risk]. cbv zeta.
  destruct (suppressed _ _ _ _); [discriminate|].
  destruct (ltb (p95 * 1.15) 10);
    match goal with
    | |- context [ltb limit ?b] => destruct (ltb limit b)
    end;
    intro H; inversion H; simpl; repeat split.
Qed.

Lemma memory_fields ra cur lim p50 p95 p99 max avg stddev n r :
  calculateMemoryRecommendation ra cur lim p50 p95 p99 max avg stddev n
    = Some r
  -> let rounded := math_Ceil (p95 * 1.1 / 1048576) * 1048576 in
     let request :=
       if ltb rounded (64 * 1024 * 1024) then 64 * 1024 * 1024 else rounded in
     let limit := math_Ceil (max * 1.2 / 1048576) * 1048576 in
     ResourceType r = "Memory"
     /\ CurrentRequest r = cur
     /\ CurrentLimit r = lim
     /\ P95Usage r = p95
     /\ MaxUsage r = max
     /\ RiskLevel r = memory_risk (coefficient_of_variation stddev avg)
     /\ RecommendedRequest r = request
     /\ RecommendedLimit r
        = (if ltb limit (request * 1.5) then request * 1.5 else limit).
Proof.
  unfold calculateMemoryRecommendation. cbv zeta.
  destruct (suppressed _ _ _ _); [discriminate|].
  intro H. inversion H. simpl. repeat split.
Qed.

Lemma cpu_floors_facts ra cur lim p50 p95 p99 max avg stddev n r :
  calculateCPURecommendation ra cur lim p50 p95 p99 max avg stddev n = Some r
  -> 10 <= RecommendedRequest r
     /\ RecommendedRequest r * 1.5 <= RecommendedLimit r.
Proof.
  unfold calculateCPURecommendation.
  destruct (cpu_tier _ p99 max) as [[limit reasoning] risk]. cbv zeta.
  destruct (suppressed _ _ _ _); [discriminate|].
  destruct (ltb (p95 * 1.15) 10) eqn:Ereq;
    [apply ltb_lt in Ereq | apply ltb_ge in Ereq];
    match goal with
    | |- context [ltb limit ?b] =>
        destruct (ltb limit b) eqn:Elim;
        [apply ltb_lt in Elim | apply ltb_ge in Elim]
    end;
    intro H; inversion H; simpl; split; lra.
Qed.

Lemma cpu_tier_risk (cv p99 max : Q) :
  let risk := snd (cpu_tier cv p99 max) in
  risk = "LOW" \/ risk = "MEDIUM" \/ risk = "HIGH".
Proof.
  unfold cpu_tier.
  destruct (ltb cv 0.3); [|destruct (ltb cv 0.6)]; simpl; auto.
Qed.

Lemma memory_risk_cases (cv : Q) :
  memory_risk cv = "LOW" \/ memory_risk cv = "MEDIUM"
  \/ memory_risk cv = "HIGH".
Proof.
  unfold memory_risk.
  destruct (ltb cv 0.3); [|destruct (ltb cv 0.6)]; auto.
Qed.

(** The two functions grade the variability alike. *)
Lemma cpu_tier_memory_risk (cv p99 max : Q) :
  snd (cpu_tier cv p99 max) = memory_risk cv.
Proof.
  unfold cpu_tier, memory_risk.
  destruct (ltb cv 0.3); [|destruct (ltb cv 0.6)]; reflexivity.
Qed.

(** X1.  Every memory recommendation emitted has a request of at least
    64 MiB and of at least [p95 * 1.1], and a limit of at least 1.5 times
    the request, hence of at least 96 MiB; its reasoning is the fixed
    text of the function. *)
Theorem memory_floors :
  forall ra cur lim p50 p95 p99 max avg stddev n r,
    calculateMemoryRecommendation ra cur lim p50 p95 p99 max avg stddev n
      = Some r ->
    64 * MiB <= RecommendedRequest r
    /\ p95 * 1.1 <= RecommendedRequest r
    /\ 1.5 * RecommendedRequest r <= RecommendedLimit r
    /\ 96 * MiB <= RecommendedLimit r
    /\ Reasoning r = "Memory recommendation with OOM prevention buffer".
Proof.
  intros ra cur lim p50 p95 p99 max avg stddev n r H.
  assert (Hreason :
    Reasoning r = "Memory recommendation with OOM prevention buffer").
  { revert H. unfold calculateMemoryRecommendation. cbv zeta.
    destruct (suppressed _ _ _ _); [discriminate|].
    intro H. inversion H. reflexivity. }
  destruct (memory_fields _ _ _ _ _ _ _ _ _ _ _ H)
    as [_ [_ [_ [_ [_ [_ [Hreq Hlim]]]]]]].
  rewrite Hlim, Hreq. clear Hlim Hreq H.
  set (rounded := math_Ceil (p95 * 1.1 / 1048576) * 1048576).
  assert (Hceil : p95 * 1.1 <= rounded)
    by (apply ceil_unit_ge; reflexivity).
  set (request :=
         if ltb rounded (64 * 1024 * 1024) then 64 * 1024 * 1024
         else rounded).
  destruct (raise_ge rounded (64 * 1024 * 1024)) as [Hmin Hge].
  fold request in Hmin, Hge.
  set (limit := math_Ceil (max * 1.2 / 1048576) * 1048576).
  destruct (raise_ge limit (request * 1.5)) as [Hfloor _].
  unfold MiB.
  repeat split; try assumption; lra.
Qed.

(** A container using 8 MiB at p95 gets the minimum request. *)
Lemma memory_floors_witness :
  exists r,
    calculateMemoryRecommendation NewRightsizingAnalyzer
      268435456 536870912 6000000 8388608 9000000 10485760
      7000000 500000 500 = Some r
    /\ 64 * MiB <= RecommendedRequest r
    /\ 96 * MiB <= RecommendedLimit r.
Proof.
  eexists. split; [reflexivity|].
  destruct (memory_floors NewRightsizingAnalyzer
              268435456 536870912 6000000 8388608 9000000 10485760
              7000000 500000 500%Z _ eq_refl) as [H1 [_ [_ [H4 _]]]].
  split; assumption.
Defined.

(** *** The confidence *)

Lemma clamp_confidence_mono (x y : Q) :
  x <= y ->
  (let c := if ltb x 0.1 then 0.1 else x in if gtb c 0.95 then 0.95 else c)
  <= (let c := if ltb y 0.1 then 0.1 else y in if gtb c 0.95 then 0.95 else c).
Proof.
  intro Hxy. cbv zeta.
  destruct (ltb x 0.1) eqn:Ex; destruct (ltb y 0.1) eqn:Ey;
    try apply ltb_lt in Ex; try apply ltb_ge in Ex;
    try apply ltb_lt in Ey; try apply ltb_ge in Ey;
    repeat match goal with
    | |- context [gtb ?a ?b] =>
        let E := fresh "E" in
        destruct (gtb a b) eqn:E;
        [apply gtb_gt in E | apply gtb_le in E]
    end; lra.
Qed.

Lemma base_confidence_bounds (n : Z) :
  math_Min (inject_Z n / 1000.0) 1.0 <= 1
  /\ ((0 <= n)%Z -> 0 <= math_Min (inject_Z n / 1000.0) 1.0)
  /\ ((n <= 700)%Z -> math_Min (inject_Z n / 1000.0) 1.0 <= 0.7).
Proof.
  assert (Hdiv : inject_Z n / 1000.0 == inject_Z n * (1 # 1000)) by field.
  unfold math_Min.
  destruct (ltb (inject_Z n / 1000.0) 1.0) eqn:E;
    [apply ltb_lt in E | apply ltb_ge in E].
  - split; [lra|]. split; intro Hn.
    + rewrite Hdiv.
      assert (inject_Z 0 <= inject_Z n) by (rewrite <- Zle_Qle; lia).
      change (inject_Z 0) with 0 in *. lra.
    + rewrite Hdiv.
      assert (inject_Z n <= inject_Z 700) by (rewrite <- Zle_Qle; lia).
      change (inject_Z 700) with 700 in *. lra.
  - split; [lra|]. split; intro Hn; [lra|].
    exfalso. rewrite Hdiv in E.
    assert (inject_Z n <= inject_Z 700) by (rewrite <- Zle_Qle; lia).
    change (inject_Z 700) with 700 in *. lra.
Qed.

Lemma variability_factor_bounds (cv : Q) :
  let v := 1.0 - cv * 0.5 in
  let v := if ltb v 0.3 then 0.3 else v in
  0.3 <= v /\ (0 <= cv -> v <= 1) /\ (0.6 <= cv -> v <= 0.7).
Proof.
  cbv zeta.
  destruct (ltb (1.0 - cv * 0.5) 0.3) eqn:E;
    [apply ltb_lt in E | apply ltb_ge in E];
    repeat split; intros; lra.
Qed.

(** X2.  More samples never lower the confidence, and for a
    non-negative sample count a higher coefficient of variation never
    raises it. *)
Theorem confidence_monotone :
  (forall (n m : Z) (cv : Q),
      (n <= m)%Z -> calculateConfidence n cv <= calculateConfidence m cv)
  /\ (forall (n : Z) (cv cw : Q),
      (0 <= n)%Z -> cv <= cw ->
      calculateConfidence n cw <= calculateConfidence n cv).
Proof.
  split.
  - intros n m cv Hnm. unfold calculateConfidence.
    apply clamp_confidence_mono.
    destruct (variability_factor_bounds cv) as [Hv _]. cbv zeta in Hv.
    apply Qmult_le_compat_r; [|lra].
    assert (Hle : inject_Z n / 1000.0 <= inject_Z m / 1000.0).
    { apply Qmult_le_compat_r; [rewrite <- Zle_Qle; exact Hnm | discriminate]. }
    unfold math_Min.
    destruct (ltb (inject_Z n / 1000.0) 1.0) eqn:En;
      [apply ltb_lt in En | apply ltb_ge in En];
      destruct (ltb (inject_Z m / 1000.0) 1.0) eqn:Em;
      [apply ltb_lt in Em | apply ltb_ge in Em | apply ltb_lt in Em
       | apply ltb_ge in Em]; lra.
  - intros n cv cw Hn Hc. unfold calculateConfidence.
    apply clamp_confidence_mono.
    destruct (base_confidence_bounds n) as [_ [Hb _]].
    specialize (Hb Hn).
    rewrite !(Qmult_comm (math_Min _ _)).
    apply Qmult_le_compat_r; [|exact Hb].
    destruct (ltb (1.0 - cw * 0.5) 0.3) eqn:Ew;
      [apply ltb_lt in Ew | apply ltb_ge in Ew];
      destruct (ltb (1.0 - cv * 0.5) 0.3) eqn:Ev;
      [apply ltb_lt in Ev | apply ltb_ge in Ev | apply ltb_lt in Ev
       | apply ltb_ge in Ev]; lra.
Qed.

Lemma confidence_monotone_witness :
  calculateConfidence 200 0.5 <= calculateConfidence 900 0.5
  /\ calculateConfidence 900 0.8 <= calculateConfidence 900 0.5.
Proof.
  split.
  - apply (proj1 confidence_monotone). lia.
  - apply (proj2 confidence_monotone); [lia | discriminate].
Defined.

Lemma confidence_at_most_07 (n : Z) (cv : Q) :
  ((n <= 700)%Z /\ 0 <= cv) \/ 0.6 <= cv ->
  calculateConfidence n cv <= 0.7.
Proof.
  intro H. unfold calculateConfidence.
  destruct (base_confidence_bounds n) as [Hb1 [Hb0 Hb7]].
  destruct (variability_factor_bounds cv) as [Hv3 [Hv1 Hv7]].
  cbv zeta in Hv3, Hv1, Hv7.
  set (b := math_Min (inject_Z n / 1000.0) 1.0) in *.
  set (v := if ltb (1.0 - cv * 0.5) 0.3 then 0.3 else 1.0 - cv * 0.5) in *.
  assert (Hprod : b * v <= 0.7).
  { destruct H as [[Hn Hcv] | Hcv].
    - specialize (Hb7 Hn). specialize (Hv1 Hcv). nra.
    - specialize (Hv7 Hcv). nra. }
  destruct (ltb (b * v) 0.1) eqn:E1;
    [apply ltb_lt in E1 | apply ltb_ge in E1];
    match goal with
    | |- context [gtb ?a ?c] =>
        destruct (gtb a c) eqn:E2;
        [apply gtb_gt in E2 | apply gtb_le in E2]
    end; lra.
Qed.

(** X3.  A summary of at most 700 samples with a non-negative
    coefficient of variation, or one with a coefficient of variation of
    0.6 or more (the HIGH tier), has a confidence of at most 0.7; both
    functions then emit a recommendation whatever the analyzer's
    threshold, the current request and the usage are. *)
Theorem uncertain_always_emitted :
  forall ra cur lim p50 p95 p99 max avg stddev n,
    let cv := coefficient_of_variation stddev avg in
    ((n <= 700)%Z /\ 0 <= cv) \/ 0.6 <= cv ->
    calculateConfidence n cv <= 0.7
    /\ (exists r,
         calculateCPURecommendation ra cur lim p50 p95 p99 max avg stddev n
         = Some r)
    /\ (exists r,
         calculateMemoryRecommendation ra cur lim p50 p95 p99 max avg
           stddev n = Some r).
Proof.
  intros ra cur lim p50 p95 p99 max avg stddev n cv H.
  pose proof (confidence_at_most_07 n cv H) as Hc.
  assert (Hnot : suppressed ra cur p95 (calculateConfidence n cv) <> true).
  { rewrite suppressed_iff. intros [_ Hgt]. lra. }
  split; [exact Hc|]. split.
  - destruct (calculateCPURecommendation ra cur lim p50 p95 p99 max avg
                stddev n) as [r|] eqn:E; [eauto|].
    apply cpu_none_iff in E. contradiction.
  - destruct (calculateMemoryRecommendation ra cur lim p50 p95 p99 max avg
                stddev n) as [r|] eqn:E; [eauto|].
    apply memory_none_iff in E. contradiction.
Qed.

(** 600 samples of a container that uses 990 of its 1000 millicores. *)
Lemma uncertain_always_emitted_witness :
  exists r,
    calculateCPURecommendation NewRightsizingAnalyzer
      1000 2000 900 990 995 999 950 10 600 = Some r.
Proof.
  apply (uncertain_always_emitted NewRightsizingAnalyzer
           1000 2000 900 990 995 999 950 10 600%Z).
  left. split; [lia | discriminate].
Defined.

(** X4.  With a current request of zero the waste is not a number of
    the usual kind: either function suppresses its recommendation
    exactly when the usage at p95 is positive and the confidence above
    0.7, whatever the threshold is. *)
Theorem zero_request_gate :
  forall ra cur lim p50 p95 p99 max avg stddev n,
    cur == 0 ->
    let confidence :=
      calculateConfidence n (coefficient_of_variation stddev avg) in
    (calculateCPURecommendation ra cur lim p50 p95 p99 max avg stddev n
     = None <-> 0 < p95 /\ 0.7 < confidence)
    /\ (calculateMemoryRecommendation ra cur lim p50 p95 p99 max avg
          stddev n = None <-> 0 < p95 /\ 0.7 < confidence).
Proof.
  intros ra cur lim p50 p95 p99 max avg stddev n Hcur confidence.
  assert (Hw : quotient_ltb (waste cur p95) (wasteThreshold ra) = true
               <-> 0 < p95).
  { unfold waste, fdiv. apply Qeq_bool_iff in Hcur as Hb. rewrite Hb.
    destruct (cur - p95 ?= 0)%Q eqn:E.
    - apply Qeq_alt in E. simpl. split; [discriminate | lra].
    - apply Qlt_alt in E. simpl. split; [lra | reflexivity].
    - apply Qgt_alt in E. simpl. split; [discriminate | lra]. }
  split.
  - rewrite cpu_none_iff, suppressed_iff, Hw. reflexivity.
  - rewrite memory_none_iff, suppressed_iff, Hw. reflexivity.
Qed.

Lemma zero_request_gate_witness :
  calculateCPURecommendation NewRightsizingAnalyzer
    0 0 700 800 900 950 750 0 1000 = None
  <-> 0 < 800 /\ 0.7 < calculateConfidence 1000 (coefficient_of_variation 0 750).
Proof.
  apply (zero_request_gate NewRightsizingAnalyzer
           0 0 700 800 900 950 750 0 1000%Z).
  reflexivity.
Defined.

End RecommendationFacts.

(* ================================================================== *)
(** ** A run over a namespace *)
(* ================================================================== *)

Section AnalyzerRunFacts.

Import Analyzer AnalyzerRun.
Local Open Scope Q_scope.
Local Open Scope string_scope.

Lemma resources_ok (db : Database) (ns pod container : string) :
  match getCurrentResources db ns pod container with
  | Ok (requests, limits) =>
      exists row,
        query_resources db ns pod container = Ok row
        /\ CPURequest requests = Api.cpu_request row
        /\ MemoryRequest requests = Api.memory_request row
        /\ CPULimit limits = Api.cpu_limit row
        /\ MemoryLimit limits = Api.memory_limit row
  | Failed msg =>
      exists e,
        query_resources db ns pod container = Failed e
        /\ msg = "getting current resources: " ++ e
  end.
Proof.
  unfold getCurrentResources.
  destruct (query_resources db ns pod container) as [row | e].
  - exists row. repeat split.
  - exists e. split; reflexivity.
Qed.

Lemma analyze_row_unusable ra db clock ns st row :
  usable db ns row = false -> analyze_row ra db clock ns st row = st.
Proof.
  unfold usable, analyze_row. destruct row as [m | e]; [|reflexivity].
  unfold getCurrentResources.
  destruct (query_resources db ns (podName m) (containerName m));
    [discriminate | reflexivity].
Qed.

Lemma analyze_row_with_rows ra db rows clock ns st row :
  analyze_row ra (with_rows db rows) clock ns st row
  = analyze_row ra db clock ns st row.
Proof. reflexivity. Qed.

Lemma fold_usable ra db clock ns (rows : list (result MetricsRow)) :
  forall st,
    fold_left (analyze_row ra db clock ns) (filter (usable db ns) rows) st
    = fold_left (analyze_row ra db clock ns) rows st.
Proof.
  induction rows as [|row rest IH]; intro st; simpl.
  - reflexivity.
  - destruct (usable db ns row) eqn:E; simpl.
    + apply IH.
    + rewrite (analyze_row_unusable _ _ _ _ _ _ E). apply IH.
Qed.

(** X6.  A run over a namespace fails only when the statistics query
    itself fails, with the message "querying metrics: ..." around the
    error of the query.  Rows that do not scan and rows of containers
    whose current resources cannot be read are passed over: the result
    is that of the run over the remaining rows, and it is empty when no
    row remains. *)
Theorem analyze_namespace_skips_rows :
  forall ra db clock ns,
    (forall msg,
        query_metrics db ns (minDataPoints ra) = Failed msg ->
        AnalyzeNamespace ra db clock ns
        = Failed ("querying metrics: " ++ msg))
    /\ (forall rows,
        query_metrics db ns (minDataPoints ra) = Ok rows ->
        (exists recs, AnalyzeNamespace ra db clock ns = Ok recs)
        /\ AnalyzeNamespace ra db clock ns
           = AnalyzeNamespace ra
               (with_rows db (filter (usable db ns) rows)) clock ns
        /\ (forallb (fun row => negb (usable db ns row)) rows = true ->
            AnalyzeNamespace ra db clock ns = Ok [])).
Proof.
  intros ra db clock ns. split.
  - intros msg H. unfold AnalyzeNamespace. rewrite H. reflexivity.
  - intros rows H. unfold AnalyzeNamespace. rewrite H. simpl.
    split; [eauto|]. split.
    + change (analyze_row ra (with_rows db (filter (usable db ns) rows)))
        with (analyze_row ra db).
      rewrite fold_usable. reflexivity.
    + intro Hall. f_equal.
      rewrite <- fold_usable.
      replace (filter (usable db ns) rows) with (@nil (result MetricsRow));
        [reflexivity|].
      clear H. induction rows as [|row rest IH]; [reflexivity|].
      simpl in Hall. apply andb_true_iff in Hall. destruct Hall as [Hr Hrest].
      simpl. destruct (usable db ns row); [discriminate | apply IH, Hrest].
Qed.

(** The example: the second and third row are passed over. *)
Lemma analyze_namespace_skips_rows_witness :
  AnalyzeNamespace NewRightsizingAnalyzer example_database example_clock "shop"
  = AnalyzeNamespace NewRightsizingAnalyzer
      (with_rows example_database [Ok (example_row "web" "app")])
      example_clock "shop"
  /\ AnalyzeNamespace NewRightsizingAnalyzer example_database example_clock
       "billing"
     = Failed "querying metrics: pq: connection refused".
Proof.
  destruct (analyze_namespace_skips_rows NewRightsizingAnalyzer
              example_database example_clock "shop") as [_ Hok].
  destruct (analyze_namespace_skips_rows NewRightsizingAnalyzer
              example_database example_clock "billing") as [Hfail _].
  split.
  - destruct (Hok _ eq_refl) as [_ [H _]]. exact H.
  - apply Hfail. reflexivity.
Defined.

(** *** What a run returns *)


Lemma stamp_cpu_sound ra db ns rows m row (clock : nat -> Z) (k : nat) r :
  In (Ok m) rows ->
  query_resources db ns (podName m) (containerName m) = Ok row ->
  calculateCPURecommendation ra (Api.cpu_request row) (Api.cpu_limit row)
    (p50CPU m) (p95CPU m) (p99CPU m) (maxCPU m) (avgCPU m) (stddevCPU m)
    (dataPoints m) = Some r ->
  sound_for db ns rows (stamp r ns (podName m) (containerName m) (clock k)).
Proof.
  intros Hin Hq H.
  destruct (cpu_fields _ _ _ _ _ _ _ _ _ _ _ H)
    as [Ht [Hc [Hl [Hp [_ [Hr _]]]]]].
  split; [reflexivity|]. split.
  - exists m, row. simpl. repeat split; try assumption. left.
    repeat split; assumption.
  - split.
    + unfold known_risk. simpl. rewrite Hr. apply cpu_tier_risk.
    + simpl. rewrite (cpu_confidence _ _ _ _ _ _ _ _ _ _ _ H).
      apply calculateConfidence_bounds.
Qed.

Lemma stamp_memory_sound ra db ns rows m row (clock : nat -> Z) (k : nat) r :
  In (Ok m) rows ->
  query_resources db ns (podName m) (containerName m) = Ok row ->
  calculateMemoryRecommendation ra
    (Api.memory_request row) (Api.memory_limit row)
    (p50Mem m) (p95Mem m) (p99Mem m) (maxMem m) (avgMem m) (stddevMem m)
    (dataPoints m) = Some r ->
  sound_for db ns rows (stamp r ns (podName m) (containerName m) (clock k)).
Proof.
  intros Hin Hq H.
  destruct (memory_fields _ _ _ _ _ _ _ _ _ _ _ H)
    as [Ht [Hc [Hl [Hp [_ [Hr _]]]]]].
  split; [reflexivity|]. split.
  - exists m, row. simpl. repeat split; try assumption. right.
    repeat split; assumption.
  - split.
    + unfold known_risk. simpl. rewrite Hr. apply memory_risk_cases.
    + simpl. rewrite (memory_confidence _ _ _ _ _ _ _ _ _ _ _ H).
      apply calculateConfidence_bounds.
Qed.


Lemma emit_invariant db ns rows clock pod container st rec :
  run_invariant db ns rows clock st ->
  (forall r, rec = Some r ->
     sound_for db ns rows (stamp r ns pod container (clock (snd st)))) ->
  run_invariant db ns rows clock (emit clock ns pod container st rec)
  /\ (length (fst (emit clock ns pod container st rec))
      <= S (length (fst st)))%nat.
Proof.
  intros [Hn [Hall Ht]] Hsound.
  destruct rec as [r|]; simpl; [|split; [repeat split; assumption | lia]].
  split; [|rewrite length_app; simpl; lia].
  unfold run_invariant. simpl.
  rewrite length_app. simpl. split; [lia|]. split.
  - apply Forall_app. split; [exact Hall|].
    constructor; [apply Hsound; reflexivity | constructor].
  - rewrite map_app, Ht. simpl.
    rewrite Nat.add_1_r, seq_S, map_app. simpl. rewrite Hn. reflexivity.
Qed.

Lemma analyze_row_invariant ra db ns rows clock st row :
  In row rows ->
  run_invariant db ns rows clock st ->
  run_invariant db ns rows clock (analyze_row ra db clock ns st row)
  /\ (length (fst (analyze_row ra db clock ns st row))
      <= 2 + length (fst st))%nat.
Proof.
  intros Hin Hinv. unfold analyze_row.
  destruct row as [m | e]; [|split; [exact Hinv | lia]].
  pose proof (resources_ok db ns (podName m) (containerName m)) as Hres.
  destruct (getCurrentResources db ns (podName m) (containerName m))
    as [[requests limits] | msg]; [|split; [exact Hinv | lia]].
  destruct Hres as [row [Hq [H1 [H2 [H3 H4]]]]].
  rewrite H1, H2, H3, H4. cbv zeta.
  match goal with
  | |- context [emit clock ns _ _ (emit clock ns ?p ?c st ?rec) _] =>
      destruct (emit_invariant db ns rows clock p c st rec Hinv)
        as [Hinv1 Hlen1]
  end.
  { intros r Hr. eapply stamp_cpu_sound; eassumption. }
  match goal with
  | |- context [emit clock ns ?p ?c ?st1 ?rec] =>
      destruct (emit_invariant db ns rows clock p c st1 rec Hinv1)
        as [Hinv2 Hlen2]
  end.
  { intros r Hr. eapply stamp_memory_sound; eassumption. }
  split; [exact Hinv2 | lia].
Qed.

Lemma run_loop_invariant ra db ns rows clock (l : list (result MetricsRow)) :
  forall st,
    incl l rows ->
    run_invariant db ns rows clock st ->
    run_invariant db ns rows clock
      (fold_left (analyze_row ra db clock ns) l st)
    /\ (length (fst (fold_left (analyze_row ra db clock ns) l st))
        <= 2 * length l + length (fst st))%nat.
Proof.
  induction l as [|row rest IH]; intros st Hincl Hinv; simpl.
  - split; [exact Hinv | lia].
  - destruct (analyze_row_invariant ra db ns rows clock st row)
      as [Hinv1 Hlen1]; [apply Hincl; left; reflexivity | exact Hinv |].
    destruct (IH (analyze_row ra db clock ns st row)) as [Hinv2 Hlen2];
      [intros x Hx; apply Hincl; right; exact Hx | exact Hinv1 |].
    split; [exact Hinv2 | lia].
Qed.

(** The facts about a run that the summary relies on. *)
Lemma analyze_namespace_run_facts ra db clock ns rows recs :
  query_metrics db ns (minDataPoints ra) = Ok rows ->
  AnalyzeNamespace ra db clock ns = Ok recs ->
  Forall (sound_for db ns rows) recs
  /\ (length recs <= 2 * length rows)%nat.
Proof.
  intros Hq H.
  unfold AnalyzeNamespace in H. rewrite Hq in H. inversion H; clear H.
  destruct (run_loop_invariant ra db ns rows clock rows ([], O))
    as [[_ [Hall _]] Hlen].
  - apply incl_refl.
  - repeat split; constructor.
  - split; [exact Hall | simpl in Hlen; lia].
Qed.

(** X7.  Every recommendation a run returns is in the namespace asked
    for, names the container of a row that scanned and holds the request
    and the limit of its resource kind as read from the container's row
    of current resources, has one of the three risk levels and a
    confidence in [[0.1, 0.95]].  There are at most two recommendations
    for each row, and the clock is read once for each, in their order. *)
Theorem analyze_namespace_sound :
  forall ra db clock ns rows recs,
    query_metrics db ns (minDataPoints ra) = Ok rows ->
    AnalyzeNamespace ra db clock ns = Ok recs ->
    Forall (fun r =>
              Namespace r = ns
              /\ from_row db ns rows r
              /\ known_risk r
              /\ 0.1 <= Confidence r <= 0.95) recs
    /\ (length recs <= 2 * length rows)%nat
    /\ map LastUpdated recs = map clock (seq 0 (length recs)).
Proof.
  intros ra db clock ns rows recs Hq H.
  unfold AnalyzeNamespace in H. rewrite Hq in H. inversion H; clear H.
  destruct (run_loop_invariant ra db ns rows clock rows ([], O))
    as [[_ [Hall Ht]] Hlen].
  - apply incl_refl.
  - repeat split; constructor.
  - split; [exact Hall|]. split; [simpl in Hlen; lia | exact Ht].
Qed.

(** The example returns a CPU and a memory recommendation for the first
    row, stamped with the first two readings of the clock. *)
Lemma analyze_namespace_sound_witness :
  exists cpu mem,
    AnalyzeNamespace NewRightsizingAnalyzer example_database example_clock
      "shop" = Ok [cpu; mem]
    /\ Namespace cpu = "shop" /\ PodName cpu = "web"
    /\ ResourceType cpu = "CPU" /\ ResourceType mem = "Memory"
    /\ CurrentRequest cpu = 400 /\ CurrentLimit cpu = 800
    /\ map LastUpdated [cpu; mem] = [example_clock 0; example_clock 1]
    /\ 0.1 <= Confidence mem <= 0.95.
Proof.
  do 2 eexists. split; [reflexivity|].
  destruct (analyze_namespace_sound NewRightsizingAnalyzer example_database
              example_clock "shop" _ _ eq_refl eq_refl) as [Hall [_ Ht]].
  inversion Hall as [|? ? _ Hmem]. inversion Hmem as [|? ? [_ [_ [_ Hc]]] _].
  repeat split; try reflexivity; try exact Ht; apply Hc.
Defined.

(** *** The summary *)

Lemma incr_small (n : Z) :
  (0 <= n < Resilience.max_int)%Z -> incr n = (n + 1)%Z.
Proof.
  intro H. unfold incr. apply wrap64_in_range.
  unfold Resilience.max_int in *. lia.
Qed.

(** The three sums of the loop, each over the recommendations it is
    added to. *)
Lemma count_sums (recs : list Recommendation) :
  forall t,
    let t' := fold_left count recs t in
    totalSavings t'
    = fold_left (fun total rec => total + PotentialSavings rec) recs
        (totalSavings t)
    /\ cpuSavings t'
       = fold_left (fun total rec => total + PotentialSavings rec)
           (filter is_cpu recs) (cpuSavings t)
    /\ memorySavings t'
       = fold_left (fun total rec => total + PotentialSavings rec)
           (filter (fun rec => negb (is_cpu rec)) recs) (memorySavings t).
Proof.
  induction recs as [|r rest IH]; intro t.
  - repeat split.
  - cbn [fold_left filter]. destruct (IH (count t r)) as [Ht [Hc Hm]].
    cbv zeta. rewrite Ht, Hc, Hm. unfold count, is_cpu.
    cbn [totalSavings cpuSavings memorySavings].
    destruct (String.eqb (ResourceType r) "CPU"); repeat split.
Qed.

(** The six counters after [k] recommendations. *)
Lemma count_buckets (recs : list Recommendation) :
  forall t k,
    Forall known_risk recs ->
    (k + Z.of_nat (length recs) <= Resilience.max_int)%Z ->
    (0 <= highConfidenceCount t /\ 0 <= mediumConfidenceCount t
     /\ 0 <= lowConfidenceCount t
     /\ highConfidenceCount t + mediumConfidenceCount t
        + lowConfidenceCount t = k)%Z ->
    (0 <= highRiskCount t /\ 0 <= mediumRiskCount t /\ 0 <= lowRiskCount t
     /\ highRiskCount t + mediumRiskCount t + lowRiskCount t = k)%Z ->
    let t' := fold_left count recs t in
    (highConfidenceCount t' + mediumConfidenceCount t'
     + lowConfidenceCount t' = k + Z.of_nat (length recs)
     /\ highRiskCount t' + mediumRiskCount t' + lowRiskCount t'
        = k + Z.of_nat (length recs))%Z.
Proof.
  induction recs as [|r rest IH]; intros t k Hrisk Hmax Hc Hr.
  - simpl. split; lia.
  - cbn [fold_left length] in *. rewrite Nat2Z.inj_succ in *.
    inversion Hrisk as [|? ? Hk Hrest]; subst.
    replace (k + Z.succ (Z.of_nat (length rest)))%Z
      with ((k + 1) + Z.of_nat (length rest))%Z by lia.
    apply IH; try assumption; try lia.
    + unfold count. cbn [highConfidenceCount mediumConfidenceCount
                          lowConfidenceCount].
      destruct (Qle_bool 0.8 (Confidence r));
        [|destruct (Qle_bool 0.6 (Confidence r))];
        rewrite incr_small by lia; lia.
    + unfold count. cbn [highRiskCount mediumRiskCount lowRiskCount].
      destruct Hk as [Hk | [Hk | Hk]]; rewrite Hk;
        cbv beta iota delta [String.eqb Ascii.eqb Bool.eqb];
        rewrite incr_small by lia; lia.
Qed.

(** X8.  [GetOptimizationSummary] fails exactly as the run it starts
    with does.  Otherwise, for a statistics query of at most 2^62 rows,
    the total savings are those of all recommendations added up in the
    order of the run, the CPU savings those of the CPU recommendations
    and the memory savings those of the others, the annual savings are
    the total times 12, and both the three confidence buckets and the
    three risk buckets add up to the number of recommendations. *)
Theorem optimization_summary_adds_up :
  forall ra db clock ns,
    (forall msg,
        query_metrics db ns (minDataPoints ra) = Failed msg ->
        GetOptimizationSummary ra db clock ns
        = Failed ("querying metrics: " ++ msg))
    /\ (forall rows,
        query_metrics db ns (minDataPoints ra) = Ok rows ->
        (2 * Z.of_nat (length rows) <= Resilience.max_int)%Z ->
        exists recs s,
          AnalyzeNamespace ra db clock ns = Ok recs
          /\ GetOptimizationSummary ra db clock ns = Ok s
          /\ total_recommendations s = Z.of_nat (length recs)
          /\ total_savings s = sum_savings recs
          /\ cpu_savings s = sum_savings (filter is_cpu recs)
          /\ memory_savings s
             = sum_savings (filter (fun rec => negb (is_cpu rec)) recs)
          /\ annual_savings s = total_savings s * 12
          /\ (confidence_high s + confidence_medium s + confidence_low s
              = total_recommendations s)%Z
          /\ (risk_low s + risk_medium s + risk_high s
              = total_recommendations s)%Z).
Proof.
  intros ra db clock ns. split.
  - intros msg H. unfold GetOptimizationSummary, AnalyzeNamespace.
    rewrite H. reflexivity.
  - intros rows Hq Hmax.
    destruct (AnalyzeNamespace ra db clock ns) as [recs | msg] eqn:E.
    2:{ unfold AnalyzeNamespace in E. rewrite Hq in E. discriminate. }
    destruct (analyze_namespace_run_facts ra db clock ns rows recs Hq E)
      as [Hall Hlen].
    exists recs, (summarize recs).
    unfold GetOptimizationSummary. rewrite E.
    split; [reflexivity|]. split; [reflexivity|]. split; [reflexivity|].
    destruct (count_sums recs empty_tally) as [Ht [Hc Hm]].
    unfold summarize, sum_savings.
    cbn [total_savings cpu_savings memory_savings annual_savings
         confidence_high confidence_medium confidence_low
         risk_low risk_medium risk_high total_recommendations].
    split; [exact Ht|]. split; [exact Hc|]. split; [exact Hm|].
    split; [reflexivity|].
    destruct (count_buckets recs empty_tally 0%Z) as [Hcb Hr].
    + eapply Forall_impl; [|exact Hall]. intros r Hr. apply Hr.
    + lia.
    + simpl. lia.
    + simpl. lia.
    + split; lia.
Qed.

(** The example has one usable row and two recommendations, one of
    them for the CPU. *)
Lemma optimization_summary_adds_up_witness :
  exists s,
    GetOptimizationSummary NewRightsizingAnalyzer example_database
      example_clock "shop" = Ok s
    /\ total_recommendations s = 2%Z
    /\ (risk_low s + risk_medium s + risk_high s = 2)%Z
    /\ annual_savings s = total_savings s * 12
    /\ GetOptimizationSummary NewRightsizingAnalyzer example_database
         example_clock "billing"
       = Failed "querying metrics: pq: connection refused".
Proof.
  destruct (optimization_summary_adds_up NewRightsizingAnalyzer
              example_database example_clock "shop") as [_ Hok].
  destruct (optimization_summary_adds_up NewRightsizingAnalyzer
              example_database example_clock "billing") as [Hfail _].
  destruct (Hok _ eq_refl)
    as [recs [s [Hrecs [Hs [Hn [_ [_ [_ [Ha [_ Hr]]]]]]]]]].
  { vm_compute. discriminate. }
  exists s. vm_compute in Hrecs. inversion Hrecs; subst recs.
  simpl in Hn. rewrite Hn in Hr.
  split; [exact Hs|]. split; [exact Hn|]. split; [exact Hr|].
  split; [exact Ha|]. apply Hfail. reflexivity.
Defined.
End AnalyzerRunFacts.

(* ================================================================== *)
(** ** The handlers of the recommendations *)
(* ================================================================== *)

Section HandlerFacts.

Import AnalyzerRun Handlers.
Local Open Scope Q_scope.
Local Open Scope string_scope.

(** *** Grouping by pod *)

Lemma lookup_assign (m : pod_map) (key k : string)
    (value : list Analyzer.Recommendation) :
  lookup (assign m key value) k
  = if String.eqb key k then value else lookup m k.
Proof.
  induction m as [|[k0 v0] rest IH]; simpl.
  - reflexivity.
  - destruct (String.eqb k0 key) eqn:E; simpl.
    + apply String.eqb_eq in E. subst k0.
      destruct (String.eqb key k); reflexivity.
    + rewrite IH. destruct (String.eqb k0 k) eqn:E0; [|reflexivity].
      apply String.eqb_eq in E0. subst k0.
      rewrite String.eqb_sym, E. reflexivity.
Qed.

Lemma assign_keys (m : pod_map) (key : string)
    (value : list Analyzer.Recommendation) :
  map fst (assign m key value)
  = if existsb (String.eqb key) (map fst m) then map fst m
    else (map fst m ++ [key])%list.
Proof.
  induction m as [|[k0 v0] rest IH]; simpl.
  - reflexivity.
  - rewrite (String.eqb_sym key k0).
    destruct (String.eqb k0 key) eqn:E; simpl.
    + reflexivity.
    + rewrite IH. destruct (existsb (String.eqb key) (map fst rest));
        reflexivity.
Qed.

Lemma assign_NoDup (m : pod_map) (key : string)
    (value : list Analyzer.Recommendation) :
  NoDup (map fst m) -> NoDup (map fst (assign m key value)).
Proof.
  intro H. rewrite assign_keys.
  destruct (existsb (String.eqb key) (map fst m)) eqn:E; [exact H|].
  apply NoDup_app; [exact H | repeat constructor; intros [] |].
  intros x Hx [Hk | []]. subst x.
  assert (Ht : existsb (String.eqb key) (map fst m) = true).
  { apply existsb_exists. exists key. split; [exact Hx|].
    apply String.eqb_refl. }
  congruence.
Qed.

Lemma assign_In (m : pod_map) (key k : string)
    (value : list Analyzer.Recommendation) :
  In k (map fst (assign m key value)) <-> In k (map fst m) \/ k = key.
Proof.
  rewrite assign_keys.
  destruct (existsb (String.eqb key) (map fst m)) eqn:E.
  - apply existsb_exists in E. destruct E as [x [Hx Hk]].
    apply String.eqb_eq in Hk. subst x.
    split; [auto | intros [H | H]; [exact H | subst; exact Hx]].
  - rewrite in_app_iff. simpl. split; intros [H | H]; auto.
    + destruct H as [H | []]. auto.
Qed.

(** The loop of [group_by_pod], started from any map and sum. *)
Lemma grouping_loop (recs : list Analyzer.Recommendation) :
  forall (m : pod_map) (total : Q),
    NoDup (map fst m) ->
    let result :=
      fold_left
        (fun '(podRecommendations, totalSavings) rec =>
           (assign podRecommendations (Analyzer.PodName rec)
              (lookup podRecommendations (Analyzer.PodName rec) ++ [rec])%list,
            totalSavings + Analyzer.PotentialSavings rec))
        recs (m, total) in
    (forall pod,
        lookup (fst result) pod
        = (lookup m pod
           ++ filter (fun r => String.eqb (Analyzer.PodName r) pod) recs)%list)
    /\ NoDup (map fst (fst result))
    /\ (forall pod,
        In pod (map fst (fst result))
        <-> In pod (map fst m)
            \/ exists r, In r recs /\ Analyzer.PodName r = pod)
    /\ snd result
       == total
          + fold_right (fun r sum => Analyzer.PotentialSavings r + sum) 0 recs.
Proof.
  induction recs as [|r rest IH]; intros m total Hnd; cbn [fold_left].
  - cbn [fst snd filter fold_right].
    split; [intro pod; rewrite app_nil_r; reflexivity|].
    split; [exact Hnd|]. split; [|lra].
    intro pod. split; [auto | intros [H | [x [[] _]]]; exact H].
  - set (m1 := assign m (Analyzer.PodName r)
                 (lookup m (Analyzer.PodName r) ++ [r])%list).
    destruct (IH m1 (total + Analyzer.PotentialSavings r))
      as [Hlook [Hnd1 [Hkeys Hsum]]].
    { apply assign_NoDup, Hnd. }
    split; [|split; [exact Hnd1 | split]].
    + intro pod. rewrite Hlook. unfold m1. rewrite lookup_assign.
      cbn [filter].
      destruct (String.eqb (Analyzer.PodName r) pod) eqn:E.
      * apply String.eqb_eq in E. subst pod.
        rewrite <- app_assoc. reflexivity.
      * reflexivity.
    + intro pod. rewrite Hkeys. unfold m1. rewrite assign_In.
      split.
      * intros [[H | H] | [x [Hx Hp]]].
        -- left. exact H.
        -- right. exists r. split; [left; reflexivity | congruence].
        -- right. exists x. split; [right; exact Hx | exact Hp].
      * intros [H | [x [[Hx | Hx] Hp]]].
        -- left. left. exact H.
        -- subst x. left. right. congruence.
        -- right. exists x. split; assumption.
    + rewrite Hsum. cbn [fold_right]. lra.
Qed.

(** X10.  [GetRecommendations] answers 500 "Analysis failed" when the
    run fails.  Otherwise the map of its answer holds, for each pod, the
    recommendations of that pod in the order of the run, with one entry
    for each pod that has a recommendation and none for other pods; the
    total savings are the sum over all recommendations, the annual
    savings 12 times that, and there is one patch for each
    recommendation. *)
Theorem get_recommendations_groups :
  forall ra db clock ns,
    match AnalyzeNamespace ra db clock ns with
    | Failed _ =>
        GetRecommendations ra db clock ns
        = HttpError 500 "Analysis failed"
    | Ok recs =>
        exists body,
          GetRecommendations ra db clock ns = Json body
          /\ namespace body = ns
          /\ (forall pod,
              lookup (recommendations body) pod
              = filter (fun r => String.eqb (Analyzer.PodName r) pod) recs)
          /\ NoDup (map fst (recommendations body))
          /\ (forall pod,
              In pod (map fst (recommendations body))
              <-> exists r, In r recs /\ Analyzer.PodName r = pod)
          /\ total_savings body
             == fold_right
                  (fun r sum => Analyzer.PotentialSavings r + sum) 0 recs
          /\ annual_savings body == 12 * total_savings body
          /\ length (patches body) = length recs
          /\ patches body = map patch_of recs
    end.
Proof.
  intros ra db clock ns. unfold GetRecommendations.
  destruct (AnalyzeNamespace ra db clock ns) as [recs | msg];
    [|reflexivity].
  pose proof (grouping_loop recs [] 0.0 (NoDup_nil _)) as Hloop.
  cbv zeta in Hloop.
  change (fold_left _ recs ([], 0.0)) with (group_by_pod recs) in Hloop.
  destruct (group_by_pod recs) as [m total].
  destruct Hloop as [Hlook [Hnd [Hkeys Hsum]]].
  cbn [fst snd] in *.
  assert (Hp : generateResourcePatches recs = map patch_of recs).
  { unfold generateResourcePatches.
    assert (Hgen : forall l acc,
      fold_left (fun patches rec => (patches ++ [patch_of rec])%list) l acc
      = (acc ++ map patch_of l)%list).
    { induction l as [|x l IH]; intro acc; simpl.
      - rewrite app_nil_r. reflexivity.
      - rewrite IH, <- app_assoc. reflexivity. }
    apply Hgen. }
  eexists. split; [reflexivity|]. cbn.
  split; [reflexivity|].
  split; [intro pod; apply Hlook|].
  split; [exact Hnd|]. split.
  { intro pod. rewrite Hkeys. simpl. split.
    - intros [[] | H]; exact H.
    - auto. }
  split; [rewrite Hsum; lra|]. split; [ring|].
  rewrite Hp. split; [apply length_map | reflexivity].
Qed.

Lemma get_recommendations_groups_witness :
  exists body,
    GetRecommendations Analyzer.NewRightsizingAnalyzer example_database
      example_clock "shop" = Json body
    /\ length (lookup (recommendations body) "web") = 2%nat
    /\ lookup (recommendations body) "db" = []
    /\ GetRecommendations Analyzer.NewRightsizingAnalyzer example_database
         example_clock "billing" = HttpError 500 "Analysis failed".
Proof.
  pose proof (get_recommendations_groups Analyzer.NewRightsizingAnalyzer
                example_database example_clock "shop") as H.
  pose proof (get_recommendations_groups Analyzer.NewRightsizingAnalyzer
                example_database example_clock "billing") as Hf.
  change (AnalyzeNamespace Analyzer.NewRightsizingAnalyzer example_database
            example_clock "billing")
    with (@Failed (list Analyzer.Recommendation)
            "querying metrics: pq: connection refused") in Hf.
  destruct (AnalyzeNamespace Analyzer.NewRightsizingAnalyzer
              example_database example_clock "shop") as [recs | msg] eqn:E;
    [|discriminate E].
  destruct H as [body [Hb [_ [Hlook _]]]].
  exists body. split; [exact Hb|].
  rewrite !Hlook. inversion E. subst recs.
  split; [reflexivity|]. split; [reflexivity | exact Hf].
Defined.

(** *** The quantities written into a patch *)

Lemma int_of_float_floor (x : Q) : 0 <= x -> int_of_float x = Qfloor x.
Proof.
  intro H. unfold int_of_float.
  apply Qle_bool_iff in H. rewrite H. reflexivity.
Qed.

Lemma int_of_float_bounds (x : Q) :
  0 <= x -> inject_Z (int_of_float x) <= x < inject_Z (int_of_float x) + 1.
Proof.
  intro H. rewrite (int_of_float_floor x H). split.
  - apply Qfloor_le.
  - pose proof (Qlt_floor x) as Hlt.
    rewrite inject_Z_plus in Hlt. exact Hlt.
Qed.

Lemma int_of_float_mono (x y : Q) :
  0 <= x -> x <= y -> (int_of_float x <= int_of_float y)%Z.
Proof.
  intros Hx Hxy.
  rewrite (int_of_float_floor x Hx), (int_of_float_floor y) by lra.
  apply Qfloor_resp_le. exact Hxy.
Qed.

Lemma int_of_float_whole (x : Q) (k : Z) :
  (0 <= k)%Z -> x == inject_Z k -> int_of_float x = k.
Proof.
  intros Hk Hx.
  assert (H0 : 0 <= x).
  { rewrite Hx. change 0 with (inject_Z 0). rewrite <- Zle_Qle. exact Hk. }
  rewrite (int_of_float_floor x H0), (Qfloor_comp _ _ Hx).
  apply Qfloor_Z.
Qed.

Lemma format_quantity (resourceType : string) (value : Q) :
  formatResourceValue resourceType value
  = Sprintf_d (quantity resourceType value) ++ unit_of resourceType.
Proof.
  unfold formatResourceValue, quantity, unit_of.
  destruct (String.eqb resourceType "CPU"); reflexivity.
Qed.

Lemma per_MiB (k : Q) : k * 1048576 / 1024 / 1024 == k.
Proof. field. Qed.

(** X12.  The request of an emitted memory recommendation is written
    into its patch exactly, as the whole number of MiB it is, at least
    "64Mi".  The limit is written as whole MiB with the fraction
    dropped: never more than the recommended limit, never less than the
    request, and still at least 1.2 times the highest usage observed. *)
Theorem memory_patch_quantities :
  forall ra cur lim p50 p95 p99 max avg stddev n r,
    Analyzer.calculateMemoryRecommendation ra cur lim p50 p95 p99 max avg
      stddev n = Some r ->
    let request :=
      quantity (Analyzer.ResourceType r) (Analyzer.RecommendedRequest r) in
    let limit :=
      quantity (Analyzer.ResourceType r) (Analyzer.RecommendedLimit r) in
    formatResourceValue (Analyzer.ResourceType r)
      (Analyzer.RecommendedRequest r) = Sprintf_d request ++ "Mi"
    /\ formatResourceValue (Analyzer.ResourceType r)
         (Analyzer.RecommendedLimit r) = Sprintf_d limit ++ "Mi"
    /\ inject_Z request * Analyzer.MiB == Analyzer.RecommendedRequest r
    /\ (64 <= request <= limit)%Z
    /\ max * 1.2 <= inject_Z limit * Analyzer.MiB
    /\ inject_Z limit * Analyzer.MiB <= Analyzer.RecommendedLimit r.
Proof.
  intros ra cur lim p50 p95 p99 max avg stddev n r H request limit.
  destruct (memory_fields _ _ _ _ _ _ _ _ _ _ _ H)
    as [Ht [_ [_ [_ [_ [_ [Hreq Hlim]]]]]]].
  unfold request, limit. rewrite !format_quantity.
  unfold quantity, unit_of. rewrite Ht. cbn [String.eqb Ascii.eqb Bool.eqb].
  split; [reflexivity|]. split; [reflexivity|].
  rewrite Hlim, Hreq. clear Hlim Hreq H request limit.
  unfold Analyzer.MiB, math_Ceil.
  set (c := Qceiling (p95 * 1.1 / 1048576)).
  set (cl := Qceiling (max * 1.2 / 1048576)).
  assert (Hcl : max * 1.2 <= inject_Z cl * 1048576).
  { apply (ceil_unit_ge (max * 1.2) 1048576). reflexivity. }
  (* the request is k MiB for an integer k >= 64 *)
  assert (Hk : exists k : Z,
    (64 <= k)%Z
    /\ (if ltb (inject_Z c * 1048576) (64 * 1024 * 1024)
        then 64 * 1024 * 1024 else inject_Z c * 1048576)
       == inject_Z k * 1048576).
  { destruct (ltb (inject_Z c * 1048576) (64 * 1024 * 1024)) eqn:E.
    - exists 64%Z. split; [lia | reflexivity].
    - apply ltb_ge in E. exists c. split; [|reflexivity].
      assert (Hc : inject_Z 64 <= inject_Z c).
      { change (inject_Z 64) with 64. lra. }
      rewrite <- Zle_Qle in Hc. exact Hc. }
  set (request :=
         if ltb (inject_Z c * 1048576) (64 * 1024 * 1024)
         then 64 * 1024 * 1024 else inject_Z c * 1048576) in *.
  destruct Hk as [k [Hk64 Hrk]].
  assert (Hk0 : 0 <= inject_Z k).
  { change 0 with (inject_Z 0). rewrite <- Zle_Qle. lia. }
  assert (Hq : int_of_float (request / 1024 / 1024) = k).
  { apply int_of_float_whole; [lia|]. rewrite Hrk. apply per_MiB. }
  rewrite Hq.
  split; [symmetry; exact Hrk|].
  destruct (ltb (inject_Z cl * 1048576) (request * 1.5)) eqn:E;
    [apply ltb_lt in E | apply ltb_ge in E].
  - (* the floor applies: the limit is 1.5 k MiB *)
    assert (Hv : request * 1.5 / 1024 / 1024 == inject_Z k * 1.5).
    { rewrite Hrk. field. }
    assert (H0 : 0 <= request * 1.5 / 1024 / 1024) by (rewrite Hv; lra).
    destruct (int_of_float_bounds _ H0) as [Hle Hlt].
    set (ql := int_of_float (request * 1.5 / 1024 / 1024)) in *.
    assert (Hkq : (k <= ql)%Z).
    { unfold ql. rewrite <- (int_of_float_whole (inject_Z k) k) at 1;
        [|lia | reflexivity].
      apply int_of_float_mono; [exact Hk0 | rewrite Hv; lra]. }
    assert (Hclq : (cl <= ql)%Z).
    { unfold ql. rewrite (int_of_float_floor _ H0).
      rewrite <- (Qfloor_Z cl). apply Qfloor_resp_le.
      rewrite Hv. rewrite Hrk in E. lra. }
    rewrite Zle_Qle in Hclq.
    split; [lia|]. split; [lra|].
    rewrite Hv in Hle. rewrite Hrk. lra.
  - (* the rounded limit stands *)
    assert (Hq' : int_of_float (inject_Z cl * 1048576 / 1024 / 1024) = cl).
    { assert (Hcl0 : inject_Z k * 1.5 <= inject_Z cl).
      { rewrite Hrk in E. lra. }
      apply int_of_float_whole; [|apply per_MiB].
      assert (Hz : inject_Z 0 <= inject_Z cl)
        by (change (inject_Z 0) with 0; lra).
      rewrite <- Zle_Qle in Hz. exact Hz. }
    rewrite Hq'.
    assert (Hkc : inject_Z k <= inject_Z cl).
    { rewrite Hrk in E. lra. }
    rewrite <- Zle_Qle in Hkc.
    split; [lia|]. split; [exact Hcl | lra].
Qed.

(** The container whose limit becomes 103.5 MiB: the patch says 103Mi,
    above the 88080384 bytes that are 1.2 times its peak. *)
Lemma memory_patch_quantities_witness :
  exists r,
    Analyzer.calculateMemoryRecommendation Analyzer.NewRightsizingAnalyzer
      268435456 536870912 50000000 65011712 70000000 73400320
      60000000 3000000 500 = Some r
    /\ formatResourceValue "Memory" (Analyzer.RecommendedRequest r) = "69Mi"
    /\ formatResourceValue "Memory" (Analyzer.RecommendedLimit r) = "103Mi"
    /\ 73400320 * 1.2
       <= inject_Z (quantity "Memory" (Analyzer.RecommendedLimit r))
          * Analyzer.MiB.
Proof.
  eexists. split; [reflexivity|].
  destruct (memory_patch_quantities Analyzer.NewRightsizingAnalyzer
              268435456 536870912 50000000 65011712 70000000 73400320
              60000000 3000000 500%Z _ eq_refl)
    as [_ [_ [_ [_ [H _]]]]].
  split; [reflexivity|]. split; [reflexivity | exact H].
Defined.

End HandlerFacts.

Section ApplyUsageFacts.

Import AnalyzerRun Handlers.
Local Open Scope Q_scope.
Local Open Scope string_scope.

Lemma matches_fields (request : ApplyHandler.ApplyRequest)
    (rec : Analyzer.Recommendation) :
  ApplyHandler.matches request rec = true ->
  Analyzer.PodName rec = ApplyHandler.PodName request
  /\ Analyzer.ContainerName rec = ApplyHandler.ContainerName request
  /\ Analyzer.ResourceType rec = ApplyHandler.ResourceType request.
Proof.
  unfold ApplyHandler.matches. rewrite !andb_true_iff.
  intros [[H1 H2] H3]. repeat split; apply String.eqb_eq; assumption.
Qed.

(** X13.  [ApplyRecommendation] answers "success" and asks for a row of
    [recommendation_actions] to be inserted only for a container and
    resource type for which a new run over the namespace emits a
    recommendation: the resource type is "CPU" or "Memory", and the
    container has a scanned row of statistics and a row of current
    resources.  It answers 500 when the run fails and 404 when the run
    has no recommendation of that pod, container and resource type, and
    in both cases asks for no insertion. *)
Theorem apply_needs_recommendation :
  forall ra db clock now request,
    let ns := ApplyHandler.Namespace request in
    match ApplyHandler.ApplyRecommendation ra db clock now request with
    | (Json body, inserted) =>
        ApplyHandler.status body = "success"
        /\ ApplyHandler.action body = ApplyHandler.Action request
        /\ (exists row,
             inserted = Some row
             /\ ApplyHandler.row_pod row = ApplyHandler.PodName request
             /\ ApplyHandler.row_action row = ApplyHandler.Action request
             /\ ApplyHandler.applied_at row = now)
        /\ (ApplyHandler.ResourceType request = "CPU"
            \/ ApplyHandler.ResourceType request = "Memory")
        /\ (exists rows m resources,
             query_metrics db ns (Analyzer.minDataPoints ra) = Ok rows
             /\ In (Ok m) rows
             /\ podName m = ApplyHandler.PodName request
             /\ containerName m = ApplyHandler.ContainerName request
             /\ query_resources db ns (podName m) (containerName m)
                = Ok resources)
    | (HttpError code text, inserted) =>
        inserted = None
        /\ ((code = 500%Z /\ text = "Failed to get recommendations"
             /\ exists e,
                 query_metrics db ns (Analyzer.minDataPoints ra) = Failed e)
            \/ (code = 404%Z /\ text = "Recommendation not found"
                /\ exists recs,
                    AnalyzeNamespace ra db clock ns = Ok recs
                    /\ Forall (fun r => ApplyHandler.matches request r = false)
                         recs))
    end.
Proof.
  intros ra db clock now request ns.
  unfold ApplyHandler.ApplyRecommendation. fold ns.
  destruct (AnalyzeNamespace ra db clock ns) as [recs | msg] eqn:E.
  - destruct (find (ApplyHandler.matches request) recs) as [r|] eqn:F.
    + apply find_some in F. destruct F as [Hin Hm].
      apply matches_fields in Hm. destruct Hm as [Hp [Hc Ht]].
      unfold AnalyzeNamespace in E.
      destruct (query_metrics db ns (Analyzer.minDataPoints ra))
        as [rows | e] eqn:Hq; [|discriminate].
      destruct (analyze_namespace_run_facts ra db clock ns rows recs Hq)
        as [Hall _].
      { unfold AnalyzeNamespace. rewrite Hq. exact E. }
      rewrite Forall_forall in Hall.
      destruct (Hall r Hin) as [_ [[m [res [Hm [Hres [Hpn [Hcn Hkind]]]]]] _]].
      split; [reflexivity|]. split; [reflexivity|].
      split; [eexists; repeat split|].
      split.
      * rewrite <- Ht.
        destruct Hkind as [[Hk _] | [Hk _]]; [left | right]; exact Hk.
      * exists rows, m, res. repeat split; try assumption; congruence.
    + split; [reflexivity|]. right.
      split; [reflexivity|]. split; [reflexivity|].
      exists recs. split; [reflexivity|].
      apply Forall_forall. intros r Hr.
      apply (find_none _ _ F r Hr).
  - split; [reflexivity|]. left.
    split; [reflexivity|]. split; [reflexivity|].
    unfold AnalyzeNamespace in E.
    destruct (query_metrics db ns (Analyzer.minDataPoints ra)) as [rows | e];
      [discriminate | eauto].
Qed.

(** In the example the CPU recommendation of web/app can be applied;
    asked for as "cpu" it is not found. *)
Lemma apply_needs_recommendation_witness :
  (exists body row,
     ApplyHandler.ApplyRecommendation Analyzer.NewRightsizingAnalyzer
       example_database example_clock 42 (ApplyHandler.example_apply "CPU")
     = (Json body, Some row)
     /\ ApplyHandler.status body = "success")
  /\ ApplyHandler.ApplyRecommendation Analyzer.NewRightsizingAnalyzer
       example_database example_clock 42 (ApplyHandler.example_apply "cpu")
     = (HttpError 404 "Recommendation not found", None).
Proof.
  pose proof (apply_needs_recommendation Analyzer.NewRightsizingAnalyzer
                example_database example_clock 42%Z
                (ApplyHandler.example_apply "CPU")) as H.
  split; [|reflexivity].
  destruct (ApplyHandler.ApplyRecommendation Analyzer.NewRightsizingAnalyzer
              example_database example_clock 42
              (ApplyHandler.example_apply "CPU"))
    as [[body | code text] inserted] eqn:E; [|discriminate E].
  destruct H as [Hs [_ [[row [Hrow _]] _]]].
  exists body, row. subst inserted. split; [reflexivity | exact Hs].
Defined.

(** *** The usage of a namespace *)

Lemma utilization_guarded (avg request : Q) :
  UsageHandler.guarded_utilization avg request
    (UsageHandler.utilization avg request 0).
Proof.
  unfold UsageHandler.guarded_utilization, UsageHandler.utilization.
  destruct (gtb request 0) eqn:E;
    [apply gtb_gt in E | apply gtb_le in E].
  - split; [intro H; lra|]. intros _.
    split; [apply fdiv_nonzero; lra|]. split; [reflexivity|].
    intros [H0 H1].
    assert (Hq : 0 <= avg / request <= 1).
    { split.
      - apply Qle_shift_div_l; [exact E | lra].
      - apply Qle_shift_div_r; [exact E | lra]. }
    lra.
  - split; [reflexivity | intro H; lra].
Qed.

Lemma usage_loop (rows : list (result UsageHandler.UsageRow)) :
  forall acc,
    fold_left
      (fun usage row =>
         match row with
         | Failed _ => usage
         | Ok row =>
             (usage
              ++ [UsageHandler.with_utilization (UsageHandler.scanned row)])%list
         end) rows acc
    = (acc
       ++ flat_map
            (fun row =>
               match row with
               | Failed _ => []
               | Ok row =>
                   [UsageHandler.with_utilization (UsageHandler.scanned row)]
               end) rows)%list.
Proof.
  induction rows as [|row rest IH]; intro acc; simpl.
  - rewrite app_nil_r. reflexivity.
  - rewrite IH. destruct row as [row | e]; simpl.
    + rewrite <- app_assoc. reflexivity.
    + reflexivity.
Qed.

(** X14.  [GetResourceUsage] answers 500 "Database error" when its
    query fails.  Otherwise it lists one entry for each row that scans,
    and in every entry both utilizations are guarded: with a request of
    zero or less the utilization is 0 and nothing is divided; with a
    positive request it is the finite number [avg / request * 100],
    between 0 and 100 when the average usage is between 0 and the
    request. *)
Theorem usage_utilization_guarded :
  forall query now ns,
    match query ns with
    | Failed _ =>
        UsageHandler.GetResourceUsage query now ns
        = HttpError 500 "Database error"
    | Ok rows =>
        exists body,
          UsageHandler.GetResourceUsage query now ns = Json body
          /\ length (UsageHandler.usage body)
             = length (filter UsageHandler.scans rows)
          /\ Forall
               (fun u =>
                  UsageHandler.guarded_utilization
                    (UsageHandler.AvgCPU u) (UsageHandler.CPURequest u)
                    (UsageHandler.CPUUtilization u)
                  /\ UsageHandler.guarded_utilization
                       (UsageHandler.AvgMemory u)
                       (UsageHandler.MemoryRequest u)
                       (UsageHandler.MemoryUtilization u))
               (UsageHandler.usage body)
    end.
Proof.
  intros query now ns. unfold UsageHandler.GetResourceUsage.
  destruct (query ns) as [rows | e]; [|reflexivity].
  eexists. split; [reflexivity|]. cbn [UsageHandler.usage].
  rewrite usage_loop. cbn [app]. clear.
  induction rows as [|row rest [IHlen IHall]]; [split; [reflexivity|constructor]|].
  cbn [flat_map filter].
  destruct row as [row | e]; cbn [UsageHandler.scans app length].
  - split; [f_equal; exact IHlen|].
    constructor; [|exact IHall].
    split; apply utilization_guarded.
  - split; assumption.
Qed.

Lemma usage_utilization_guarded_witness :
  exists body web job,
    UsageHandler.GetResourceUsage UsageHandler.example_usage 42 "shop"
    = Json body
    /\ UsageHandler.usage body = [web; job]
    /\ UsageHandler.CPUUtilization web == 30
    /\ UsageHandler.CPUUtilization job = 0.
Proof.
  pose proof (usage_utilization_guarded UsageHandler.example_usage 42%Z
                "shop") as H.
  cbv beta iota delta [UsageHandler.example_usage] in H.
  destruct H as [body [Hb [_ Hall]]].
  vm_compute in Hb. inversion Hb. subst body.
  do 3 eexists. split; [reflexivity|]. split; [reflexivity|].
  split; reflexivity.
Defined.

End ApplyUsageFacts.

(* ================================================================== *)
(** ** More on the cost simulation *)
(* ================================================================== *)

Section SimulateFacts.

Import Api.
Local Open Scope Q_scope.
Local Open Scope string_scope.

Lemma same_requests_delta (db : Database) (ns : string) (c d : Change) :
  Changes.same_requests c d -> change_delta db ns c = change_delta db ns d.
Proof.
  intros [Hp [Hc [Hcpu [Hmem Hr]]]].
  unfold change_delta. rewrite Hp, Hc, Hcpu, Hmem, Hr. reflexivity.
Qed.

(** X24.  A simulation reads of each change the container, the two
    proposed requests and the replicas only: requests whose changes
    differ in the proposed limits alone get the same answer.  A change
    for a container without a row of current resources is costed as if
    the container requested nothing so far, and a change with zero
    replicas costs nothing. *)
Theorem simulate_reads_requests_only :
  forall (db : Database) (ns period : string) (changes others : list Change),
    (Forall2 Changes.same_requests changes others ->
     SimulateCosts db
       {| Namespace := ns; Changes := changes; Period := period |}
     = SimulateCosts db
         {| Namespace := ns; Changes := others; Period := period |})
    /\ (forall c,
        latest_allocation db ns (PodName c) (ContainerName c) = None ->
        change_delta db ns c
        == (CPURequest c * 0.00001 + MemoryRequest c * 0.00000001)
           * inject_Z (Replicas c))
    /\ (forall c, Replicas c = 0%Z -> change_delta db ns c == 0).
Proof.
  intros db ns period changes others. split; [|split].
  - intro Hsame.
    assert (Hfold : forall acc,
      fold_left (fun costDelta change => costDelta + change_delta db ns change)
        changes acc
      = fold_left
          (fun costDelta change => costDelta + change_delta db ns change)
          others acc).
    { induction Hsame as [|c d cs ds Hcd Hrest IH]; intro acc;
        [reflexivity|].
      cbn [fold_left]. rewrite (same_requests_delta db ns c d Hcd).
      apply IH. }
    unfold SimulateCosts. cbn [Namespace Changes Period].
    rewrite Hfold. reflexivity.
  - intros c Hnone. unfold change_delta, getCurrentAllocation.
    rewrite Hnone. cbn [index String.eqb Ascii.eqb Bool.eqb]. ring.
  - intros c Hzero. unfold change_delta. rewrite Hzero.
    change (inject_Z 0) with 0. ring.
Qed.

Lemma simulate_reads_requests_only_witness :
  let change := {| PodName := "web"; ContainerName := "app";
                   CPURequest := 500; CPULimit := 1000;
                   MemoryRequest := 1073741824; MemoryLimit := 2147483648;
                   Replicas := 1 |} in
  SimulateCosts example_db example_request
  = SimulateCosts example_db
      {| Namespace := "shop";
         Changes := [Changes.with_limits change 4000 8589934592];
         Period := "monthly" |}.
Proof.
  intro change.
  apply (simulate_reads_requests_only example_db "shop" "monthly"
           [change] [Changes.with_limits change 4000 8589934592]).
  repeat constructor.
Defined.

End SimulateFacts.

(* ================================================================== *)
(** ** More on the circuit breaker *)
(* ================================================================== *)

Section BreakerFacts.

Import Resilience Streaks.
Local Open Scope Z_scope.

Lemma closed_failure_step (cb : CircuitBreaker) (c : call) (e : string) :
  state cb = StateClosed ->
  result c = Some e ->
  0 <= failures cb < max_int ->
  let cb' := step cb c in
  failures cb' = failures cb + 1
  /\ threshold cb' = threshold cb
  /\ state cb' =
     if failures cb + 1 >=? threshold cb then StateOpen else StateClosed.
Proof.
  intros Hs He Hf. cbv zeta.
  rewrite (step_closed _ _ Hs), He.
  destruct (closed_failure cb (at_time c + took c) e Hs)
    as [Hf' [_ [_ Hs']]].
  rewrite wrap64_in_range in Hf' by (unfold max_int in *; lia).
  rewrite Hs', Hf'. repeat split.
Qed.

Lemma closed_success_step (cb : CircuitBreaker) (c : call) :
  state cb = StateClosed ->
  result c = None ->
  let cb' := step cb c in
  failures cb' = 0 /\ threshold cb' = threshold cb
  /\ state cb' = StateClosed.
Proof.
  intros Hs He. cbv zeta.
  rewrite (step_closed _ _ Hs), He.
  destruct (closed_success cb (at_time c + took c) Hs) as [Hs' Hf'].
  repeat split; assumption.
Qed.

(** X17.  A closed breaker stays closed through a sequence of calls as
    long as no run of consecutive failures, counted on from the
    failures it has already counted, reaches its threshold; successes in
    between start the count afresh.  It is open after the first call
    that completes such a run. *)
Theorem closed_while_streaks_short :
  forall calls cb,
    state cb = StateClosed ->
    0 <= failures cb ->
    threshold cb <= max_int ->
    failures cb < threshold cb \/ failures cb = 0 ->
    (stays_below (threshold cb) (failures cb) calls = true ->
     state (run cb calls) = StateClosed)
    /\ (stays_below (threshold cb) (failures cb) calls = false ->
        exists before c after,
          calls = before ++ c :: after
          /\ state (run cb before) = StateClosed
          /\ failed c
          /\ state (run cb (before ++ [c])) = StateOpen).
Proof.
  induction calls as [|c rest IH]; intros cb Hs Hf Hmax Hlt.
  - split; [intros _; exact Hs | discriminate].
  - cbn [stays_below]. rewrite run_cons.
    destruct (result c) as [e|] eqn:He.
    + assert (Hrange : 0 <= failures cb < max_int)
        by (unfold max_int in *; lia).
      destruct (closed_failure_step cb c e Hs He Hrange)
        as [Hf' [Ht' Hs']].
      destruct (failures cb + 1 >=? threshold cb) eqn:E.
      * (* this failure opens the breaker *)
        apply Z.geb_le in E.
        replace (failures cb + 1 <? threshold cb) with false
          by (symmetry; apply Z.ltb_ge; lia).
        split; [discriminate|]. intros _.
        exists [], c, rest. cbn [app].
        split; [reflexivity|]. split; [exact Hs|].
        split; [unfold failed; congruence|].
        rewrite run_cons. exact Hs'.
      * rewrite Z.geb_leb, Z.leb_gt in E.
        replace (failures cb + 1 <? threshold cb) with true
          by (symmetry; apply Z.ltb_lt; lia).
        cbn [andb].
        destruct (IH (step cb c)) as [IH1 IH2];
          [exact Hs' | lia | lia | lia |].
        rewrite Hf', Ht' in IH1, IH2.
        split; [exact IH1|].
        intro Hb. destruct (IH2 Hb) as [before [c' [after [Hc [H1 [H2 H3]]]]]].
        exists (c :: before), c', after. cbn [app].
        rewrite !run_cons. rewrite Hc. repeat split; assumption.
    + destruct (closed_success_step cb c Hs He) as [Hf' [Ht' Hs']].
      destruct (IH (step cb c)) as [IH1 IH2];
        [exact Hs' | lia | lia | lia |].
      rewrite Hf', Ht' in IH1, IH2.
      split; [exact IH1|].
      intro Hb. destruct (IH2 Hb) as [before [c' [after [Hc [H1 [H2 H3]]]]]].
      exists (c :: before), c', after. cbn [app].
      rewrite !run_cons. rewrite Hc. repeat split; assumption.
Qed.

(** With a threshold of 3: two failures, a success and two more
    failures leave the breaker closed; a third failure in a row opens
    it. *)
Lemma closed_while_streaks_short_witness :
  let failure := {| at_time := 0; took := 1; result := Some "boom"%string |} in
  let success := {| at_time := 0; took := 1; result := None |} in
  let cb := NewCircuitBreaker 3 1000 in
  state (run cb [failure; failure; success; failure; failure]) = StateClosed
  /\ exists before c after,
      [failure; failure; failure; success] = before ++ c :: after
      /\ state (run cb (before ++ [c])) = StateOpen.
Proof.
  intros failure success cb.
  assert (Hmax : threshold cb <= max_int) by (unfold max_int; simpl; lia).
  assert (Hlt : failures cb < threshold cb \/ failures cb = 0)
    by (right; reflexivity).
  split.
  - apply (closed_while_streaks_short _ cb eq_refl (Z.le_refl 0) Hmax Hlt).
    reflexivity.
  - destruct (closed_while_streaks_short
                [failure; failure; failure; success] cb eq_refl
                (Z.le_refl 0) Hmax Hlt) as [_ H].
    destruct (H eq_refl) as [before [c [after [H1 [_ [_ H4]]]]]].
    exists before, c, after. split; assumption.
Defined.

(** X18.  Calls that an open breaker rejects leave it exactly as it
    is, so that the cooldown runs from the last failure and not from the
    last rejected call: after any number of calls within the cooldown,
    the first call after it is let through on the half-open breaker.
    When such a trial fails, the breaker is open again with the cooldown
    running from the moment the failure was recorded. *)
Theorem cooldown_runs_from_last_failure :
  forall cb calls c,
    state cb = StateOpen ->
    Forall (within_cooldown cb) calls ->
    Since (at_time c) (lastFailure cb) > timeout cb ->
    run cb calls = cb
    /\ run cb (calls ++ [c])
       = recordResult (set_state cb StateHalfOpen) (at_time c + took c)
           (result c)
    /\ (failed c ->
        let cb' := run cb (calls ++ [c]) in
        state cb' = StateOpen
        /\ lastFailure cb' = at_time c + took c
        /\ forall later,
            at_time later <= at_time c + took c + timeout cb ->
            run cb' [later] = cb').
Proof.
  intros cb calls c Hs Hall Ht.
  assert (Hrun : run cb calls = cb).
  { induction Hall as [|x rest Hx Hrest IH]; [reflexivity|].
    rewrite run_cons, (step_open_rejected _ _ Hs Hx). exact IH. }
  assert (Hc : run cb (calls ++ [c])
               = recordResult (set_state cb StateHalfOpen)
                   (at_time c + took c) (result c)).
  { rewrite run_app, Hrun, run_cons. cbn [run].
    apply step_open_cooled; assumption. }
  split; [exact Hrun|]. split; [exact Hc|].
  intro Hf. cbv zeta. rewrite Hc.
  destruct (failed_result c Hf) as [e He]. rewrite He.
  destruct (half_open_failure (set_state cb StateHalfOpen)
              (at_time c + took c) e eq_refl) as [Hs' [Hl' _]].
  split; [exact Hs'|]. split; [exact Hl'|].
  intros later Hlater. rewrite run_cons. cbn [run].
  apply step_open_rejected; [exact Hs'|].
  rewrite Hl'. unfold Since. simpl. lia.
Qed.

Lemma cooldown_runs_from_last_failure_witness :
  let second := 1000000000 in
  let failure t := {| at_time := t * second; took := 0;
                      result := Some "boom"%string |} in
  let opened := run (NewCircuitBreaker 1 (30 * second)) [failure 0] in
  run opened [failure 10; failure 20; failure 30] = opened
  /\ state (run opened [failure 10; failure 20; failure 31]) = StateOpen
  /\ lastFailure (run opened [failure 10; failure 20; failure 31])
     = 31 * second.
Proof.
  intros second failure opened.
  destruct (cooldown_runs_from_last_failure opened
              [failure 10; failure 20; failure 30] (failure 31))
    as [H1 _]; [reflexivity | | reflexivity |].
  { repeat constructor; vm_compute; discriminate. }
  destruct (cooldown_runs_from_last_failure opened
              [failure 10; failure 20] (failure 31))
    as [_ [_ H3]]; [reflexivity | | reflexivity |].
  { repeat constructor; vm_compute; discriminate. }
  destruct H3 as [Hs [Hl _]]; [discriminate|].
  split; [exact H1|]. split; [exact Hs | exact Hl].
Defined.

Lemma step_settings (cb : CircuitBreaker) (c : call) :
  settings (step cb c) = settings cb.
Proof.
  unfold step, Execute, canExecute, settings.
  destruct (state cb =? StateClosed);
    [|destruct (state cb =? StateOpen);
      [destruct (Since (at_time c) (lastFailure cb) >? timeout cb)
      |destruct (state cb =? StateHalfOpen)]];
    cbn [negb counting fst snd];
    try reflexivity;
    destruct (result c); reflexivity.
Qed.

Lemma run_settings (calls : list call) :
  forall cb, settings (run cb calls) = settings cb.
Proof.
  induction calls as [|c rest IH]; intro cb; [reflexivity|].
  rewrite run_cons, IH. apply step_settings.
Qed.

Lemma rejects_iff (cb : CircuitBreaker) (now : Z) :
  state cb = StateClosed \/ state cb = StateOpen
  \/ state cb = StateHalfOpen ->
  rejects cb now = true
  <-> state cb = StateOpen /\ Since now (lastFailure cb) <= timeout cb.
Proof.
  unfold rejects, canExecute, StateClosed, StateOpen, StateHalfOpen.
  intros [H | [H | H]]; rewrite H; cbn [Z.eqb Pos.eqb].
  - split; [discriminate | intros [Hc _]; discriminate].
  - destruct (Since now (lastFailure cb) >? timeout cb) eqn:E; cbn [snd negb].
    + apply Z.gtb_lt in E. split; [discriminate | intros [_ Hle]; lia].
    + rewrite Z.gtb_ltb, Z.ltb_ge in E. split; auto.
  - split; [discriminate | intros [Hc _]; discriminate].
Qed.

(** X19.  However a breaker made by [NewCircuitBreaker] is used
    through [Execute], it is in one of the three states, its threshold,
    cooldown and success threshold are the ones it was made with, a
    closed breaker has counted fewer failures than its threshold (or
    none), an open one has no successes counted and a half-open one
    fewer than 3; and it rejects a call exactly when it is open and no
    more than the cooldown has passed since the last failure. *)
Theorem breaker_in_use :
  forall threshold timeout history,
    - 2 ^ 63 <= threshold <= max_int ->
    let cb := run (NewCircuitBreaker threshold timeout) history in
    (state cb = StateClosed \/ state cb = StateOpen
     \/ state cb = StateHalfOpen)
    /\ settings cb = (threshold, timeout, 3)
    /\ (state cb = StateClosed ->
        0 <= failures cb /\ (failures cb < threshold \/ failures cb = 0))
    /\ (state cb = StateOpen -> successes cb = 0)
    /\ (state cb = StateHalfOpen -> 0 <= successes cb < 3)
    /\ (forall now,
        rejects cb now = true
        <-> state cb = StateOpen
            /\ Since now (lastFailure cb) <= Resilience.timeout cb).
Proof.
  intros threshold timeout history Hth cb.
  assert (Hwf : well_formed cb)
    by (apply run_well_formed, new_well_formed, Hth).
  assert (Hset : settings cb = (threshold, timeout, 3))
    by (unfold cb; rewrite run_settings; reflexivity).
  assert (Hthr : Resilience.threshold cb = threshold)
    by (unfold settings in Hset; congruence).
  pose proof (well_formed_state cb Hwf) as Hst.
  split; [exact Hst|]. split; [exact Hset|].
  destruct Hwf as [_ [_ Hcases]].
  unfold StateClosed, StateOpen, StateHalfOpen in *.
  split; [|split; [|split]].
  - intro Hc. destruct Hcases as [[_ H] | [[H _] | [H _]]];
      [rewrite <- Hthr; exact H | congruence | congruence].
  - intro Ho. destruct Hcases as [[H _] | [[_ H] | [H _]]];
      [congruence | exact H | congruence].
  - intro Hh. destruct Hcases as [[H _] | [[H _] | [_ H]]];
      [congruence | congruence | exact H].
  - intro now. apply rejects_iff. exact Hst.
Qed.

Lemma breaker_in_use_witness :
  let failure := {| at_time := 0; took := 1; result := Some "boom"%string |} in
  let cb := run (NewCircuitBreaker 2 1000) [failure; failure] in
  settings cb = (2, 1000, 3)
  /\ (rejects cb 500 = true
      <-> state cb = StateOpen /\ Since 500 (lastFailure cb) <= timeout cb).
Proof.
  intros failure cb.
  destruct (breaker_in_use 2 1000 [failure; failure])
    as [_ [Hs [_ [_ [_ Hr]]]]].
  { unfold max_int. lia. }
  split; [exact Hs | apply Hr].
Defined.

End BreakerFacts.

(* ================================================================== *)
(** ** Retries *)
(* ================================================================== *)

Section RetryFacts.

Import Resilience Retry.
Local Open Scope Z_scope.

(** *** The loop *)

Lemma first_success_spec (outcomes : nat -> option string) (n : nat) :
  forall from,
    match first_success outcomes from n with
    | Some k =>
        (from <= k < from + n)%nat /\ outcomes k = None
        /\ forall i, (from <= i < k)%nat -> outcomes i <> None
    | None => forall i, (from <= i < from + n)%nat -> outcomes i <> None
    end.
Proof.
  induction n as [|n IH]; intro from; cbn [first_success].
  - intros i Hi. lia.
  - destruct (outcomes from) as [e|] eqn:E.
    + specialize (IH (S from)).
      destruct (first_success outcomes (S from) n) as [k|].
      * destruct IH as [Hk [Hnone Hbefore]].
        split; [lia|]. split; [exact Hnone|].
        intros i Hi. destruct (Nat.eq_dec i from) as [->|Hne];
          [congruence | apply Hbefore; lia].
      * intros i Hi. destruct (Nat.eq_dec i from) as [->|Hne];
          [congruence | apply IH; lia].
    + split; [lia|]. split; [exact E|]. intros i Hi. lia.
Qed.

Lemma first_success_step (outcomes : nat -> option string) (from n : nat) :
  first_success outcomes from (S n)
  = match outcomes from with
    | None => Some from
    | Some _ => first_success outcomes (S from) n
    end.
Proof. reflexivity. Qed.

(** One round of the loop under a context that is never done, with a
    scripted function that has been called [a] times. *)
Lemma background_round (config : RetryConfig) (drawn : Z -> Q)
    (outcomes : nat -> option string) (rounds a looks : nat)
    (naps : list Z) (lastErr : option string) :
  Z.of_nat a < MaxAttempts config ->
  retry_loop config (background drawn) (scripted outcomes) (S rounds)
    (Z.of_nat a) looks a naps lastErr
  = match outcomes a with
    | None => {| world := S a; slept := naps; returned := None |}
    | Some e =>
        if Z.of_nat a =? MaxAttempts config - 1 then
          {| world := S a; slept := naps; returned := Some e |}
        else
          retry_loop config (background drawn) (scripted outcomes) rounds
            (wrap64 (Z.of_nat a + 1)) (S (S looks)) (S a)
            (naps ++ [calculateDelay config (Z.of_nat a)
                        (drawn (Z.of_nat a))])
            (Some e)
    end.
Proof.
  intro Hlt. cbn [retry_loop background done random scripted].
  replace (Z.of_nat a <? MaxAttempts config) with true
    by (symmetry; apply Z.ltb_lt; exact Hlt).
  destruct (outcomes a); reflexivity.
Qed.

(** The loop under a context that is never done, when the function is
    scripted and has been called [a] times: [r + 1] rounds are left. *)
Lemma background_loop (config : RetryConfig) (drawn : Z -> Q)
    (outcomes : nat -> option string) (r : nat) :
  let delay i :=
    calculateDelay config (Z.of_nat i) (drawn (Z.of_nat i)) in
  forall a looks naps lastErr,
    MaxAttempts config = Z.of_nat (a + S r) ->
    MaxAttempts config <= max_int ->
    retry_loop config (background drawn) (scripted outcomes) (S r)
      (Z.of_nat a) looks a naps lastErr
    = match first_success outcomes a (S r) with
      | Some k =>
          {| world := S k;
             slept := naps ++ map delay (seq a (k - a));
             returned := None |}
      | None =>
          {| world := (a + S r)%nat;
             slept := naps ++ map delay (seq a r);
             returned := outcomes (a + r)%nat |}
      end.
Proof.
  intro delay.
  induction r as [|r IH]; intros a looks naps lastErr Hmax Hint;
    rewrite background_round by lia; rewrite first_success_step.
  - destruct (outcomes a) as [e|] eqn:E.
    + replace (Z.of_nat a =? MaxAttempts config - 1) with true
        by (symmetry; apply Z.eqb_eq; lia).
      cbn [seq map]. rewrite app_nil_r, Nat.add_0_r, Nat.add_1_r, E.
      reflexivity.
    + rewrite Nat.sub_diag. cbn [seq map]. rewrite app_nil_r. reflexivity.
  - destruct (outcomes a) as [e|] eqn:E.
    + replace (Z.of_nat a =? MaxAttempts config - 1) with false
        by (symmetry; apply Z.eqb_neq; lia).
      rewrite wrap64_in_range by (unfold max_int in *; lia).
      replace (Z.of_nat a + 1) with (Z.of_nat (S a)) by lia.
      rewrite (IH (S a)) by (try assumption; lia).
      fold (delay a).
      pose proof (first_success_spec outcomes (S r) (S a)) as Hfs.
      destruct (first_success outcomes (S a) (S r)) as [k|].
      * destruct Hfs as [Hk _].
        replace (k - a)%nat with (S (k - S a)) by lia.
        cbn [seq map]. rewrite <- app_assoc. reflexivity.
      * cbn [seq map]. rewrite <- app_assoc.
        replace (S a + S r)%nat with (a + S (S r))%nat by lia.
        replace (S a + r)%nat with (a + S r)%nat by lia.
        reflexivity.
    + rewrite Nat.sub_diag. cbn [seq map]. rewrite app_nil_r. reflexivity.
Qed.

(** X21.  Under a context that is never done, [Retry] with one or more
    attempts calls the function until it succeeds for the first time or
    [MaxAttempts] calls have failed.  If the call number [k] (from 0) is
    the first success, [Retry] returns nil after [k + 1] calls and [k]
    sleeps; otherwise it returns the error of the last call after
    [MaxAttempts] calls and [MaxAttempts - 1] sleeps, without sleeping
    after the last.  The sleep after the call number [i] is the delay
    computed for attempt [i]. *)
Theorem retry_until_success :
  forall (config : RetryConfig) (drawn : Z -> Q)
         (outcomes : nat -> option string),
    1 <= MaxAttempts config <= max_int ->
    let n := Z.to_nat (MaxAttempts config) in
    let delay i :=
      calculateDelay config (Z.of_nat i) (drawn (Z.of_nat i)) in
    Retry config (background drawn) (scripted outcomes) O
    = match first_success outcomes 0 n with
      | Some k =>
          {| world := S k; slept := map delay (seq 0 k); returned := None |}
      | None =>
          {| world := n; slept := map delay (seq 0 (n - 1));
             returned := outcomes (n - 1)%nat |}
      end.
Proof.
  intros config drawn outcomes Hmax n delay.
  unfold Retry. fold n.
  destruct n as [|r] eqn:En; [lia|].
  change 0 with (Z.of_nat 0).
  rewrite (background_loop config drawn outcomes r 0 0 [] None)
    by (cbn [Nat.add]; lia).
  fold delay. cbn [app Nat.add].
  destruct (first_success outcomes 0 (S r)) as [k|].
  - rewrite Nat.sub_0_r. reflexivity.
  - replace (S r - 1)%nat with r by lia. reflexivity.
Qed.

(** Three attempts at a function that succeeds at its third call, and
    at one that never does. *)
Lemma retry_until_success_witness :
  let third k := match k with 2%nat => None | _ => Some "busy"%string end in
  let never (k : nat) := Some "down"%string in
  let o1 := Retry DefaultRetryConfig (background (fun _ => 0%Q))
              (scripted third) O in
  let o2 := Retry DefaultRetryConfig (background (fun _ => 0%Q))
              (scripted never) O in
  (world o1 = 3%nat /\ returned o1 = None
   /\ slept o1 = [Second; 2 * Second])
  /\ (world o2 = 3%nat /\ returned o2 = Some "down"%string
      /\ length (slept o2) = 2%nat).
Proof.
  intros third never o1 o2.
  assert (Hmax : 1 <= MaxAttempts DefaultRetryConfig <= max_int)
    by (unfold max_int; simpl; lia).
  pose proof (retry_until_success DefaultRetryConfig (fun _ => 0%Q) third
                Hmax) as H1.
  pose proof (retry_until_success DefaultRetryConfig (fun _ => 0%Q) never
                Hmax) as H2.
  fold o1 in H1. fold o2 in H2. rewrite H1, H2.
  split; repeat split.
Defined.

(** What the loop keeps, whatever the context does. *)
Lemma loop_safety (config : RetryConfig) (env : surroundings)
    (outcomes : nat -> option string) (rounds : nat) :
  forall attempt looks a naps lastErr,
    let o := retry_loop config env (scripted outcomes) rounds attempt looks
               a naps lastErr in
    (a <= world o <= a + rounds)%nat
    /\ (exists more,
         slept o = naps ++ more
         /\ (length more + a <= world o)%nat)
    /\ (returned o = None ->
        (world o = a /\ lastErr = None
         /\ (rounds = O \/ MaxAttempts config <= attempt))
        \/ (a < world o)%nat /\ outcomes (world o - 1)%nat = None).
Proof.
  induction rounds as [|rounds IH]; intros attempt looks a naps lastErr;
    cbn [retry_loop].
  - cbn [world slept returned]. split; [lia|]. split.
    + exists []. rewrite app_nil_r. split; [reflexivity | cbn [length]; lia].
    + intro H. left. auto.
  - destruct (attempt <? MaxAttempts config) eqn:Elt.
    2:{ apply Z.ltb_ge in Elt. cbn [world slept returned].
        split; [lia|]. split.
        - exists []. rewrite app_nil_r.
          split; [reflexivity | cbn [length]; lia].
        - intro H. left. auto. }
    destruct (done env looks) as [ctxErr|].
    { cbn [world slept returned]. split; [lia|]. split.
      - exists []. rewrite app_nil_r.
        split; [reflexivity | cbn [length]; lia].
      - discriminate. }
    cbn [scripted].
    destruct (outcomes a) as [e|] eqn:E.
    2:{ cbn [world slept returned]. split; [lia|]. split.
        - exists []. rewrite app_nil_r.
          split; [reflexivity | cbn [length]; lia].
        - intros _. right. split; [lia|].
          replace (S a - 1)%nat with a by lia. exact E. }
    destruct (attempt =? MaxAttempts config - 1).
    { cbn [world slept returned]. split; [lia|]. split.
      - exists []. rewrite app_nil_r.
        split; [reflexivity | cbn [length]; lia].
      - discriminate. }
    destruct (done env (S looks)) as [ctxErr|].
    { cbn [world slept returned]. split; [lia|]. split.
      - exists []. rewrite app_nil_r.
        split; [reflexivity | cbn [length]; lia].
      - discriminate. }
    specialize (IH (wrap64 (attempt + 1)) (S (S looks)) (S a)
                  (naps ++ [calculateDelay config attempt (random env attempt)])
                  (Some e)).
    cbv zeta in IH. destruct IH as [Hw [[more [Hs Hlen]] Hret]].
    split; [lia|]. split.
    + exists (calculateDelay config attempt (random env attempt) :: more).
      split; [rewrite Hs, <- app_assoc; reflexivity|].
      cbn [length]. lia.
    + intro Hnone. destruct (Hret Hnone) as [[_ [H _]] | H];
        [discriminate | right; split; [lia | apply H]].
Qed.

(** X22.  Whatever the context does, [Retry] calls the function at
    most [MaxAttempts] times, sleeps at most once for each call it has
    made, and returns nil only after a call that succeeded — or, when
    [MaxAttempts] is zero or less, without having called the function at
    all.  When the context is done at the outset it returns the error of
    the context without calling the function. *)
Theorem retry_safety :
  forall (config : RetryConfig) (env : surroundings)
         (outcomes : nat -> option string),
    let o := Retry config env (scripted outcomes) O in
    Z.of_nat (world o) <= Z.max 0 (MaxAttempts config)
    /\ (length (slept o) <= world o)%nat
    /\ (returned o = None ->
        (world o = O /\ MaxAttempts config <= 0)
        \/ (1 <= world o)%nat /\ outcomes (world o - 1)%nat = None)
    /\ (MaxAttempts config <= 0 -> o = untouched O None)
    /\ (forall ctxErr,
        1 <= MaxAttempts config -> done env O = Some ctxErr ->
        o = untouched O (Some ctxErr)).
Proof.
  intros config env outcomes o.
  pose proof (loop_safety config env outcomes
                (Z.to_nat (MaxAttempts config)) 0 O O [] None) as H.
  cbv zeta in H. fold (Retry config env (scripted outcomes) O) in H.
  fold o in H. destruct H as [Hw [[more [Hs Hlen]] Hret]].
  cbn [app] in Hs.
  split; [lia|]. split; [rewrite Hs; lia|]. split.
  - intro Hnone. destruct (Hret Hnone) as [[H0 [_ Hr]] | [Hlt Hout]].
    + left. split; [exact H0 | destruct Hr; lia].
    + right. split; [lia | exact Hout].
  - split.
    + intro Hle. unfold o, Retry.
      replace (Z.to_nat (MaxAttempts config)) with O by lia. reflexivity.
    + intros ctxErr Hge Hdone. unfold o, Retry.
      destruct (Z.to_nat (MaxAttempts config)) as [|r] eqn:En; [lia|].
      cbn [retry_loop].
      replace (0 <? MaxAttempts config) with true
        by (symmetry; apply Z.ltb_lt; lia).
      rewrite Hdone. reflexivity.
Qed.

(** A context that is cancelled while [Retry] waits after the first
    failure; and a configuration without attempts. *)
Lemma retry_safety_witness :
  let env := {| done := fun k => match k with
                                 | O => None
                                 | _ => Some "context canceled"%string
                                 end;
                random := fun _ => 0%Q |} in
  let never (k : nat) := Some "down"%string in
  let o := Retry DefaultRetryConfig env (scripted never) O in
  let none := {| MaxAttempts := 0; InitialDelay := Second;
                 MaxDelay := 30 * Second; BackoffMultiplier := 2.0;
                 Jitter := true |} in
  (world o = 1%nat /\ returned o = Some "context canceled"%string
   /\ Z.of_nat (world o) <= 3)
  /\ Retry none env (scripted never) O = untouched O None.
Proof.
  intros env never o none.
  destruct (retry_safety DefaultRetryConfig env never) as [Hw _].
  destruct (retry_safety none env never) as [_ [_ [_ [Hnone _]]]].
  split.
  - split; [reflexivity|]. split; [reflexivity | exact Hw].
  - apply Hnone. simpl. lia.
Defined.

(** *** With a result *)

Lemma result_loop (W T : Type) (zero : T) (config : RetryConfig)
    (env : surroundings) (fn : producer W T) (rounds : nat) :
  forall attempt looks w naps lastErr,
    let p := retry_result_loop zero config env fn rounds attempt looks w
               naps lastErr in
    final p
    = retry_loop config env (forget fn) rounds attempt looks w naps lastErr
    /\ (returned (final p) <> None -> value p = zero)
    /\ (rounds = O \/ MaxAttempts config <= attempt -> value p = zero).
Proof.
  induction rounds as [|rounds IH]; intros attempt looks w naps lastErr;
    cbn [retry_result_loop retry_loop].
  - cbn [final value]. repeat split.
  - destruct (attempt <? MaxAttempts config) eqn:Elt;
      [|cbn [final value]; repeat split].
    apply Z.ltb_lt in Elt.
    destruct (done env looks); [cbn [final value]; repeat split|].
    unfold forget at 1.
    destruct (fn w) as [w' [result [e|]]].
    + destruct (attempt =? MaxAttempts config - 1);
        [cbn [final value]; repeat split|].
      destruct (done env (S looks)); [cbn [final value]; repeat split|].
      destruct (IH (wrap64 (attempt + 1)) (S (S looks)) w'
                  (naps ++ [calculateDelay config attempt
                              (random env attempt)]) (Some e))
        as [Hf [Hv _]].
      split; [exact Hf|]. split; [exact Hv|].
      intros [H | H]; [discriminate | lia].
    + cbn [final value returned]. split; [reflexivity|].
      split; [congruence|]. intros [H | H]; [discriminate | lia].
Qed.

(** X23.  [RetryWithResult] runs as [Retry] does on the function with
    its result dropped: the same calls, the same sleeps, the same error.
    Whenever it returns an error the value next to it is the zero
    value, not the value of a failed call; when it returns nil the value
    is that of the call that succeeded — or the zero value when
    [MaxAttempts] is zero or less and nothing was called. *)
Theorem retry_with_result :
  forall (W T : Type) (zero : T) (config : RetryConfig)
         (env : surroundings),
    (forall (fn : producer W T) (w : W),
        let p := RetryWithResult zero config env fn w in
        final p = Retry config env (forget fn) w
        /\ (returned (final p) <> None -> value p = zero)
        /\ (MaxAttempts config <= 0 ->
            value p = zero /\ final p = untouched w None))
    /\ (forall (values : nat -> T) (outcomes : nat -> option string),
        let p :=
          RetryWithResult zero config env
            (scripted_producer values outcomes) O in
        returned (final p) = None ->
        (1 <= world (final p))%nat ->
        value p = values (world (final p) - 1)%nat).
Proof.
  intros W T zero config env. split.
  - intros fn w p.
    destruct (result_loop W T zero config env fn
                (Z.to_nat (MaxAttempts config)) 0 O w [] None)
      as [Hf [Hv Hz]].
    fold (RetryWithResult zero config env fn w) in Hf, Hv, Hz.
    fold p in Hf, Hv, Hz.
    split; [exact Hf|]. split; [exact Hv|].
    intro Hle. split; [apply Hz; right; lia|].
    rewrite Hf. unfold Retry.
    replace (Z.to_nat (MaxAttempts config)) with O by lia. reflexivity.
  - intros values outcomes.
    unfold RetryWithResult.
    generalize (Z.to_nat (MaxAttempts config)) as rounds.
    assert (Hgen : forall rounds attempt looks a naps lastErr,
      let p := retry_result_loop zero config env
                 (scripted_producer values outcomes) rounds attempt looks
                 a naps lastErr in
      (a <= world (final p))%nat
      /\ (returned (final p) = None -> (a < world (final p))%nat ->
          value p = values (world (final p) - 1)%nat)).
    { induction rounds as [|rounds IH]; intros attempt looks a naps lastErr;
        cbn [retry_result_loop].
      - cbn [final value world]. split; [lia | intros _ H; lia].
      - destruct (attempt <? MaxAttempts config);
          [|cbn [final value world]; split; [lia | intros _ H; lia]].
        destruct (done env looks);
          [cbn [final value world returned]; split; [lia | discriminate]|].
        cbn [scripted_producer].
        destruct (outcomes a) as [e|].
        + destruct (attempt =? MaxAttempts config - 1);
            [cbn [final value world returned]; split; [lia | discriminate]|].
          destruct (done env (S looks));
            [cbn [final value world returned]; split; [lia | discriminate]|].
          destruct (IH (wrap64 (attempt + 1)) (S (S looks)) (S a)
                      (naps ++ [calculateDelay config attempt
                                  (random env attempt)]) (Some e))
            as [Hw Hv].
          split; [lia|]. intros Hnone Hlt. apply Hv; [exact Hnone|].
          destruct (Nat.eq_dec
                      (world (final (retry_result_loop zero config env
                         (scripted_producer values outcomes) rounds
                         (wrap64 (attempt + 1)) (S (S looks)) (S a)
                         (naps ++ [calculateDelay config attempt
                                     (random env attempt)]) (Some e))))
                      (S a)) as [Heq | Hne]; [|lia].
          exfalso.
          destruct (result_loop nat T zero config env
                      (scripted_producer values outcomes) rounds
                      (wrap64 (attempt + 1)) (S (S looks)) (S a)
                      (naps ++ [calculateDelay config attempt
                                  (random env attempt)]) (Some e))
            as [Hf _].
          pose proof (loop_safety config env outcomes rounds
                        (wrap64 (attempt + 1)) (S (S looks)) (S a)
                        (naps ++ [calculateDelay config attempt
                                    (random env attempt)]) (Some e))
            as [_ [_ Hret]].
          change (forget (scripted_producer values outcomes))
            with (scripted outcomes) in Hf.
          rewrite <- Hf in Hret.
          destruct (Hret Hnone) as [[_ [H _]] | [H _]];
            [discriminate | lia].
        + cbn [final value world returned]. split; [lia|].
          intros _ _. replace (S a - 1)%nat with a by lia. reflexivity. }
    intros rounds Hnone Hge.
    destruct (Hgen rounds 0 O O [] None) as [_ Hv].
    apply Hv; [exact Hnone | lia].
Qed.

(** A producer that succeeds at its second call with the value 7, and
    one that never succeeds. *)
Lemma retry_with_result_witness :
  let env := background (fun _ => 0%Q) in
  let second k := match k with 1%nat => None | _ => Some "busy"%string end in
  let p := RetryWithResult 0 DefaultRetryConfig env
             (scripted_producer (fun k => 6 + Z.of_nat k) second) O in
  let q := RetryWithResult 0 DefaultRetryConfig env
             (scripted_producer (fun k => 6 + Z.of_nat k)
                (fun _ => Some "down"%string)) O in
  (returned (final p) = None /\ value p = 7)
  /\ (returned (final q) = Some "down"%string /\ value q = 0).
Proof.
  intros env second p q.
  destruct (retry_with_result nat Z 0 DefaultRetryConfig env) as [H1 H2].
  split.
  - split; [reflexivity|].
    apply (H2 (fun k => 6 + Z.of_nat k) second); [reflexivity|].
    vm_compute. lia.
  - split; [reflexivity|].
    apply (proj1 (proj2 (H1 (scripted_producer (fun k => 6 + Z.of_nat k)
                               (fun _ => Some "down"%string)) O))).
    vm_compute. discriminate.
Defined.

End RetryFacts.

(* ================================================================== *)
(** ** The constants of the source in binary64 *)
(* ================================================================== *)

Section Binary64Facts.

Import Binary64.

(** The decimal constants of the embedded functions are valid [float64]
    values within half a unit in the last place of the decimal. *)
Lemma constants_close :
  Forall (fun q => close_to q (nearest q) = true)
    [ 0.00000001; 0.00001; 0.05; 0.1; 0.15; 0.2; 0.3; 0.5; 0.6; 0.7;
      0.95; 1.15; 1.2; 1.3; 1.5; 10; 24; 30; 100; 720; 1000; 8760 ].
Proof. repeat constructor. Qed.

(** So are the decimals the values of the examples below are written
    with. *)
Lemma decimals_close :
  Forall (fun q => close_to q (nearest q) = true)
    [ 0.25; 0.4375; 0.55; 264; 206.99999999999997; 310.49999999999994;
      7200; 7196.4; 3.600000000000364; 0.0005000000000000505;
      0.050000000000005054 ].
Proof. repeat constructor. Qed.

(** An [int] of at most 53 bits is converted exactly. *)
Lemma of_int_exact_examples :
  Forall (fun n => has_value (of_int n) (inject_Z n))
    [ 0; 1; 2; 3; 100; 500; 1000; 9007199254740992; -9007199254740992 ]%Z.
Proof. repeat constructor. Qed.

End Binary64Facts.

(* ================================================================== *)
(** ** The worked example in binary64 *)
(* ================================================================== *)

Section WorkedExample.

Import Binary64 Analyzer64.
Local Open Scope string_scope.

(** Evaluates a closed statement about [float64] values. *)
Ltac evaluate := vm_compute; try reflexivity; try discriminate.

(** C2 as stated fails on the two recommended values: on the worked
    example the request is below 207 and the limit below 310.5, 207 and
    310.5 being [float64] values themselves. *)
Lemma worked_example_is_rounded :
  exists r,
    calculateCPURecommendation NewRightsizingAnalyzer
      (nearest 400) (nearest 800) (nearest 100) (nearest 180) (nearest 220)
      (nearest 250) (nearest 120) (nearest 30) 500 = Some r
    /\ has_value (nearest 207) 207
    /\ has_value (nearest 310.5) 310.5
    /\ eqb (RecommendedRequest r) (nearest 207) = false
    /\ ltb (RecommendedRequest r) (nearest 207) = true
    /\ ~ has_value (RecommendedRequest r) 207
    /\ eqb (RecommendedLimit r) (nearest 310.5) = false
    /\ ltb (RecommendedLimit r) (nearest 310.5) = true
    /\ ~ has_value (RecommendedLimit r) 310.5.
Proof.
  eexists. split; [vm_compute; reflexivity|].
  repeat split; evaluate.
Qed.

(** C2, amended.  The worked example: CPU statistics p50 = 100,
    p95 = 180, p99 = 220, max = 250, mean = 120, stddev = 30 over 500
    samples, with a current request of 400 (and any current limit).  The
    coefficient of variation is 0.25, the waste 0.55 is above the
    threshold 0.30, and the function emits a recommendation whose
    request is the [float64] product of 180 and 1.15, which is
    206.99999999999997 (207 less 2^-45), and whose limit is 1.5 times
    that request, 310.49999999999994 (310.5 less 2^-44): the floor,
    above the tier's 220 * 1.2 = 264 and noted in the reasoning.  The
    confidence is 0.4375 and the risk level LOW. *)
Theorem cpu_worked_example :
  forall currentLimit : float64,
  exists r,
    calculateCPURecommendation NewRightsizingAnalyzer
      (nearest 400) currentLimit (nearest 100) (nearest 180) (nearest 220)
      (nearest 250) (nearest 120) (nearest 30) 500 = Some r
    /\ coefficient_of_variation (nearest 30) (nearest 120) = nearest 0.25
    /\ waste (nearest 400) (nearest 180) = nearest 0.55
    /\ ltb (waste (nearest 400) (nearest 180))
           (wasteThreshold NewRightsizingAnalyzer) = false
    /\ gtb (waste (nearest 400) (nearest 180))
           (wasteThreshold NewRightsizingAnalyzer) = true
    /\ fst (fst (cpu_tier (nearest 0.25) (nearest 220) (nearest 250)))
       = nearest 264
    /\ RecommendedRequest r = mul (nearest 180) (nearest 1.15)
    /\ RecommendedRequest r = nearest 206.99999999999997
    /\ has_value (RecommendedRequest r) (207 - 1 / 2 ^ 45)
    /\ RecommendedLimit r = mul (RecommendedRequest r) (nearest 1.5)
    /\ RecommendedLimit r = nearest 310.49999999999994
    /\ has_value (RecommendedLimit r) (310.5 - 1 / 2 ^ 44)
    /\ Reasoning r =
       "Low variability workload, using P99 + 20% for limit"
       ++ " (adjusted limit to 1.5x request)"
    /\ Confidence r = nearest 0.4375
    /\ has_value (Confidence r) 0.4375
    /\ RiskLevel r = "LOW"
    /\ ResourceType r = "CPU".
Proof.
  intro currentLimit.
  eexists. split; [vm_compute; reflexivity|].
  repeat split; evaluate.
Qed.

End WorkedExample.

(* ================================================================== *)
(** ** The cost simulation in binary64 *)
(* ================================================================== *)

Section SimulateFacts64.

Import Binary64 Api64.
Local Open Scope string_scope.

(** One round of the loop adds the [delta] of the design document. *)
Lemma change_delta_spec (db : Database) (namespace : string) (c : Change) :
  change_delta db namespace c = spec_delta c (current_of db namespace c).
Proof.
  unfold change_delta, spec_delta, current_of, getCurrentAllocation.
  destruct (latest_allocation db namespace (PodName c) (ContainerName c));
    reflexivity.
Qed.

(** The loop over the changes, started from any value of [costDelta]. *)
Lemma cost_loop_sum (db : Database) (namespace : string)
    (changes : list Change) :
  forall acc,
    fold_left (fun costDelta change =>
                 add costDelta (change_delta db namespace change))
      changes acc
    = fold_left add
        (map (fun change =>
                spec_delta change (current_of db namespace change)) changes)
        acc.
Proof.
  induction changes as [|c rest IH]; intro acc; [reflexivity|].
  cbn [fold_left map]. rewrite change_delta_spec. apply IH.
Qed.

Lemma cost_delta_sum (db : Database) (request : SimulateRequest) :
  cost_difference (SimulateCosts db request)
  = mul (spec_sum_delta db (Namespace request) (Changes request))
        (period_multiplier (Period request)).
Proof.
  unfold SimulateCosts, spec_sum_delta. cbn [cost_difference].
  rewrite cost_loop_sum. reflexivity.
Qed.

(** The multiplier is one of three positive numbers. *)
Lemma period_multiplier_cases (period : string) :
  period_multiplier period = nearest 24
  \/ period_multiplier period = nearest 720
  \/ period_multiplier period = nearest 8760.
Proof.
  unfold period_multiplier.
  destruct (String.eqb period "daily"); [left; reflexivity|].
  destruct (String.eqb period "monthly"); [right; left; reflexivity|].
  destruct (String.eqb period "yearly"); right; [right | left]; reflexivity.
Qed.

Lemma period_multiplier_finite (period : string) :
  exists m e, period_multiplier period = S754_finite false m e.
Proof.
  destruct (period_multiplier_cases period) as [H | [H | H]]; rewrite H;
    vm_compute; eauto.
Qed.

(** C8 as stated fails on [savings_percent]: in the example the handler
    computes savings of 3.600000000000364 on a current cost of 7200, a
    ratio of 0.0005000000000000505, and reports 0.050000000000005054,
    a hundred times the ratio. *)
Lemma simulate_percent_is_not_ratio :
  let r := SimulateCosts example_db example_request in
  current_cost r = nearest 7200
  /\ projected_cost r = nearest 7196.4
  /\ savings r = nearest 3.600000000000364
  /\ div (savings r) (current_cost r) = nearest 0.0005000000000000505
  /\ savings_percent r = nearest 0.050000000000005054
  /\ eqb (savings_percent r) (div (savings r) (current_cost r)) = false
  /\ Encode r = Some r.
Proof.
  repeat split; vm_compute; reflexivity.
Qed.

(** C8, amended.  For every request, with [B] the hourly cost of the
    namespace, [D] the sum, in the order of the changes, of
    [(proposed.cpu - current.cpu) * 0.00001 * replicas +
     (proposed.mem - current.mem) * 0.00000001 * replicas]
    and [m] the multiplier of the period (24 for daily, 720 for monthly,
    8760 for yearly), every operation being one of [float64]: the
    projected cost is [(B + D) * m], the savings are [B * m] less the
    projected cost, [savings_percent] is the ratio [savings / (B * m)]
    times 100, and the breakdown is 0.60, 0.20, 0.15 and 0.05 of the
    projected cost. *)
Theorem simulate_costs_formulas :
  forall (db : Database) (request : SimulateRequest),
    let r := SimulateCosts db request in
    let B := getCurrentCosts db (Namespace request) in
    let D := spec_sum_delta db (Namespace request) (Changes request) in
    let m := period_multiplier (Period request) in
    (period_multiplier "daily" = nearest 24
     /\ period_multiplier "monthly" = nearest 720
     /\ period_multiplier "yearly" = nearest 8760)
    /\ current_cost r = mul B m
    /\ projected_cost r = mul (add B D) m
    /\ cost_difference r = mul D m
    /\ savings r = sub (mul B m) (projected_cost r)
    /\ savings_percent r = mul (div (savings r) (mul B m)) (nearest 100)
    /\ compute (breakdown r) = mul (projected_cost r) (nearest 0.60)
    /\ storage (breakdown r) = mul (projected_cost r) (nearest 0.20)
    /\ network (breakdown r) = mul (projected_cost r) (nearest 0.15)
    /\ other (breakdown r) = mul (projected_cost r) (nearest 0.05).
Proof.
  intros db request r B D m.
  assert (Hp : projected_cost r = mul (add B D) m).
  { unfold r, SimulateCosts, D, spec_sum_delta. cbn [projected_cost].
    rewrite cost_loop_sum. reflexivity. }
  split; [repeat split|].
  split; [reflexivity|].
  split; [exact Hp|].
  split; [apply cost_delta_sum|].
  repeat split.
Qed.

(** [x - x] is [+0] for a finite [x]. *)
Lemma sub_diag (x : float64) : is_finite x = true -> sub x x = zero.
Proof.
  destruct x as [s | s | | s m e]; try discriminate; intros _.
  - destruct s; reflexivity.
  - unfold sub, SFsub. rewrite Z.min_id.
    unfold shl_align. rewrite Z.sub_diag. reflexivity.
Qed.

(** [x == x] for every [x] but NaN. *)
Lemma eqb_refl (x : float64) : is_nan x = false -> eqb x x = true.
Proof.
  destruct x as [s | s | | s m e]; try discriminate; intros _.
  - reflexivity.
  - destruct s; reflexivity.
  - unfold eqb, SFeqb, SFcompare.
    rewrite Z.compare_refl.
    assert (Hm : Pos.compare_cont Eq m m = Eq) by apply Pos.compare_refl.
    rewrite Hm. destruct s; reflexivity.
Qed.

(** In the handler [B + 0.0] is [B], but for a zero [B], where it is
    [+0]. *)
Lemma add_zero_r (x : float64) :
  add x zero = if is_zero x then zero else x.
Proof. destruct x as [[|] | | |]; reflexivity. Qed.

Lemma add_zero_l (x : float64) :
  add zero x = if is_zero x then zero else x.
Proof. destruct x as [[|] | | |]; reflexivity. Qed.

(** X15.  A period other than "daily", "monthly" and "yearly" is
    treated as monthly.  A request without changes has a cost difference
    of zero; if its current cost is finite, the projected cost equals
    it and the savings are zero, and if moreover the current cost is not
    zero, so is the savings percentage. *)
Theorem simulate_balance :
  forall (db : Database) (request : SimulateRequest),
    let r := SimulateCosts db request in
    (Period request <> "daily" -> Period request <> "yearly" ->
     period_multiplier (Period request) = nearest 720)
    /\ (Changes request = [] ->
        cost_difference r = zero
        /\ (is_finite (current_cost r) = true ->
            eqb (projected_cost r) (current_cost r) = true
            /\ is_zero (savings r) = true
            /\ (is_zero (current_cost r) = false ->
                projected_cost r = current_cost r
                /\ savings r = zero
                /\ is_zero (savings_percent r) = true))).
Proof.
  intros db request r. split.
  - intros Hd Hy. unfold period_multiplier.
    destruct (String.eqb (Period request) "daily") eqn:Ed;
      [apply String.eqb_eq in Ed; contradiction|].
    destruct (String.eqb (Period request) "monthly"); [reflexivity|].
    destruct (String.eqb (Period request) "yearly") eqn:Ey;
      [apply String.eqb_eq in Ey; contradiction | reflexivity].
  - intro Hnil. unfold r, SimulateCosts. rewrite Hnil.
    cbn [fold_left cost_difference current_cost projected_cost savings
         savings_percent].
    change (nearest 0.0) with zero.
    destruct (period_multiplier_finite (Period request)) as [mm [me Hm]].
    rewrite Hm.
    split; [reflexivity|].
    rewrite add_zero_r.
    set (B := getCurrentCosts db (Namespace request)).
    destruct B as [s | s | | s m e]; cbn [is_zero].
    + (* a current cost of zero *)
      intros _. split; [destruct s; reflexivity|].
      split; [destruct s; reflexivity|].
      destruct s; discriminate.
    + destruct s; discriminate.
    + discriminate.
    + set (x := mul (S754_finite s m e) (S754_finite false mm me)).
      intro Hfin.
      assert (Hnan : is_nan x = false) by (destruct x; [..|discriminate|];
                                           reflexivity || discriminate).
      split; [apply eqb_refl; exact Hnan|].
      rewrite (sub_diag x Hfin).
      split; [reflexivity|].
      intro Hnz. split; [reflexivity|]. split; [reflexivity|].
      destruct x as [sx | sx | | sx mx ex]; try discriminate.
      vm_compute. reflexivity.
Qed.

Lemma simulate_balance_witness :
  let r := SimulateCosts example_db
             {| Namespace := "shop"; Changes := []; Period := "weekly" |} in
  period_multiplier "weekly" = nearest 720
  /\ projected_cost r = current_cost r
  /\ savings r = zero
  /\ is_zero (savings_percent r) = true.
Proof.
  destruct (simulate_balance example_db
              {| Namespace := "shop"; Changes := []; Period := "weekly" |})
    as [Hm Hnil].
  destruct (Hnil eq_refl) as [_ Hfin].
  destruct (Hfin eq_refl) as [_ [_ Hnz]].
  split; [apply Hm; discriminate|].
  apply Hnz. reflexivity.
Defined.

(** The savings percentage when the current cost is [+0], by the
    projected cost. *)
Lemma percent_of_nothing (projected : float64) :
  mul (div (sub zero projected) zero) (nearest 100)
  = match projected with
    | S754_zero _ | S754_nan => S754_nan
    | S754_infinity s | S754_finite s _ _ => S754_infinity (negb s)
    end.
Proof. destruct projected as [[|] | [|] | | [|] m e]; reflexivity. Qed.

(** X16.  When the cost query of the namespace fails or gives zero, the
    current cost of the answer is zero and [savings_percent] is not a
    finite number: plus infinity when the cost difference the handler
    computed is below zero, minus infinity when it is above, and NaN
    when it is zero or NaN.  The encoder then refuses the answer, and
    nothing is written. *)
Theorem simulate_without_cost_data :
  forall (db : Database) (request : SimulateRequest),
    getCurrentCosts db (Namespace request) = zero ->
    let r := SimulateCosts db request in
    current_cost r = zero
    /\ is_finite (savings_percent r) = false
    /\ Encode r = None
    /\ (ltb (cost_difference r) zero = true ->
        savings_percent r = S754_infinity false)
    /\ (gtb (cost_difference r) zero = true ->
        savings_percent r = S754_infinity true)
    /\ (is_zero (cost_difference r) = true
        \/ is_nan (cost_difference r) = true ->
        savings_percent r = S754_nan).
Proof.
  intros db request HB r.
  destruct (period_multiplier_finite (Period request)) as [mm [me Hm]].
  set (costDelta :=
         fold_left
           (fun costDelta change =>
              add costDelta (change_delta db (Namespace request) change))
           (Changes request) (nearest 0.0)).
  set (d := mul costDelta (S754_finite false mm me)).
  assert (Hcur : current_cost r = zero).
  { unfold r, SimulateCosts. cbn [current_cost]. rewrite HB, Hm.
    reflexivity. }
  assert (Hdiff : cost_difference r = d).
  { unfold r, SimulateCosts. cbn [cost_difference]. rewrite Hm.
    reflexivity. }
  assert (Hproj : projected_cost r = if is_zero costDelta then zero else d).
  { unfold r, SimulateCosts. cbn [projected_cost]. rewrite HB, Hm.
    fold costDelta. rewrite add_zero_l.
    destruct (is_zero costDelta); reflexivity. }
  assert (Hpct : savings_percent r
                 = mul (div (sub zero (projected_cost r)) zero)
                       (nearest 100)).
  { unfold r, SimulateCosts.
    cbn [savings_percent projected_cost]. rewrite HB, Hm. reflexivity. }
  rewrite percent_of_nothing, Hproj in Hpct.
  assert (Hzero : is_zero costDelta = true -> is_zero d = true).
  { unfold d. destruct costDelta; try discriminate. reflexivity. }
  assert (Hnf : is_finite (savings_percent r) = false).
  { rewrite Hpct. destruct (is_zero costDelta); [reflexivity|].
    destruct d; reflexivity. }
  split; [exact Hcur|]. split; [exact Hnf|]. split.
  { unfold Encode, encodable. cbn [forallb]. rewrite Hnf.
    rewrite ?andb_false_r. reflexivity. }
  rewrite Hdiff, Hpct.
  destruct (is_zero costDelta) eqn:Ez.
  - specialize (Hzero eq_refl).
    destruct d as [sd | sd | | sd md ed]; try discriminate.
    split; [destruct sd; discriminate|].
    split; [destruct sd; discriminate|]. reflexivity.
  - destruct d as [sd | sd | | sd md ed].
    + split; [destruct sd; discriminate|].
      split; [destruct sd; discriminate|]. reflexivity.
    + destruct sd.
      * split; [reflexivity|]. split; [discriminate|].
        intros [H | H]; discriminate.
      * split; [discriminate|]. split; [reflexivity|].
        intros [H | H]; discriminate.
    + split; [discriminate|]. split; [discriminate|]. reflexivity.
    + destruct sd.
      * split; [reflexivity|]. split; [discriminate|].
        intros [H | H]; discriminate.
      * split; [discriminate|]. split; [reflexivity|].
        intros [H | H]; discriminate.
Qed.

(** A namespace without cost rows: halving a CPU request gives plus
    infinity, no change gives NaN, and neither answer is written.
    Changes of 10, 70 and -80 millicores, which cancel when added up
    exactly, leave a cost difference of 2^-53 * 0.703125 in [float64],
    and give minus infinity. *)
Lemma simulate_without_cost_data_witness :
  savings_percent (SimulateCosts example_db_without_costs example_request)
  = S754_infinity false
  /\ Encode (SimulateCosts example_db_without_costs example_request) = None
  /\ savings_percent
       (SimulateCosts example_db_without_costs
          {| Namespace := "shop"; Changes := []; Period := "daily" |})
     = S754_nan
  /\ has_value (cost_difference (SimulateCosts empty_db cancelling_request))
       (0.703125 / 2 ^ 53)
  /\ savings_percent (SimulateCosts empty_db cancelling_request)
     = S754_infinity true.
Proof.
  destruct (simulate_without_cost_data example_db_without_costs
              example_request eq_refl) as [_ [_ [He [Hlt _]]]].
  destruct (simulate_without_cost_data example_db_without_costs
              {| Namespace := "shop"; Changes := []; Period := "daily" |}
              eq_refl) as [_ [_ [_ [_ [_ Hnan]]]]].
  destruct (simulate_without_cost_data empty_db cancelling_request eq_refl)
    as [_ [_ [_ [_ [Hgt _]]]]].
  split; [apply Hlt; vm_compute; reflexivity|].
  split; [exact He|].
  split; [apply Hnan; left; vm_compute; reflexivity|].
  split; [vm_compute; reflexivity|].
  apply Hgt. vm_compute. reflexivity.
Defined.

End SimulateFacts64.
